(** * Snake: the game-step state machine of [script.js]

    A shallow embedding of the engine in [src/script.js]: the module-level
    variables become one record, every function of the script becomes a
    function on that record, a [TypeError] becomes the [Threw] outcome, and
    the calls of [Math.random] become reads of an oracle. *)

From Stdlib Require Import ZArith List Bool String Lia.
Import ListNotations.
Local Open Scope Z_scope.

(** ** Cells, JS numbers, outcomes *)

(** An object [{x, y}] with integer coordinates. *)
Record Cell : Set := mkCell { cx : Z; cy : Z }.

(** [a.x === b.x && a.y === b.y], the test inside every [some] callback. *)
Definition same (a b : Cell) : bool := (cx a =? cx b) && (cy a =? cy b).

(** [arr.some(c => c.x === p.x && c.y === p.y)]. *)
Definition some_at (p : Cell) (arr : list Cell) : bool := existsb (same p) arr.

(** A numeric variable of the script.  [None] stands for a value that is not
    a number ([undefined] before the first assignment, or [NaN]); arithmetic
    on it stays [None] and every comparison with it is false, as in JS. *)
Definition num : Set := option Z.

Definition js_incr (n : num) : num := option_map (fun z => z + 1) n.

(** [n % k === 0]; JS [%] truncates toward zero, hence [Z.rem]. *)
Definition js_rem_is_zero (n : num) (k : Z) : bool :=
  match n with
  | Some z => Z.rem z k =? 0
  | None => false
  end.

(** [a > b]. *)
Definition js_gt (a b : num) : bool :=
  match a, b with
  | Some x, Some y => x >? y
  | _, _ => false
  end.

(** [parseInt(item || '0', 10)] for a storage item that is absent or holds
    the decimal form of an integer. *)
Definition or_zero (item : option Z) : Z :=
  match item with
  | Some v => v
  | None => 0
  end.

(** The stream of cells that successive pairs of [Math.random()] calls
    produce: entry [i] is the pair
    [(Math.floor(Math.random()*COLS), Math.floor(Math.random()*ROWS))]
    drawn by the [i]-th loop iteration. *)
Definition Random : Type := nat -> Cell.

Definition shift (k : nat) (rnd : Random) : Random := fun i => rnd (k + i)%nat.

(** ** Game settings (script.js, lines 24-31) *)

Definition BASE_SPEED : Z := 140.
Definition SPEED_STEP : Z := 10.
Definition POINTS_PER_LEVEL : Z := 5.
Definition OBSTACLE_COUNT_BY_LEVEL : nat := 1.

(** ** The store: module variables, the two checkboxes, the message element
    and the [localStorage] entry *)

Record State : Type := mkState {
  snake : list Cell;
  dir : Cell;
  food : option Cell;               (* None: undefined *)
  obstacles : option (list Cell);   (* None: undefined *)
  score : num;
  highscore : num;
  level : num;
  running : bool;
  paused : bool;
  stepInterval : num;
  loopHandle : option num;          (* period of the armed timer, if any *)
  toggleWrap : bool;                (* toggleWrap.checked *)
  toggleObstacles : bool;           (* toggleObstacles.checked *)
  snake_high : option Z;            (* localStorage entry 'snake_high' *)
  message : option string           (* shown text; None when hidden *)
}.

Definition with_snake (v : list Cell) (s : State) : State :=
  mkState v (dir s) (food s) (obstacles s) (score s) (highscore s) (level s)
    (running s) (paused s) (stepInterval s) (loopHandle s) (toggleWrap s)
    (toggleObstacles s) (snake_high s) (message s).

Definition with_dir (v : Cell) (s : State) : State :=
  mkState (snake s) v (food s) (obstacles s) (score s) (highscore s) (level s)
    (running s) (paused s) (stepInterval s) (loopHandle s) (toggleWrap s)
    (toggleObstacles s) (snake_high s) (message s).

Definition with_food (v : option Cell) (s : State) : State :=
  mkState (snake s) (dir s) v (obstacles s) (score s) (highscore s) (level s)
    (running s) (paused s) (stepInterval s) (loopHandle s) (toggleWrap s)
    (toggleObstacles s) (snake_high s) (message s).

Definition with_obstacles (v : option (list Cell)) (s : State) : State :=
  mkState (snake s) (dir s) (food s) v (score s) (highscore s) (level s)
    (running s) (paused s) (stepInterval s) (loopHandle s) (toggleWrap s)
    (toggleObstacles s) (snake_high s) (message s).

Definition with_score (v : num) (s : State) : State :=
  mkState (snake s) (dir s) (food s) (obstacles s) v (highscore s) (level s)
    (running s) (paused s) (stepInterval s) (loopHandle s) (toggleWrap s)
    (toggleObstacles s) (snake_high s) (message s).

Definition with_highscore (v : num) (s : State) : State :=
  mkState (snake s) (dir s) (food s) (obstacles s) (score s) v (level s)
    (running s) (paused s) (stepInterval s) (loopHandle s) (toggleWrap s)
    (toggleObstacles s) (snake_high s) (message s).

Definition with_level (v : num) (s : State) : State :=
  mkState (snake s) (dir s) (food s) (obstacles s) (score s) (highscore s) v
    (running s) (paused s) (stepInterval s) (loopHandle s) (toggleWrap s)
    (toggleObstacles s) (snake_high s) (message s).

Definition with_running (v : bool) (s : State) : State :=
  mkState (snake s) (dir s) (food s) (obstacles s) (score s) (highscore s)
    (level s) v (paused s) (stepInterval s) (loopHandle s) (toggleWrap s)
    (toggleObstacles s) (snake_high s) (message s).

Definition with_paused (v : bool) (s : State) : State :=
  mkState (snake s) (dir s) (food s) (obstacles s) (score s) (highscore s)
    (level s) (running s) v (stepInterval s) (loopHandle s) (toggleWrap s)
    (toggleObstacles s) (snake_high s) (message s).

Definition with_stepInterval (v : num) (s : State) : State :=
  mkState (snake s) (dir s) (food s) (obstacles s) (score s) (highscore s)
    (level s) (running s) (paused s) v (loopHandle s) (toggleWrap s)
    (toggleObstacles s) (snake_high s) (message s).

Definition with_loopHandle (v : option num) (s : State) : State :=
  mkState (snake s) (dir s) (food s) (obstacles s) (score s) (highscore s)
    (level s) (running s) (paused s) (stepInterval s) v (toggleWrap s)
    (toggleObstacles s) (snake_high s) (message s).

Definition with_toggleWrap (v : bool) (s : State) : State :=
  mkState (snake s) (dir s) (food s) (obstacles s) (score s) (highscore s)
    (level s) (running s) (paused s) (stepInterval s) (loopHandle s) v
    (toggleObstacles s) (snake_high s) (message s).

Definition with_toggleObstacles (v : bool) (s : State) : State :=
  mkState (snake s) (dir s) (food s) (obstacles s) (score s) (highscore s)
    (level s) (running s) (paused s) (stepInterval s) (loopHandle s)
    (toggleWrap s) v (snake_high s) (message s).

Definition with_snake_high (v : option Z) (s : State) : State :=
  mkState (snake s) (dir s) (food s) (obstacles s) (score s) (highscore s)
    (level s) (running s) (paused s) (stepInterval s) (loopHandle s)
    (toggleWrap s) (toggleObstacles s) v (message s).

Definition with_message (v : option string) (s : State) : State :=
  mkState (snake s) (dir s) (food s) (obstacles s) (score s) (highscore s)
    (level s) (running s) (paused s) (stepInterval s) (loopHandle s)
    (toggleWrap s) (toggleObstacles s) (snake_high s) v.

(** A call either returns, or throws a [TypeError] that nobody catches; the
    store keeps whatever was written before the throw. *)
Inductive Outcome : Type :=
| Done (s : State)
| Threw (s : State).

Definition settle (o : Outcome) : State :=
  match o with
  | Done s => s
  | Threw s => s
  end.

Definition bind (o : Outcome) (k : State -> Outcome) : Outcome :=
  match o with
  | Done s => k s
  | Threw s => Threw s
  end.

Notation "'do' s <- o ; k" := (bind o (fun s => k))
  (at level 10, s name, o at level 100, k at level 200).

(** ** Messages and the timer *)

Definition showMessage (text : string) (s : State) : State :=
  with_message (Some text) s.

Definition hideMessage (s : State) : State := with_message None s.

(** [restartLoop]: the old timer is cleared; a new one is armed at
    [stepInterval] when the game is running and not paused. *)
Definition restartLoop (s : State) : State :=
  if running s && negb (paused s)
  then with_loopHandle (Some (stepInterval s)) s
  else with_loopHandle None s.

Definition stopLoop (s : State) : State := with_loopHandle None s.

Definition gameOver (reason : string) (s : State) : State :=
  showMessage ("Game Over — " ++ reason ++ " Press R to restart.")%string
    (stopLoop (with_running false s)).

Definition hit_wall : string := "Hit the wall!".
Definition bit_self : string := "You bit yourself!".
Definition hit_obstacle : string := "Hit an obstacle!".

(** ** Placement of food and obstacles *)

(** The [while(!ok && tries<500)] loop of [spawnFood], from [tries] on with
    [fuel = 500 - tries] iterations left.  Returns the accepted cell, if any,
    and the final value of [tries]. *)
Fixpoint spawnFood_loop (rnd : Random) (sn obs : list Cell)
    (fuel tries : nat) : option Cell * nat :=
  match fuel with
  | O => (None, tries)
  | S fuel' =>
      let f := rnd tries in
      let collSnake := some_at f sn in
      let collObs := some_at f obs in
      if negb collSnake && negb collObs
      then (Some f, S tries)
      else spawnFood_loop rnd sn obs fuel' (S tries)
  end.

Definition FOOD_TRIES : nat := 500.

(** [spawnFood()].  The first iteration already evaluates [obstacles.some],
    which throws when [obstacles] is undefined.  The second component is the
    number of samples drawn. *)
Definition spawnFood (rnd : Random) (s : State) : Outcome * nat :=
  match obstacles s with
  | None => (Threw s, 1%nat)
  | Some obs =>
      match spawnFood_loop rnd (snake s) obs FOOD_TRIES 0 with
      | (Some f, tries) => (Done (with_food (Some f) s), tries)
      | (None, tries) => (Done (with_food (Some (mkCell 0 0)) s), tries)
      end
  end.

(** [food && food.x === ox && food.y === oy]. *)
Definition food_at (p : Cell) (fd : option Cell) : bool :=
  match fd with
  | Some f => same f p
  | None => false
  end.

(** The [while(newObs.length < count && tries < 1000)] loop of
    [generateObstacles]. *)
Fixpoint generateObstacles_loop (rnd : Random) (sn : list Cell)
    (fd : option Cell) (obs : list Cell) (count fuel tries : nat)
    (newObs : list Cell) : list Cell :=
  match fuel with
  | O => newObs
  | S fuel' =>
      if (List.length newObs <? count)%nat then
        let o := rnd tries in
        if some_at o sn
        then generateObstacles_loop rnd sn fd obs count fuel' (S tries) newObs
        else if food_at o fd
        then generateObstacles_loop rnd sn fd obs count fuel' (S tries) newObs
        else if some_at o obs
        then generateObstacles_loop rnd sn fd obs count fuel' (S tries) newObs
        else generateObstacles_loop rnd sn fd obs count fuel' (S tries)
               (newObs ++ [o])
      else newObs
  end.

Definition OBSTACLE_TRIES : nat := 1000.

(** [generateObstacles(count)]; [obstacles.concat] throws on undefined. *)
Definition generateObstacles (rnd : Random) (count : nat) (s : State)
    : Outcome :=
  match obstacles s with
  | None => Threw s
  | Some obs =>
      let newObs :=
        generateObstacles_loop rnd (snake s) (food s) obs count
          OBSTACLE_TRIES 0 [] in
      Done (with_obstacles (Some (obs ++ newObs)) s)
  end.

Section Grid.

(** [COLS] and [ROWS] are computed from the canvas element, which lives in
    the page and not in the script. *)
Variables COLS ROWS : Z.

Definition in_grid (c : Cell) : Prop :=
  0 <= cx c < COLS /\ 0 <= cy c < ROWS.

(** ** initGame *)

Definition center : Cell := mkCell (COLS / 2) (ROWS / 2).
Definition right : Cell := mkCell 1 0.

(** [parseInt(localStorage.getItem('snake_high') || '0', 10)]. *)
Definition load_high (s : State) : Z := or_zero (snake_high s).

Definition initGame (rnd : Random) (s : State) : Outcome :=
  let s := with_snake [center] s in
  let s := with_dir right s in
  do s <- fst (spawnFood rnd s);
  let s := with_obstacles (Some []) s in
  let s := with_score (Some 0) s in
  let s := with_level (Some 1) s in
  let s := with_stepInterval (Some BASE_SPEED) s in
  let s := with_running false s in
  let s := with_paused false s in
  let s := with_highscore (Some (load_high s)) s in
  Done (hideMessage s).

(** ** step *)

(** Lines 101-109: the new head, wrapped when the wrap box is checked. *)
Definition newHead (wrap : bool) (head d : Cell) : Cell :=
  let nx := cx head + cx d in
  let ny := cy head + cy d in
  if wrap then mkCell (Z.rem (nx + COLS) COLS) (Z.rem (ny + ROWS) ROWS)
  else mkCell nx ny.

(** The test of line 112. *)
Definition outside (c : Cell) : bool :=
  (cx c <? 0) || (cx c >=? COLS) || (cy c <? 0) || (cy c >=? ROWS).

(** Lines 101-115: the new head that reaches the collision tests; [None]
    when the wrap box is not checked and the new head is outside the grid. *)
Definition moveHead (wrap : bool) (head d : Cell) : option Cell :=
  let nh := newHead wrap head d in
  if wrap then Some nh
  else if outside nh then None
  else Some nh.

(** [Math.max(30, BASE_SPEED - (level-1)*SPEED_STEP)]. *)
Definition speedFor (lvl : Z) : Z :=
  Z.max 30 (BASE_SPEED - (lvl - 1) * SPEED_STEP).

(** Lines 136-146. *)
Definition levelUp (rnd : Random) (s : State) : Outcome :=
  if js_rem_is_zero (score s) POINTS_PER_LEVEL then
    let s := with_level (js_incr (level s)) s in
    let s := with_stepInterval (option_map speedFor (level s)) s in
    let s := restartLoop s in
    if toggleObstacles s
    then generateObstacles rnd OBSTACLE_COUNT_BY_LEVEL s
    else Done s
  else Done s.

(** Lines 148-153.  The comparison succeeds only on two numbers, so what
    is written to the storage is always a number. *)
Definition updateHighscore (s : State) : State :=
  if js_gt (score s) (highscore s) then
    let s := with_highscore (score s) s in
    with_snake_high (highscore s) s
  else s.

(** Lines 130-156, after [snake.unshift(newHead)]. *)
Definition eatOrMove (rnd : Random) (newHead : Cell) (s : State) : Outcome :=
  match food s with
  | None => Threw s                       (* food.x on undefined *)
  | Some f =>
      if same newHead f then
        let s := with_score (js_incr (score s)) s in
        let '(o, used) := spawnFood rnd s in
        do s <- o;
        do s <- levelUp (shift used rnd) s;
        Done (updateHighscore s)
      else Done (with_snake (removelast (snake s)) s)
  end.

(** [step()].  The snake is never empty when [step] runs (see
    [snake_nonempty] below); on an empty array JS would compute with
    non-numbers and leave the array empty, and the model returns at once. *)
Definition step (rnd : Random) (s : State) : Outcome :=
  if negb (running s) || paused s then Done s else
  match snake s with
  | [] => Done s
  | head :: _ =>
      match moveHead (toggleWrap s) head (dir s) with
      | None => Done (gameOver hit_wall s)
      | Some newHead =>
          if some_at newHead (snake s) then Done (gameOver bit_self s) else
          match obstacles s with
          | None => Threw s                 (* obstacles.some on undefined *)
          | Some obs =>
              if some_at newHead obs then Done (gameOver hit_obstacle s) else
              eatOrMove rnd newHead (with_snake (newHead :: snake s) s)
          end
      end
  end.

(** ** Controls *)

Definition startGame (s : State) : State :=
  if negb (running s) then
    hideMessage (restartLoop (with_paused false (with_running true s)))
  else s.

Definition pauseGame (s : State) : State :=
  if negb (running s) then s else
  let s := with_paused (negb (paused s)) s in
  let s := showMessage (if paused s then "Paused" else "") s in
  restartLoop s.

Definition neg (d : Cell) : Cell := mkCell (- cx d) (- cy d).

Definition setDirection (newDir : Cell) (s : State) : State :=
  if same newDir (neg (dir s)) || same newDir (dir s) then s
  else with_dir newDir s.

(** ** Events of the page *)

Inductive Direction : Set := Up | Down | Left | Right.

Definition delta (d : Direction) : Cell :=
  match d with
  | Up => mkCell 0 (-1)
  | Down => mkCell 0 1
  | Left => mkCell (-1) 0
  | Right => mkCell 1 0
  end.

Inductive Event : Type :=
| Tick (rnd : Random)             (* the timer fires: step() *)
| KeyDir (d : Direction)          (* arrows, WASD *)
| PressPause                      (* space, P, the Pause button *)
| PressStart                      (* the Start button *)
| PressRestart (rnd : Random)     (* R, the Restart button *)
| ChangeWrap (checked : bool)
| ChangeObstacles (checked : bool).

Definition handle (e : Event) (s : State) : State :=
  match e with
  | Tick rnd => settle (step rnd s)
  | KeyDir d => setDirection (delta d) s
  | PressPause => pauseGame s
  | PressStart => startGame s
  | PressRestart rnd =>
      settle (do s <- initGame rnd s; Done (startGame s))
  | ChangeWrap b => with_toggleWrap b s
  | ChangeObstacles b =>
      let s := with_toggleObstacles b s in
      if negb b then with_obstacles (Some []) s else s
  end.

Definition run (evs : list Event) (s : State) : State :=
  fold_left (fun s e => handle e s) evs s.

(** The store once the declarations of lines 33-36 have run and before the
    call of [initGame] on the last line.  [snake] and [dir] are undefined
    there; [initGame] assigns both before anything reads them, so the
    values given to them here are never observed.  The checkboxes, the
    message element and the storage entry are whatever the page holds. *)
Definition declared (wrap obst : bool) (stored : option Z)
    (msg : option string) : State :=
  mkState [] (mkCell 0 0) None None None None None false false
    (Some BASE_SPEED) None wrap obst stored msg.

(** The store when the script has been loaded (line 263 has run). *)
Definition loaded (rnd : Random) (wrap obst : bool) (stored : option Z)
    (msg : option string) : State :=
  settle (initGame rnd (declared wrap obst stored msg)).

Inductive reachable : State -> Prop :=
| reach_loaded rnd wrap obst stored msg :
    reachable (loaded rnd wrap obst stored msg)
| reach_handle s e : reachable s -> reachable (handle e s).

End Grid.


(** * Notions used by the properties *)

(** The fields no placement, level-up or record update ever writes. *)
Definition same_control (s s' : State) : Prop :=
  snake s' = snake s /\ dir s' = dir s /\ running s' = running s /\
  paused s' = paused s /\ toggleWrap s' = toggleWrap s /\
  toggleObstacles s' = toggleObstacles s /\ message s' = message s.

(** The spec's positive modulo, [((v % n) + n) % n], with JS's truncating
    [%]. *)
Definition posmod_spec (v n : Z) : Z := Z.rem (Z.rem v n + n) n.

(** A sampled cell is accepted by [spawnFood]. *)
Definition is_free (sn obs : list Cell) (c : Cell) : bool :=
  negb (some_at c sn) && negb (some_at c obs).

(** A tick is effective when the game is running and not paused. *)
Definition effective (s : State) : bool := running s && negb (paused s).

(** The states a run goes through, the starting one first. *)
Fixpoint trace (COLS ROWS : Z) (evs : list Event) (s : State) : list State :=
  s :: match evs with
       | [] => []
       | e :: evs' => trace COLS ROWS evs' (handle COLS ROWS e s)
       end.

(** The directions consumed by the effective ticks of a run, in order. *)
Fixpoint consumed (COLS ROWS : Z) (evs : list Event) (s : State)
    : list Cell :=
  match evs with
  | [] => []
  | e :: evs' =>
      let rest := consumed COLS ROWS evs' (handle COLS ROWS e s) in
      match e with
      | Tick _ => if effective s then dir s :: rest else rest
      | _ => rest
      end
  end.

(** No two consecutive entries are opposite. *)
Definition no_reversal (ds : list Cell) : Prop :=
  forall i d1 d2,
    nth_error ds i = Some d1 -> nth_error ds (S i) = Some d2 ->
    d2 <> neg d1.

Definition max_with (m : Z) (sc : num) : Z :=
  match sc with
  | Some v => Z.max m v
  | None => m
  end.

(** The largest of [m] and the scores held by the given states. *)
Definition max_seen (m : Z) (states : list State) : Z :=
  fold_left (fun m s => max_with m (score s)) states m.

(** The tick interval is the one of the level, once there is a level. *)
Definition interval_ok (s : State) : Prop :=
  forall l, level s = Some l -> stepInterval s = Some (speedFor l).

(** The stored record is [m]; the high score, once loaded, is the stored
    record; the score, once set, is between 0 and the high score. *)
Definition record_is (m : Z) (s : State) : Prop :=
  load_high s = m /\
  (forall h, highscore s = Some h -> h = m) /\
  (forall sc, score s = Some sc -> 0 <= sc <= m /\ highscore s = Some m).

(** What every reachable state satisfies about its snake. *)
Definition snake_ok (s : State) : Prop :=
  NoDup (snake s) /\ snake s <> [] /\ exists k, dir s = delta k.

Definition snake_in_grid (COLS ROWS : Z) (s : State) : Prop :=
  Forall (in_grid COLS ROWS) (snake s).

(** The numbers a call leaves alone. *)
Definition same_numbers (s s' : State) : Prop :=
  score s' = score s /\ level s' = level s /\
  stepInterval s' = stepInterval s /\ highscore s' = highscore s /\
  snake_high s' = snake_high s.

(** The numbers after a food is eaten, [s] being the state before. *)
Definition eaten_numbers (s s' : State) : Prop :=
  let sc := js_incr (score s) in
  score s' = sc /\
  level s' = (if js_rem_is_zero sc POINTS_PER_LEVEL
              then js_incr (level s) else level s) /\
  stepInterval s' = (if js_rem_is_zero sc POINTS_PER_LEVEL
                     then option_map speedFor (js_incr (level s))
                     else stepInterval s) /\
  highscore s' = (if js_gt sc (highscore s) then sc else highscore s) /\
  snake_high s' = (if js_gt sc (highscore s) then sc else snake_high s).

(** The numbers after a completed [initGame], [s] being the state before. *)
Definition reset_numbers (s s' : State) : Prop :=
  score s' = Some 0 /\ level s' = Some 1 /\
  stepInterval s' = Some BASE_SPEED /\
  highscore s' = Some (load_high s) /\ snake_high s' = snake_high s.

(** The state a completed [initGame] leaves, [f] being the food placed. *)
Definition fresh_game (COLS ROWS : Z) (f : Cell) (s : State) : State :=
  mkState [center COLS ROWS] right (Some f) (Some []) (Some 0)
    (Some (load_high s)) (Some 1) false false (Some BASE_SPEED)
    (loopHandle s) (toggleWrap s) (toggleObstacles s) (snake_high s) None.

(** ** Sample streams and runs on a 10 x 10 grid *)

Definition always (c : Cell) : Random := fun _ => c.

Definition from_list (l : list Cell) (rest : Cell) : Random :=
  fun i => nth i l rest.

(** The script loaded on a 10 x 10 grid, nothing in the storage, both
    boxes unchecked. *)
Definition boot10 : State :=
  loaded 10 10 (always (mkCell 0 0)) false false None None.

(** Checking and unchecking the obstacle box defines [obstacles]; Restart
    then starts a game with the food at [f]. *)
Definition begin10 (f : Cell) : list Event :=
  [ChangeObstacles true; ChangeObstacles false; PressRestart (always f)].

(** Food at (6,5), eaten by the first tick; then Up and Left are pressed
    before the second tick. *)
Definition double_turn : list Event :=
  begin10 (mkCell 6 5) ++
  [Tick (always (mkCell 2 2)); KeyDir Up; KeyDir Left].

Definition before_bite10 : State := run 10 10 double_turn boot10.

Definition bitten10 : State :=
  handle 10 10 (Tick (always (mkCell 2 2))) before_bite10.

(** Food at (0,0); the snake goes up five cells and left five cells, every
    sample drawn on the way being (0,0). *)
Definition to_corner : list Event :=
  begin10 (mkCell 0 0) ++ [KeyDir Up] ++
  repeat (Tick (always (mkCell 0 0))) 5 ++ [KeyDir Left] ++
  repeat (Tick (always (mkCell 0 0))) 4.

Definition near_corner10 : State := run 10 10 to_corner boot10.

Definition corner10 : State :=
  handle 10 10 (Tick (always (mkCell 0 0))) near_corner10.

(** Obstacle mode on; five foods eaten in a row, the fifth bringing level 2
    and an obstacle at (3,3). *)
Definition five_foods : list Event :=
  [ChangeObstacles true; ChangeObstacles false; ChangeObstacles true;
   PressRestart (always (mkCell 6 5));
   Tick (always (mkCell 7 5)); Tick (always (mkCell 8 5));
   Tick (always (mkCell 9 5)); Tick (always (mkCell 9 6));
   KeyDir Down; Tick (from_list [mkCell 0 0] (mkCell 3 3))].

Definition level2_10 : State := run 10 10 five_foods boot10.

(** A fresh game with the food right of the snake, and the tick that eats
    it. *)
Definition fresh10 : State := run 10 10 (begin10 (mkCell 6 5)) boot10.

Definition fed10 : State := handle 10 10 (Tick (always (mkCell 2 2))) fresh10.

(** Food at (0,0), out of the way: four ticks take the snake to the right
    edge. *)
Definition to_wall : list Event :=
  begin10 (mkCell 0 0) ++ repeat (Tick (always (mkCell 0 0))) 4.

Definition at_wall10 : State := run 10 10 to_wall boot10.

(** The same with the wrap box checked. *)
Definition at_wall10_wrap : State := handle 10 10 (ChangeWrap true) at_wall10.

(** The obstacle box checked and unchecked, then Start: a running game
    whose [initGame] never completed, so without food. *)
Definition no_food10 : State :=
  run 10 10 [ChangeObstacles true; ChangeObstacles false; PressStart] boot10.

(** Four foods eaten, the fifth one cell below the head. *)
Definition before_level2_10 : State :=
  run 10 10 (removelast five_foods) boot10.

(** The script loaded with a record of 7 left in the storage by an earlier
    visit of the page. *)
Definition boot10_record7 : State :=
  loaded 10 10 (always (mkCell 0 0)) false false (Some 7) None.

(** ** The rest of the page: drawing and the keyboard *)

Definition TILE : Z := 16.

(** The arguments of a [fillRect] call: corner, width, height. *)
Record Rect : Set := mkRect { rx : Z; ry : Z; rw : Z; rh : Z }.

(** The pixels a [fillRect] call covers. *)
Definition covers (r : Rect) (px py : Z) : Prop :=
  rx r <= px < rx r + rw r /\ ry r <= py < ry r + rh r.

(** [drawCell(x, y, color)]: the rectangle it fills. *)
Definition drawCell (c : Cell) : Rect :=
  mkRect (cx c * TILE) (cy c * TILE) (TILE - 1) (TILE - 1).

(** The fill styles of [draw].  The body style is the template string of
    line 172, whose alpha is computed from the index in floating point; the
    index stands for it. *)
Inductive Style : Set :=
| FoodRed
| ObstaclePurple
| HeadGreen
| BodyGreen (idx : nat).

(** The callback of [snake.forEach] in [draw]. *)
Definition snakeStyle (idx : nat) : Style :=
  match idx with
  | O => HeadGreen
  | S _ => BodyGreen idx
  end.

Fixpoint drawSnake (idx : nat) (sn : list Cell) : list (Rect * Style) :=
  match sn with
  | [] => []
  | c :: sn' => (drawCell c, snakeStyle idx) :: drawSnake (S idx) sn'
  end.

(** [draw()]: the [fillRect] calls made on the cleared canvas, in order;
    [None] when reading the food or the obstacles throws. *)
Definition draw (s : State) : option (list (Rect * Style)) :=
  match food s with
  | None => None
  | Some f =>
      match obstacles s with
      | None => None
      | Some obs =>
          Some ((drawCell f, FoodRed)
                  :: map (fun o => (drawCell o, ObstaclePurple)) obs
                  ++ drawSnake 0 (snake s))
      end
  end.

(** [[...].includes(e.key)]. *)
Definition includes (keys : list string) (key : string) : bool :=
  existsb (String.eqb key) keys.

(** The [keydown] listener (lines 226-240); [rnd] is the stream a restart
    draws from. *)
Definition keydown (COLS ROWS : Z) (rnd : Random) (key : string)
    (s : State) : State :=
  let s := if includes ["ArrowUp"%string; "w"%string; "W"%string] key
           then setDirection (mkCell 0 (-1)) s else s in
  let s := if includes ["ArrowDown"%string; "s"%string; "S"%string] key
           then setDirection (mkCell 0 1) s else s in
  let s := if includes ["ArrowLeft"%string; "a"%string; "A"%string] key
           then setDirection (mkCell (-1) 0) s else s in
  let s := if includes ["ArrowRight"%string; "d"%string; "D"%string] key
           then setDirection (mkCell 1 0) s else s in
  let s := if String.eqb key " "%string || String.eqb key "p"%string
              || String.eqb key "P"%string
           then pauseGame s else s in
  if String.eqb key "r"%string || String.eqb key "R"%string
  then settle (do s <- initGame COLS ROWS rnd s; Done (startGame s))
  else s.

(** The event a key stands for, if any. *)
Definition key_event (rnd : Random) (key : string) : option Event :=
  if includes ["ArrowUp"%string; "w"%string; "W"%string] key
  then Some (KeyDir Up)
  else if includes ["ArrowDown"%string; "s"%string; "S"%string] key
  then Some (KeyDir Down)
  else if includes ["ArrowLeft"%string; "a"%string; "A"%string] key
  then Some (KeyDir Left)
  else if includes ["ArrowRight"%string; "d"%string; "D"%string] key
  then Some (KeyDir Right)
  else if includes [" "%string; "p"%string; "P"%string] key
  then Some PressPause
  else if includes ["r"%string; "R"%string] key
  then Some (PressRestart rnd)
  else None.

(** ** More notions used by the properties *)

(** A sampled cell is accepted by [generateObstacles]. *)
Definition obstacle_free (sn : list Cell) (fd : option Cell)
    (obs : list Cell) (c : Cell) : bool :=
  negb (some_at c sn) && negb (food_at c fd) && negb (some_at c obs).

(** The food eaten in [s] brings the score to a multiple of
    [POINTS_PER_LEVEL]. *)
Definition levels_up (s : State) : bool :=
  js_rem_is_zero (js_incr (score s)) POINTS_PER_LEVEL.

(** No cell of the snake is an obstacle. *)
Definition snake_off_obstacles (s : State) : Prop :=
  forall obs c, obstacles s = Some obs -> In c (snake s) -> ~ In c obs.

(** The food is on no snake cell and on no obstacle, unless it is the
    fallback cell. *)
Definition food_clear (s : State) : Prop :=
  forall f, food s = Some f -> f <> mkCell 0 0 ->
    ~ In f (snake s) /\ forall obs, obstacles s = Some obs -> ~ In f obs.

(** Once there is a score, it counts the cells of the snake but one, the
    level is one more than the completed groups of [POINTS_PER_LEVEL]
    points, and food and obstacles are defined. *)
Definition score_counts (s : State) : Prop :=
  forall n, score s = Some n ->
    0 <= n /\ Z.of_nat (List.length (snake s)) = n + 1 /\
    level s = Some (1 + n / POINTS_PER_LEVEL) /\
    food s <> None /\ obstacles s <> None.

(** The timer is armed exactly when the game is running and not paused,
    and then at the current interval. *)
Definition timer_ok (s : State) : Prop :=
  loopHandle s =
  if running s && negb (paused s) then Some (stepInterval s) else None.

(** The food is placed only once the obstacles are defined. *)
Definition food_after_obstacles (s : State) : Prop :=
  food s <> None -> obstacles s <> None.

(** What every reachable state satisfies about the board and the timer. *)
Definition board_ok (s : State) : Prop :=
  snake_off_obstacles s /\ food_clear s /\ score_counts s /\
  timer_ok s /\ food_after_obstacles s.

(** Nothing of the game is defined yet but the snake and the direction. *)
Definition blank (s : State) : Prop :=
  food s = None /\ obstacles s = None /\ score s = None /\
  level s = None /\ highscore s = None.

Definition is_uncheck_obstacles (e : Event) : bool :=
  match e with
  | ChangeObstacles false => true
  | _ => false
  end.

(** The samples an event may draw all lie in the grid. *)
Definition draws_in_grid (COLS ROWS : Z) (e : Event) : Prop :=
  match e with
  | Tick rnd | PressRestart rnd => forall i, in_grid COLS ROWS (rnd i)
  | _ => True
  end.

(** Food and obstacles lie in the grid. *)
Definition placed_in_grid (COLS ROWS : Z) (s : State) : Prop :=
  (forall f, food s = Some f -> in_grid COLS ROWS f) /\
  (forall obs, obstacles s = Some obs -> Forall (in_grid COLS ROWS) obs).

(** What a tick that eats the food [nh] leaves, [s] being the state before
    and [obs] its obstacles. *)
Definition ate (rnd : Random) (s : State) (nh : Cell) (obs : list Cell)
    (s' : State) : Prop :=
  snake s' = nh :: snake s /\
  (exists f', food s' = Some f' /\
     ((~ In f' (nh :: snake s) /\ ~ In f' obs /\ exists k, f' = rnd k) \/
      f' = mkCell 0 0) /\
     exists extra,
       obstacles s' = Some (obs ++ extra) /\
       (List.length extra <= 1)%nat /\
       (extra <> [] -> toggleObstacles s = true /\ levels_up s = true) /\
       forall c, In c extra ->
         ~ In c (nh :: snake s) /\ c <> f' /\ ~ In c obs /\
         exists k, c = rnd k) /\
  eaten_numbers s s' /\
  loopHandle s' = (if levels_up s
                   then (if running s && negb (paused s)
                         then Some (stepInterval s') else None)
                   else loopHandle s) /\
  dir s' = dir s /\ running s' = running s /\ paused s' = paused s /\
  toggleWrap s' = toggleWrap s /\ toggleObstacles s' = toggleObstacles s /\
  message s' = message s.

(** Closes the arithmetic goals left by a case on the numbers. *)
Ltac numbers :=
  repeat split; intros;
  repeat match goal with
         | H : Some _ = Some _ |- _ => injection H as H; try subst
         end;
  try discriminate; try congruence; try lia.

Arguments spawnFood_loop : simpl never.
Arguments generateObstacles_loop : simpl never.
Arguments js_rem_is_zero : simpl never.
Arguments js_gt : simpl never.
Arguments js_incr : simpl never.
Arguments speedFor : simpl never.

(** * Properties *)

(** ** Cells and [some] *)

Lemma same_spec (a b : Cell) : same a b = true <-> a = b.
Proof.
  destruct a as [ax ay], b as [bx by_]; unfold same; simpl.
  rewrite andb_true_iff, !Z.eqb_eq. split.
  - intros [-> ->]; reflexivity.
  - intros [= -> ->]; split; reflexivity.
Qed.

Lemma same_refl (a : Cell) : same a a = true.
Proof. apply same_spec; reflexivity. Qed.

Lemma some_at_In (p : Cell) (arr : list Cell) :
  some_at p arr = true <-> In p arr.
Proof.
  unfold some_at. rewrite existsb_exists. split.
  - intros (c & Hc & Hs). apply same_spec in Hs. subst; assumption.
  - intros H. exists p. split; [assumption | apply same_refl].
Qed.

Lemma some_at_not_In (p : Cell) (arr : list Cell) :
  some_at p arr = false <-> ~ In p arr.
Proof.
  rewrite <- some_at_In. destruct (some_at p arr); split; congruence.
Qed.

Lemma NoDup_removelast (A : Type) (l : list A) :
  NoDup l -> NoDup (removelast l).
Proof.
  induction l as [|a l IH]; intros H; [exact H|].
  inversion H as [|? ? Hnotin Hnd]; subst.
  destruct l as [|b l]; [constructor|].
  change (NoDup (a :: removelast (b :: l))). constructor.
  - intros Hin. apply Hnotin.
    clear - Hin. revert b Hin. induction l as [|c l IHl]; intros b Hin.
    + destruct Hin.
    + destruct Hin as [<- | Hin]; [left; reflexivity|].
      right. apply IHl. exact Hin.
  - apply IH. exact Hnd.
Qed.

Lemma In_removelast (A : Type) (x : A) (l : list A) :
  In x (removelast l) -> In x l.
Proof.
  induction l as [|a l IH]; [intros []|].
  destruct l as [|b l]; [intros []|].
  change (In x (a :: removelast (b :: l)) -> In x (a :: b :: l)).
  intros [<- | H]; [left; reflexivity | right; apply IH; exact H].
Qed.

Lemma last_nonempty_In (A : Type) (l : list A) (d : A) :
  l <> [] -> In (last l d) l.
Proof.
  intros Hne. rewrite (app_removelast_last d Hne) at 2.
  apply in_or_app. right. left. reflexivity.
Qed.

Lemma length_removelast_cons (A : Type) (a : A) (l : list A) :
  List.length (removelast (a :: l)) = List.length l.
Proof.
  revert a. induction l as [|b l IH]; intros a; [reflexivity|].
  change (S (List.length (removelast (b :: l))) = S (List.length l)).
  f_equal. apply IH.
Qed.

(** ** What the pieces of [step] leave alone *)

Lemma same_control_refl s : same_control s s.
Proof. repeat split. Qed.

Lemma same_control_trans s1 s2 s3 :
  same_control s1 s2 -> same_control s2 s3 -> same_control s1 s3.
Proof.
  unfold same_control. intros H1 H2.
  decompose [and] H1. decompose [and] H2. repeat split; congruence.
Qed.

Lemma spawnFood_control rnd s :
  same_control s (settle (fst (spawnFood rnd s))).
Proof.
  unfold spawnFood. destruct (obstacles s); [|apply same_control_refl].
  destruct (spawnFood_loop _ _ _ _ _) as [[f|] t]; repeat split.
Qed.

Lemma generateObstacles_control rnd n s :
  same_control s (settle (generateObstacles rnd n s)).
Proof.
  unfold generateObstacles. destruct (obstacles s); repeat split.
Qed.

Lemma levelUp_control rnd s : same_control s (settle (levelUp rnd s)).
Proof.
  unfold levelUp. destruct (js_rem_is_zero _ _); [|apply same_control_refl].
  match goal with |- context [if ?b then _ else _] => destruct b end.
  - eapply same_control_trans; [|apply generateObstacles_control].
    unfold restartLoop; simpl. destruct (_ && _); repeat split.
  - unfold restartLoop; simpl. destruct (_ && _); repeat split.
Qed.

Lemma updateHighscore_control s : same_control s (updateHighscore s).
Proof.
  unfold updateHighscore. destruct (js_gt _ _); repeat split.
Qed.

(** Eating: the outcome of lines 131-153 as one chain. *)
Lemma eat_control rnd s :
  same_control s
    (settle (let '(o, used) := spawnFood rnd s in
             do s <- o; do s <- levelUp (shift used rnd) s;
             Done (updateHighscore s))).
Proof.
  pose proof (spawnFood_control rnd s) as H1.
  destruct (spawnFood rnd s) as [[s1|s1] used]; simpl in *; [|exact H1].
  pose proof (levelUp_control (shift used rnd) s1) as H2.
  destruct (levelUp (shift used rnd) s1) as [s2|s2]; simpl in *.
  - eapply same_control_trans; [exact H1|].
    eapply same_control_trans; [exact H2|]. apply updateHighscore_control.
  - eapply same_control_trans; [exact H1|exact H2].
Qed.

Lemma eatOrMove_flags rnd nh s :
  let s' := settle (eatOrMove rnd nh s) in
  dir s' = dir s /\ running s' = running s /\ paused s' = paused s /\
  toggleWrap s' = toggleWrap s /\ toggleObstacles s' = toggleObstacles s.
Proof.
  unfold eatOrMove. destruct (food s) as [f|]; [|repeat split].
  destruct (same nh f); [|repeat split].
  pose proof (eat_control rnd (with_score (js_incr (score s)) s)) as H.
  unfold same_control in H; simpl in *. decompose [and] H.
  repeat split; assumption.
Qed.

(** The snake after [eatOrMove]: kept whole when the food is eaten (or when
    reading the food throws), shortened by its last cell otherwise. *)
Lemma eatOrMove_snake rnd nh s :
  snake (settle (eatOrMove rnd nh s)) =
  match food s with
  | Some f => if same nh f then snake s else removelast (snake s)
  | None => snake s
  end.
Proof.
  unfold eatOrMove. destruct (food s) as [f|]; [|reflexivity].
  destruct (same nh f); [|reflexivity].
  pose proof (eat_control rnd (with_score (js_incr (score s)) s)) as H.
  destruct H as [H _]. exact H.
Qed.

Section Ticks.

Variables COLS ROWS : Z.

(** [step] unfolded along its branches, for a running, unpaused game. *)
Lemma step_running rnd s head tl :
  running s = true -> paused s = false -> snake s = head :: tl ->
  step COLS ROWS rnd s =
  match moveHead COLS ROWS (toggleWrap s) head (dir s) with
  | None => Done (gameOver hit_wall s)
  | Some newHead =>
      if some_at newHead (snake s) then Done (gameOver bit_self s) else
      match obstacles s with
      | None => Threw s
      | Some obs =>
          if some_at newHead obs then Done (gameOver hit_obstacle s) else
          eatOrMove rnd newHead (with_snake (newHead :: snake s) s)
      end
  end.
Proof.
  intros Hr Hp Hs. unfold step. rewrite Hr, Hp, Hs. reflexivity.
Qed.

Lemma step_idle rnd s :
  running s = false \/ paused s = true -> step COLS ROWS rnd s = Done s.
Proof.
  intros [H|H]; unfold step; rewrite H; simpl;
    [reflexivity | rewrite orb_true_r; reflexivity].
Qed.

(** A tick never touches the running flag except through [gameOver]; the
    other flags it never touches. *)
Lemma step_flags rnd s :
  let s' := settle (step COLS ROWS rnd s) in
  dir s' = dir s /\ paused s' = paused s /\
  toggleWrap s' = toggleWrap s /\ toggleObstacles s' = toggleObstacles s.
Proof.
  unfold step.
  destruct (negb (running s) || paused s); [repeat split|].
  destruct (snake s) as [|head tl]; [repeat split|].
  destruct (moveHead _ _ _ _ _) as [nh|]; [|repeat split].
  destruct (some_at nh _); [repeat split|].
  destruct (obstacles s) as [obs|]; [|repeat split].
  destruct (some_at nh obs); [repeat split|].
  pose proof (eatOrMove_flags rnd nh
                (with_snake (nh :: head :: tl) s)) as H.
  simpl in H. decompose [and] H. repeat split; assumption.
Qed.

(** A tick that returns with the running flag cleared went through
    [gameOver]. *)
Lemma ending_tick_cases rnd s s' :
  running s = true -> paused s = false ->
  step COLS ROWS rnd s = Done s' -> running s' = false ->
  exists reason, In reason [hit_wall; bit_self; hit_obstacle] /\
                 s' = gameOver reason s.
Proof.
  intros Hr Hp Hstep Hend.
  destruct (snake s) as [|head tl] eqn:Hs.
  - unfold step in Hstep. rewrite Hr, Hp, Hs in Hstep. simpl in Hstep.
    injection Hstep as <-. congruence.
  - rewrite (step_running rnd s head tl Hr Hp Hs) in Hstep.
    destruct (moveHead _ _ _ _ _) as [nh|];
      [|injection Hstep as <-; exists hit_wall; simpl; auto].
    destruct (some_at nh (snake s));
      [injection Hstep as <-; exists bit_self; simpl; auto|].
    destruct (obstacles s) as [obs|] eqn:Hobs; [|discriminate].
    destruct (some_at nh obs);
      [injection Hstep as <-; exists hit_obstacle; simpl; auto|].
    pose proof (eatOrMove_flags rnd nh (with_snake (nh :: snake s) s)) as H.
    rewrite Hstep in H. simpl in H. destruct H as (_ & H & _). congruence.
Qed.

(** C10: a tick that ends the run changes nothing of the game but the
    running flag: the returned state is [gameOver reason s] for one of the
    three reasons, so Snake, Food, Obstacles, score, level and the tick
    interval (and the direction, pause flag and high score) are those of
    before the tick, and the colliding head is not in the Snake unless it
    already was. *)
Theorem game_over_tick_is_atomic rnd s s' :
  running s = true -> paused s = false ->
  step COLS ROWS rnd s = Done s' -> running s' = false ->
  (exists reason, In reason [hit_wall; bit_self; hit_obstacle] /\
                  s' = gameOver reason s) /\
  snake s' = snake s /\ food s' = food s /\ obstacles s' = obstacles s /\
  score s' = score s /\ level s' = level s /\
  stepInterval s' = stepInterval s /\ dir s' = dir s /\
  paused s' = paused s /\ highscore s' = highscore s /\
  snake_high s' = snake_high s.
Proof.
  intros Hr Hp Hstep Hend.
  destruct (ending_tick_cases rnd s s' Hr Hp Hstep Hend)
    as (reason & Hin & ->).
  split; [exists reason; split; [exact Hin | reflexivity]|].
  repeat split.
Qed.

(** A tick that returns with the game still running has moved the snake:
    the new head passed the three collision tests and the food is read. *)
Lemma step_moves rnd s s' head tl :
  running s = true -> paused s = false -> snake s = head :: tl ->
  step COLS ROWS rnd s = Done s' -> running s' = true ->
  exists nh f obs,
    moveHead COLS ROWS (toggleWrap s) head (dir s) = Some nh /\
    food s = Some f /\ obstacles s = Some obs /\
    ~ In nh (snake s) /\ ~ In nh obs /\
    eatOrMove rnd nh (with_snake (nh :: snake s) s) = Done s' /\
    snake s' = if same nh f then nh :: snake s
               else removelast (nh :: snake s).
Proof.
  intros Hr Hp Hs Hstep Hrun.
  rewrite (step_running rnd s head tl Hr Hp Hs) in Hstep.
  destruct (moveHead _ _ _ _ _) as [nh|];
    [|injection Hstep as <-; discriminate].
  destruct (some_at nh (snake s)) eqn:Hself;
    [injection Hstep as <-; discriminate|].
  destruct (obstacles s) as [obs|] eqn:Hobs; [|discriminate].
  destruct (some_at nh obs) eqn:Hhit;
    [injection Hstep as <-; discriminate|].
  destruct (food s) as [f|] eqn:Hf.
  - exists nh, f, obs. apply some_at_not_In in Hself, Hhit.
    repeat split; try assumption.
    pose proof (eatOrMove_snake rnd nh (with_snake (nh :: snake s) s)) as H.
    rewrite Hstep in H. simpl in H. rewrite Hf in H. exact H.
  - unfold eatOrMove in Hstep. simpl in Hstep. rewrite Hf in Hstep.
    discriminate.
Qed.

(** ** Wrapping *)

Lemma wrap_coord (n v : Z) :
  0 < n -> -1 <= v <= n ->
  Z.rem (v + n) n = (if v =? -1 then n - 1 else if v =? n then 0 else v).
Proof.
  intros Hn Hv. rewrite Z.rem_mod_nonneg by lia.
  destruct (Z.eqb_spec v (-1)) as [->|Hm].
  - replace (-1 + n) with (n - 1) by lia. apply Z.mod_small. lia.
  - destruct (Z.eqb_spec v n) as [->|Hx].
    + replace (n + n) with (0 + 2 * n) by lia.
      rewrite Z.mod_add by lia. apply Z.mod_small. lia.
    + replace (v + n) with (v + 1 * n) by lia.
      rewrite Z.mod_add by lia. apply Z.mod_small. lia.
Qed.

Lemma posmod_coord (n v : Z) :
  0 < n -> -1 <= v <= n ->
  posmod_spec v n = (if v =? -1 then n - 1 else if v =? n then 0 else v).
Proof.
  intros Hn Hv. unfold posmod_spec.
  destruct (Z.eqb_spec v (-1)) as [->|Hm].
  - destruct (Z.eq_dec n 1) as [->|Hn1]; [reflexivity|].
    assert (E : Z.rem (-1) n = -1).
    { change (-1) with (- (1)). rewrite Z.rem_opp_l by lia.
      rewrite Z.rem_small by lia. reflexivity. }
    rewrite E. replace (-1 + n) with (n - 1) by lia.
    apply Z.rem_small. lia.
  - destruct (Z.eqb_spec v n) as [->|Hx].
    + rewrite Z.rem_same by lia. simpl. apply Z.rem_same. lia.
    + rewrite (Z.rem_small v n) by lia.
      rewrite (wrap_coord n v Hn Hv).
      destruct (Z.eqb_spec v (-1)); [lia|].
      destruct (Z.eqb_spec v n); [lia|]. reflexivity.
Qed.

Lemma delta_unit (k : Direction) :
  (-1 <= cx (delta k) <= 1) /\ (-1 <= cy (delta k) <= 1) /\
  (cx (delta k) = 0 \/ cy (delta k) = 0).
Proof. destruct k; simpl; lia. Qed.

Lemma moveHead_wrap (h : Cell) (k : Direction) :
  0 < COLS -> 0 < ROWS -> in_grid COLS ROWS h ->
  moveHead COLS ROWS true h (delta k) =
  Some (mkCell (posmod_spec (cx h + cx (delta k)) COLS)
               (posmod_spec (cy h + cy (delta k)) ROWS)).
Proof.
  intros HC HR [Hx Hy]. pose proof (delta_unit k) as (Dx & Dy & _).
  unfold moveHead, newHead.
  rewrite !posmod_coord, !wrap_coord by lia. reflexivity.
Qed.

End Ticks.

(** ** Food placement *)

Lemma is_free_spec sn obs c :
  is_free sn obs c = true <-> ~ In c sn /\ ~ In c obs.
Proof.
  unfold is_free. rewrite andb_true_iff, !negb_true_iff, !some_at_not_In.
  reflexivity.
Qed.

Lemma is_free_false sn obs c :
  is_free sn obs c = false <-> In c sn \/ In c obs.
Proof.
  unfold is_free. rewrite andb_false_iff, !negb_false_iff, !some_at_In.
  reflexivity.
Qed.

Lemma spawnFood_loop_O rnd sn obs tries :
  spawnFood_loop rnd sn obs 0 tries = (None, tries).
Proof. reflexivity. Qed.

Lemma spawnFood_loop_S rnd sn obs fuel tries :
  spawnFood_loop rnd sn obs (S fuel) tries =
  if is_free sn obs (rnd tries) then (Some (rnd tries), S tries)
  else spawnFood_loop rnd sn obs fuel (S tries).
Proof. reflexivity. Qed.

(** The loop stops at the first accepted sample, or runs out of fuel. *)
Lemma spawnFood_loop_spec rnd sn obs fuel : forall tries,
  (exists k, (k < fuel)%nat /\
     is_free sn obs (rnd (tries + k)%nat) = true /\
     (forall j, (j < k)%nat -> is_free sn obs (rnd (tries + j)%nat) = false) /\
     spawnFood_loop rnd sn obs fuel tries =
       (Some (rnd (tries + k)%nat), S (tries + k))) \/
  ((forall j, (j < fuel)%nat ->
      is_free sn obs (rnd (tries + j)%nat) = false) /\
   spawnFood_loop rnd sn obs fuel tries = (None, (tries + fuel)%nat)).
Proof.
  induction fuel as [|fuel IH]; intros tries.
  - right. split; [intros j Hj; lia|].
    rewrite spawnFood_loop_O, Nat.add_0_r. reflexivity.
  - rewrite spawnFood_loop_S.
    destruct (is_free sn obs (rnd tries)) eqn:Hfree.
    + left. exists 0%nat. rewrite Nat.add_0_r.
      repeat split; [lia | assumption | intros j Hj; lia].
    + destruct (IH (S tries)) as [(k & Hk & Hf & Hbefore & Heq) | [Hall Heq]].
      * left. exists (S k).
        replace (tries + S k)%nat with (S tries + k)%nat by lia.
        repeat split; [lia | assumption | | assumption].
        intros [|j] Hj; [rewrite Nat.add_0_r; assumption|].
        replace (tries + S j)%nat with (S tries + j)%nat by lia.
        apply Hbefore. lia.
      * right. replace (tries + S fuel)%nat with (S tries + fuel)%nat by lia.
        split; [|assumption].
        intros [|j] Hj; [rewrite Nat.add_0_r; assumption|].
        replace (tries + S j)%nat with (S tries + j)%nat by lia.
        apply Hall. lia.
Qed.

Lemma spawnFood_throws rnd s :
  obstacles s = None -> spawnFood rnd s = (Threw s, 1%nat).
Proof. intros H. unfold spawnFood. rewrite H. reflexivity. Qed.

(** [spawnFood] returns as soon as [obstacles] is defined, and writes only
    the food. *)
Lemma spawnFood_done rnd s obs :
  obstacles s = Some obs ->
  exists f tries,
    spawnFood rnd s = (Done (with_food (Some f) s), tries) /\
    (tries <= FOOD_TRIES)%nat.
Proof.
  intros Hobs. unfold spawnFood. rewrite Hobs.
  destruct (spawnFood_loop_spec rnd (snake s) obs FOOD_TRIES 0)
    as [(k & Hk & _ & _ & Heq) | [_ Heq]]; rewrite Heq; simpl.
  - exists (rnd k), (S k). split; [reflexivity | lia].
  - exists (mkCell 0 0), FOOD_TRIES. split; [reflexivity | lia].
Qed.

(** C4, as the code has it: [spawnFood] draws at most 500 samples and
    writes only the food.  If one of the first 500 samples is free of Snake
    and Obstacles, the Food is the first such sample, hence disjoint from
    both; if none is, the Food is the cell (0,0), occupied or not. *)
Theorem spawnFood_first_free_or_fallback rnd s obs :
  obstacles s = Some obs ->
  exists f tries,
    spawnFood rnd s = (Done (with_food (Some f) s), tries) /\
    (tries <= 500)%nat /\
    ((exists k, (k < 500)%nat /\ tries = S k /\ f = rnd k /\
        ~ In f (snake s) /\ ~ In f obs /\
        forall j, (j < k)%nat -> In (rnd j) (snake s) \/ In (rnd j) obs) \/
     (tries = 500%nat /\ f = mkCell 0 0 /\
        forall j, (j < 500)%nat -> In (rnd j) (snake s) \/ In (rnd j) obs)).
Proof.
  intros Hobs. unfold spawnFood. rewrite Hobs.
  destruct (spawnFood_loop_spec rnd (snake s) obs FOOD_TRIES 0)
    as [(k & Hk & Hf & Hbefore & Heq) | [Hall Heq]]; rewrite Heq; simpl in *.
  - exists (rnd k), (S k). split; [reflexivity|].
    unfold FOOD_TRIES in *. split; [lia|]. left. exists k.
    apply is_free_spec in Hf. destruct Hf as [Hs Ho].
    repeat split; try assumption.
    intros j Hj. apply is_free_false. apply Hbefore. exact Hj.
  - exists (mkCell 0 0), FOOD_TRIES. split; [reflexivity|].
    unfold FOOD_TRIES in *. split; [lia|]. right.
    repeat split. intros j Hj. apply is_free_false. apply Hall. exact Hj.
Qed.

(** ** The snake in every reachable state *)

Section SnakeInvariant.

Variables COLS ROWS : Z.

Lemma initGame_snake rnd s :
  snake (settle (initGame COLS ROWS rnd s)) = [center COLS ROWS] /\
  dir (settle (initGame COLS ROWS rnd s)) = right.
Proof.
  unfold initGame.
  set (s0 := with_dir right (with_snake [center COLS ROWS] s)).
  pose proof (spawnFood_control rnd s0) as (Hs & Hd & _).
  destruct (spawnFood rnd s0) as [[s1|s1] t]; simpl in *; auto.
Qed.

Lemma setDirection_dir (k : Direction) s :
  dir (setDirection (delta k) s) = dir s \/
  dir (setDirection (delta k) s) = delta k.
Proof.
  unfold setDirection. destruct (_ || _); [left | right]; reflexivity.
Qed.

Lemma setDirection_snake d s : snake (setDirection d s) = snake s.
Proof. unfold setDirection. destruct (_ || _); reflexivity. Qed.

Lemma startGame_snake s :
  snake (startGame s) = snake s /\ dir (startGame s) = dir s.
Proof.
  unfold startGame, restartLoop. destruct (negb (running s)); simpl; auto.
Qed.

Lemma pauseGame_snake s :
  snake (pauseGame s) = snake s /\ dir (pauseGame s) = dir s.
Proof.
  unfold pauseGame, restartLoop.
  destruct (negb (running s)); simpl; auto.
  destruct (running s && negb (negb (paused s))); simpl; auto.
Qed.

(** The snake after a tick: untouched, or the new head put in front, with
    or without the last cell taken away. *)
Lemma step_snake rnd s :
  snake (settle (step COLS ROWS rnd s)) = snake s \/
  exists head tl nh,
    snake s = head :: tl /\
    moveHead COLS ROWS (toggleWrap s) head (dir s) = Some nh /\
    ~ In nh (snake s) /\
    (snake (settle (step COLS ROWS rnd s)) = nh :: snake s \/
     snake (settle (step COLS ROWS rnd s)) = removelast (nh :: snake s)).
Proof.
  unfold step.
  destruct (negb (running s) || paused s); [left; reflexivity|].
  destruct (snake s) as [|head tl] eqn:Hs; [left; auto|].
  destruct (moveHead _ _ _ _ _) as [nh|] eqn:Hmv; [|left; auto].
  destruct (some_at nh (head :: tl)) eqn:Hself; [left; auto|].
  destruct (obstacles s) as [obs|]; [|left; auto].
  destruct (some_at nh obs); [left; auto|].
  right. exists head, tl, nh. apply some_at_not_In in Hself.
  repeat split; auto.
  rewrite eatOrMove_snake. simpl.
  destruct (food s) as [f|]; [|left; reflexivity].
  destruct (same nh f); [left | right]; reflexivity.
Qed.

Lemma handle_snake_ok e s : snake_ok s -> snake_ok (handle COLS ROWS e s).
Proof.
  intros (Hnd & Hne & Hdir). destruct e as [rnd|k| | |rnd|b|b]; simpl.
  - pose proof (step_flags COLS ROWS rnd s) as (Hd & _).
    simpl in Hd. unfold snake_ok. rewrite Hd.
    destruct (step_snake rnd s)
      as [E | (head & tl & nh & Hs & _ & Hnot & [E | E])]; rewrite E.
    + auto.
    + repeat split; [constructor; assumption | discriminate | assumption].
    + repeat split; [|rewrite Hs; discriminate | assumption].
      apply NoDup_removelast. constructor; assumption.
  - unfold snake_ok. rewrite setDirection_snake.
    repeat split; try assumption.
    destruct (setDirection_dir k s) as [E | E]; rewrite E;
      [assumption | exists k; reflexivity].
  - destruct (pauseGame_snake s) as [E1 E2].
    unfold snake_ok. rewrite E1, E2. auto.
  - destruct (startGame_snake s) as [E1 E2].
    unfold snake_ok. rewrite E1, E2. auto.
  - destruct (initGame_snake rnd s) as [E1 E2].
    destruct (initGame COLS ROWS rnd s) as [s1|s1]; simpl in *.
    + destruct (startGame_snake s1) as [F1 F2].
      unfold snake_ok. rewrite F1, F2, E1, E2.
      repeat split; [repeat constructor; intros [] | discriminate
                    | exists Right; reflexivity].
    + unfold snake_ok. rewrite E1, E2.
      repeat split; [repeat constructor; intros [] | discriminate
                    | exists Right; reflexivity].
  - exact (conj Hnd (conj Hne Hdir)).
  - destruct (negb b); exact (conj Hnd (conj Hne Hdir)).
Qed.

Lemma reachable_snake_ok s : reachable COLS ROWS s -> snake_ok s.
Proof.
  induction 1 as [rnd wrap obst stored msg | s e _ IH].
  - unfold loaded.
    destruct (initGame_snake rnd (declared wrap obst stored msg)) as [E1 E2].
    unfold snake_ok. rewrite E1, E2.
    repeat split; [repeat constructor; intros [] | discriminate
                  | exists Right; reflexivity].
  - apply handle_snake_ok. exact IH.
Qed.

(** The array is never empty when [step] reads [snake[0]]. *)
Lemma snake_nonempty s : reachable COLS ROWS s -> snake s <> [].
Proof. intros H. apply reachable_snake_ok in H. apply H. Qed.

Hypothesis COLS_pos : 0 < COLS.
Hypothesis ROWS_pos : 0 < ROWS.

Lemma center_in_grid : in_grid COLS ROWS (center COLS ROWS).
Proof.
  unfold in_grid, center; simpl.
  pose proof (Z.div_pos COLS 2). pose proof (Z.div_pos ROWS 2).
  pose proof (Z.div_lt COLS 2). pose proof (Z.div_lt ROWS 2). lia.
Qed.

Lemma moveHead_in_grid wrap h k nh :
  in_grid COLS ROWS h ->
  moveHead COLS ROWS wrap h (delta k) = Some nh -> in_grid COLS ROWS nh.
Proof.
  intros [Hx Hy]. pose proof (delta_unit k) as (Dx & Dy & _).
  unfold moveHead, newHead, outside. destruct wrap.
  - intros [= <-]. unfold in_grid; simpl.
    rewrite !wrap_coord by lia.
    destruct (Z.eqb_spec (cx h + cx (delta k)) (-1)),
      (Z.eqb_spec (cx h + cx (delta k)) COLS),
      (Z.eqb_spec (cy h + cy (delta k)) (-1)),
      (Z.eqb_spec (cy h + cy (delta k)) ROWS); lia.
  - simpl.
    destruct (_ || _) eqn:E; [discriminate|]. intros [= <-].
    rewrite !orb_false_iff in E. destruct E as [[[E1 E2] E3] E4].
    unfold in_grid; simpl. lia.
Qed.

Lemma handle_in_grid e s :
  snake_ok s -> snake_in_grid COLS ROWS s ->
  snake_in_grid COLS ROWS (handle COLS ROWS e s).
Proof.
  intros (_ & _ & k & Hk) Hg. unfold snake_in_grid in *.
  destruct e as [rnd|k'| | |rnd|b|b]; simpl.
  - destruct (step_snake rnd s)
      as [E | (head & tl & nh & Hs & Hmv & _ & E)].
    + rewrite E. exact Hg.
    + assert (Hnh : in_grid COLS ROWS nh).
      { rewrite Hk in Hmv.
        apply (moveHead_in_grid (toggleWrap s) head k); [|exact Hmv].
        rewrite Hs in Hg. inversion Hg; assumption. }
      destruct E as [E | E]; rewrite E.
      * constructor; assumption.
      * apply Forall_forall. intros c Hc. apply In_removelast in Hc.
        destruct Hc as [<- | Hc]; [exact Hnh|].
        rewrite Forall_forall in Hg. apply Hg. exact Hc.
  - rewrite setDirection_snake. exact Hg.
  - rewrite (proj1 (pauseGame_snake s)). exact Hg.
  - rewrite (proj1 (startGame_snake s)). exact Hg.
  - destruct (initGame_snake rnd s) as [E1 _].
    destruct (initGame COLS ROWS rnd s) as [s1|s1]; simpl in *.
    + rewrite (proj1 (startGame_snake s1)), E1.
      constructor; [apply center_in_grid | constructor].
    + rewrite E1. constructor; [apply center_in_grid | constructor].
  - exact Hg.
  - destruct (negb b); exact Hg.
Qed.

Lemma reachable_in_grid s :
  reachable COLS ROWS s -> snake_in_grid COLS ROWS s.
Proof.
  induction 1 as [rnd wrap obst stored msg | s e Hr IH].
  - unfold loaded, snake_in_grid.
    rewrite (proj1 (initGame_snake rnd (declared wrap obst stored msg))).
    constructor; [apply center_in_grid | constructor].
  - apply handle_in_grid; [apply reachable_snake_ok; exact Hr | exact IH].
Qed.

End SnakeInvariant.

(** ** Score, level, interval and record *)

Lemma eatOrMove_nofood rnd nh s :
  food s = None -> eatOrMove rnd nh s = Threw s.
Proof. intros Hf. unfold eatOrMove. rewrite Hf. reflexivity. Qed.

Lemma eatOrMove_move rnd nh s f :
  food s = Some f -> same nh f = false ->
  eatOrMove rnd nh s = Done (with_snake (removelast (snake s)) s).
Proof. intros Hf Hs. unfold eatOrMove. rewrite Hf, Hs. reflexivity. Qed.

Lemma eatOrMove_eat rnd nh s f obs :
  food s = Some f -> same nh f = true -> obstacles s = Some obs ->
  exists s', eatOrMove rnd nh s = Done s' /\ eaten_numbers s s'.
Proof.
  intros Hf Hs Hobs. unfold eatOrMove. rewrite Hf, Hs.
  set (s1 := with_score (js_incr (score s)) s).
  destruct (spawnFood_done rnd s1 obs Hobs) as (f' & t & E & _).
  rewrite E. subst s1.
  unfold bind, levelUp, updateHighscore, eaten_numbers, restartLoop,
    generateObstacles.
  cbn.
  destruct (js_rem_is_zero (js_incr (score s)) POINTS_PER_LEVEL); cbn.
  - destruct (running s && negb (paused s)); cbn;
      destruct (toggleObstacles s); cbn; rewrite ?Hobs; cbn;
      destruct (js_gt (js_incr (score s)) (highscore s)); cbn;
      eexists; (split; [reflexivity|]); repeat split.
  - destruct (js_gt (js_incr (score s)) (highscore s)); cbn;
      eexists; (split; [reflexivity|]); repeat split.
Qed.

Lemma same_numbers_refl s : same_numbers s s.
Proof. repeat split. Qed.

Section Numbers.

Variables COLS ROWS : Z.

Lemma step_numbers rnd s :
  same_numbers s (settle (step COLS ROWS rnd s)) \/
  eaten_numbers s (settle (step COLS ROWS rnd s)).
Proof.
  unfold step.
  destruct (negb (running s) || paused s); [left; repeat split|].
  destruct (snake s) as [|head tl]; [left; repeat split|].
  destruct (moveHead _ _ _ _ _) as [nh|]; [|left; repeat split].
  destruct (some_at nh _); [left; repeat split|].
  destruct (obstacles s) as [obs|] eqn:Hobs; [|left; repeat split].
  destruct (some_at nh obs); [left; repeat split|].
  set (s1 := with_snake (nh :: head :: tl) s).
  destruct (food s) as [f|] eqn:Hf.
  - destruct (same nh f) eqn:Hsame.
    + destruct (eatOrMove_eat rnd nh s1 f obs Hf Hsame Hobs) as (s' & E & N).
      rewrite E. right. exact N.
    + rewrite (eatOrMove_move rnd nh s1 f Hf Hsame). left. repeat split.
  - rewrite (eatOrMove_nofood rnd nh s1 Hf). left. repeat split.
Qed.

Lemma initGame_throws rnd s :
  obstacles s = None ->
  initGame COLS ROWS rnd s =
  Threw (with_dir right (with_snake [center COLS ROWS] s)).
Proof.
  intros H. unfold initGame.
  rewrite (spawnFood_throws rnd
             (with_dir right (with_snake [center COLS ROWS] s)) H).
  reflexivity.
Qed.

Lemma initGame_done rnd s obs :
  obstacles s = Some obs ->
  exists f, initGame COLS ROWS rnd s = Done (fresh_game COLS ROWS f s).
Proof.
  intros H. unfold initGame.
  destruct (spawnFood_done rnd
              (with_dir right (with_snake [center COLS ROWS] s)) obs H)
    as (f & t & E & _).
  rewrite E. exists f. reflexivity.
Qed.

(** Loading the script: [obstacles] is still undefined when line 263 calls
    [initGame], so the call throws in [spawnFood]. *)
Lemma loaded_eq rnd wrap obst stored msg :
  loaded COLS ROWS rnd wrap obst stored msg =
  with_dir right
    (with_snake [center COLS ROWS] (declared wrap obst stored msg)).
Proof.
  unfold loaded. rewrite initGame_throws by reflexivity. reflexivity.
Qed.

Lemma initGame_numbers rnd s :
  match initGame COLS ROWS rnd s with
  | Done s' =>
      reset_numbers s s' /\ running s' = false /\ paused s' = false /\
      obstacles s' = Some [] /\ exists f, food s' = Some f
  | Threw s' => same_numbers s s' /\ obstacles s = None
  end.
Proof.
  destruct (obstacles s) as [obs|] eqn:Hobs.
  - destruct (initGame_done rnd s obs Hobs) as (f & E). rewrite E.
    repeat split. exists f. reflexivity.
  - rewrite (initGame_throws rnd s Hobs). repeat split.
Qed.

Lemma startGame_numbers s : same_numbers s (startGame s).
Proof.
  unfold startGame, restartLoop. destruct (negb (running s)); cbn;
    repeat split.
Qed.

Lemma pauseGame_numbers s : same_numbers s (pauseGame s).
Proof.
  unfold pauseGame, restartLoop. destruct (negb (running s)); cbn;
    [repeat split|].
  destruct (running s && negb (negb (paused s))); repeat split.
Qed.

Lemma setDirection_numbers d s : same_numbers s (setDirection d s).
Proof. unfold setDirection. destruct (_ || _); repeat split. Qed.

Lemma handle_numbers e s :
  let s' := handle COLS ROWS e s in
  same_numbers s s' \/ eaten_numbers s s' \/ reset_numbers s s'.
Proof.
  destruct e as [rnd|k| | |rnd|b|b]; cbn.
  - destruct (step_numbers rnd s); auto.
  - left. apply setDirection_numbers.
  - left. apply pauseGame_numbers.
  - left. apply startGame_numbers.
  - pose proof (initGame_numbers rnd s) as H.
    destruct (initGame COLS ROWS rnd s) as [s1|s1]; cbn.
    + right. right. destruct H as (H & _).
      pose proof (startGame_numbers s1) as G.
      unfold reset_numbers, same_numbers in *.
      decompose [and] H. decompose [and] G. repeat split; congruence.
    + left. apply H.
  - left. repeat split.
  - left. destruct (negb b); repeat split.
Qed.

(** *** The interval follows the level *)

Lemma speedFor_1 : speedFor 1 = BASE_SPEED.
Proof. reflexivity. Qed.

Lemma handle_interval_ok e s :
  interval_ok s -> interval_ok (handle COLS ROWS e s).
Proof.
  intros Hok.
  destruct (handle_numbers e s) as [H | [H | H]]; unfold interval_ok.
  - destruct H as (_ & Hl & Hi & _). rewrite Hl, Hi. exact Hok.
  - destruct H as (_ & Hl & Hi & _). rewrite Hl, Hi.
    destruct (js_rem_is_zero _ _); [|exact Hok].
    intros l E. rewrite E. reflexivity.
  - destruct H as (_ & Hl & Hi & _). rewrite Hl, Hi.
    intros l [= <-]. rewrite speedFor_1. reflexivity.
Qed.

Lemma reachable_interval_ok s : reachable COLS ROWS s -> interval_ok s.
Proof.
  induction 1 as [rnd wrap obst stored msg | s e _ IH].
  - rewrite loaded_eq. intros l E. discriminate.
  - apply handle_interval_ok. exact IH.
Qed.

End Numbers.

Lemma speedFor_floor l : 30 <= speedFor l.
Proof. unfold speedFor. lia. Qed.

Lemma speedFor_antitone l l' : l <= l' -> speedFor l' <= speedFor l.
Proof. unfold speedFor, BASE_SPEED, SPEED_STEP. lia. Qed.

Lemma reachable_run COLS ROWS evs : forall s,
  reachable COLS ROWS s -> reachable COLS ROWS (run COLS ROWS evs s).
Proof.
  induction evs as [|e evs IH]; intros s H; [exact H|].
  apply (IH (handle COLS ROWS e s)). constructor. exact H.
Qed.

(** *** The high score is the running record *)

Section Record.

Variables COLS ROWS : Z.

Lemma max_with_idem m sc : max_with (max_with m sc) sc = max_with m sc.
Proof. destruct sc; simpl; lia. Qed.

Lemma max_with_ge m sc : m <= max_with m sc.
Proof. destruct sc; simpl; lia. Qed.

Lemma record_score_le m s : record_is m s -> max_with m (score s) = m.
Proof.
  intros (_ & _ & H). destruct (score s) as [sc|]; [|reflexivity].
  destruct (H sc eq_refl) as [? _]. simpl. lia.
Qed.

(** One event: the record moves to the larger of itself and the new score,
    and a loaded high score never decreases nor becomes undefined. *)
Lemma handle_record e s m :
  0 <= m -> record_is m s ->
  record_is (max_with m (score (handle COLS ROWS e s)))
    (handle COLS ROWS e s) /\
  forall h, highscore s = Some h ->
    exists h', highscore (handle COLS ROWS e s) = Some h' /\ h <= h'.
Proof.
  intros Hm (Hld & Hhi & Hsc).
  destruct (handle_numbers COLS ROWS e s) as [H | [H | H]];
    set (s' := handle COLS ROWS e s) in *.
  - destruct H as (Es & _ & _ & Eh & Est).
    assert (Em : max_with m (score s') = m).
    { rewrite Es. apply record_score_le. exact (conj Hld (conj Hhi Hsc)). }
    rewrite Em. split.
    + unfold record_is, load_high. rewrite Es, Eh, Est.
      exact (conj Hld (conj Hhi Hsc)).
    + intros h Hh. exists h. rewrite Eh. split; [assumption | lia].
  - destruct H as (Es & _ & _ & Eh & Est).
    destruct (score s) as [c|] eqn:Hc.
    + destruct (Hsc c eq_refl) as [Hc' Hhs].
      unfold js_incr in *. cbn in Es, Eh, Est. rewrite Hhs in Eh, Est.
      unfold js_gt in Eh, Est. rewrite Es. simpl.
      pose proof (Hhi m Hhs) as _.
      destruct (Z.gtb_spec (c + 1) m) as [Hgt | Hle].
      * replace (Z.max m (c + 1)) with (c + 1) by lia. split.
        -- unfold record_is, load_high. rewrite Es, Eh, Est. simpl.
           numbers.
        -- intros h Hh. exists (c + 1). rewrite Eh.
           split; [reflexivity|]. rewrite (Hhi h Hh). lia.
      * replace (Z.max m (c + 1)) with m by lia. split.
        -- unfold record_is, load_high in *. rewrite Es, Eh, Est.
           numbers.
        -- intros h Hh. exists m. rewrite Eh.
           split; [reflexivity|]. rewrite (Hhi h Hh). lia.
    + unfold js_incr, js_gt in *. cbn in Es, Eh, Est. rewrite Es. simpl.
      split.
      * unfold record_is, load_high in *. rewrite Es, Eh, Est. numbers.
        apply Hhi. assumption.
      * intros h Hh. exists h. rewrite Eh. split; [assumption | lia].
  - destruct H as (Es & _ & _ & Eh & Est).
    rewrite Es. simpl. replace (Z.max m 0) with m by lia. split.
    + unfold record_is, load_high in *. rewrite Es, Eh, Est, Hld. numbers.
    + intros h Hh. exists m. rewrite Eh, Hld.
      split; [reflexivity|]. rewrite (Hhi h Hh). lia.
Qed.

Lemma max_seen_start m evs s :
  max_seen (max_with m (score s)) (trace COLS ROWS evs s) =
  max_seen m (trace COLS ROWS evs s).
Proof.
  destruct evs; unfold max_seen; simpl; rewrite max_with_idem; reflexivity.
Qed.

Lemma run_record evs : forall s m,
  0 <= m -> record_is m s ->
  record_is (max_seen m (trace COLS ROWS evs s)) (run COLS ROWS evs s).
Proof.
  induction evs as [|e evs IH]; intros s m Hm Hrec.
  - unfold max_seen. simpl. rewrite (record_score_le m s Hrec). exact Hrec.
  - change (trace COLS ROWS (e :: evs) s)
      with (s :: trace COLS ROWS evs (handle COLS ROWS e s)).
    change (run COLS ROWS (e :: evs) s)
      with (run COLS ROWS evs (handle COLS ROWS e s)).
    assert (E : max_seen m (s :: trace COLS ROWS evs (handle COLS ROWS e s))
                = max_seen m (trace COLS ROWS evs (handle COLS ROWS e s))).
    { unfold max_seen at 1. simpl. rewrite (record_score_le m s Hrec).
      reflexivity. }
    rewrite E, <- max_seen_start.
    destruct (handle_record e s m Hm Hrec) as [Hrec' _].
    apply IH; [|exact Hrec'].
    pose proof (max_with_ge m (score (handle COLS ROWS e s))). lia.
Qed.

Lemma max_seen_ge evs : forall s m, m <= max_seen m (trace COLS ROWS evs s).
Proof.
  unfold max_seen.
  induction evs as [|e evs IH]; intros s m; simpl.
  - apply max_with_ge.
  - pose proof (max_with_ge m (score s)).
    pose proof (IH (handle COLS ROWS e s) (max_with m (score s))). lia.
Qed.

Lemma loaded_record rnd wrap obst stored msg :
  record_is (or_zero stored) (loaded COLS ROWS rnd wrap obst stored msg).
Proof.
  rewrite loaded_eq. split; [reflexivity|].
  split; intros ? E; discriminate.
Qed.

End Record.

(** C9, as the code has it: whenever the high score is defined (that is,
    once an [initGame] has completed), it equals the larger of the value
    found in the storage when the script was loaded (0 if absent) and every
    score observed since, and no event makes it smaller or undefined. *)
Theorem highscore_is_running_record (COLS ROWS : Z) rnd wrap obst stored msg
    (evs : list Event) (h : Z) :
  0 <= or_zero stored ->
  highscore (run COLS ROWS evs (loaded COLS ROWS rnd wrap obst stored msg))
    = Some h ->
  h = max_seen (or_zero stored)
        (trace COLS ROWS evs (loaded COLS ROWS rnd wrap obst stored msg)) /\
  forall e, exists h',
    highscore (handle COLS ROWS e
                 (run COLS ROWS evs
                    (loaded COLS ROWS rnd wrap obst stored msg))) = Some h' /\
    h <= h'.
Proof.
  intros Hv Hh.
  pose proof (run_record COLS ROWS evs _ _ Hv
                (loaded_record COLS ROWS rnd wrap obst stored msg)) as Hrec.
  split; [apply Hrec; exact Hh|].
  intros e.
  refine (proj2 (handle_record COLS ROWS e _ _ _ Hrec) h Hh).
  pose proof (max_seen_ge COLS ROWS evs
                (loaded COLS ROWS rnd wrap obst stored msg) (or_zero stored)).
  lia.
Qed.

(** ** Direction changes between two ticks *)

(** One call of [setDirection] never installs the opposite of the
    direction it finds. *)
Lemma setDirection_not_opposite k k0 s :
  dir s = delta k0 -> dir (setDirection (delta k) s) <> neg (dir s).
Proof.
  intros Hd.
  assert (Hself : dir s <> neg (dir s))
    by (rewrite Hd; destruct k0; discriminate).
  unfold setDirection.
  destruct (same (delta k) (neg (dir s))) eqn:E; [exact Hself|].
  destruct (same (delta k) (dir s)); [exact Hself|].
  simpl. intros F. rewrite F, same_refl in E. discriminate.
Qed.

(** C1: the guard of [setDirection] compares with the pending direction,
    not with the one the last tick consumed.  On a 10 x 10 grid, a snake
    moving Right that receives Up and then Left between two ticks consumes
    Right and then Left, the exact opposite, and bites itself. *)
Theorem double_turn_reverses :
  consumed 10 10 (double_turn ++ [Tick (always (mkCell 2 2))]) boot10
    = [delta Right; delta Left] /\
  delta Left = neg (delta Right) /\
  ~ no_reversal
      (consumed 10 10 (double_turn ++ [Tick (always (mkCell 2 2))]) boot10) /\
  snake before_bite10 = [mkCell 6 5; mkCell 5 5] /\
  bitten10 = gameOver bit_self before_bite10.
Proof.
  assert (E : consumed 10 10
                (double_turn ++ [Tick (always (mkCell 2 2))]) boot10
              = [delta Right; delta Left]) by (vm_compute; reflexivity).
  split; [exact E|]. split; [reflexivity|]. split.
  - rewrite E. intros H.
    apply (H 0%nat (delta Right) (delta Left)); reflexivity.
  - split; vm_compute; reflexivity.
Qed.

(** ** After the game is over *)

Lemma idle_stays_idle COLS ROWS e s :
  running s = false -> e <> PressStart ->
  (forall r, e <> PressRestart r) ->
  running (handle COLS ROWS e s) = false.
Proof.
  intros Hr Hs Hi. destruct e as [rnd|k| | |rnd|b|b]; simpl.
  - rewrite step_idle by (left; exact Hr). exact Hr.
  - unfold setDirection. destruct (_ || _); exact Hr.
  - unfold pauseGame. rewrite Hr. exact Hr.
  - congruence.
  - exfalso. apply (Hi rnd). reflexivity.
  - exact Hr.
  - destruct (negb b); exact Hr.
Qed.

Lemma startGame_idle s :
  running s = false ->
  startGame s = hideMessage (restartLoop (with_paused false
                                            (with_running true s))).
Proof. intros Hr. unfold startGame. rewrite Hr. reflexivity. Qed.

(** The claim of C2 fails: after the tick in which the snake bit itself,
    Start sets the running flag again, and the next tick moves the snake of
    the ended run, score kept. *)
Lemma start_resumes_ended_run :
  running before_bite10 = true /\
  step 10 10 (always (mkCell 2 2)) before_bite10 = Done bitten10 /\
  running bitten10 = false /\
  running (handle 10 10 PressStart bitten10) = true /\
  snake (run 10 10 [PressStart; KeyDir Down; Tick (always (mkCell 2 2))]
           bitten10) = [mkCell 6 6; mkCell 6 5] /\
  score (run 10 10 [PressStart; KeyDir Down; Tick (always (mkCell 2 2))]
           bitten10) = Some 1.
Proof.
  split; [vm_compute; reflexivity|]. split; [vm_compute; reflexivity|].
  split; [vm_compute; reflexivity|]. split; [vm_compute; reflexivity|].
  split; vm_compute; reflexivity.
Qed.

(** C2, as the code has it: after a game-ending tick the running flag is
    false and stays false under ticks, direction keys, pause and the two
    boxes; Start sets it again (and clears the pause flag) with the Snake,
    Food, Obstacles, score, level, interval and direction of the ended run,
    so that run goes on; Restart begins a fresh game. *)
Theorem game_over_until_start (COLS ROWS : Z) rnd s s' :
  running s = true -> paused s = false ->
  step COLS ROWS rnd s = Done s' -> running s' = false ->
  (forall e, e <> PressStart -> (forall r, e <> PressRestart r) ->
     running (handle COLS ROWS e s') = false) /\
  (running (handle COLS ROWS PressStart s') = true /\
   paused (handle COLS ROWS PressStart s') = false /\
   snake (handle COLS ROWS PressStart s') = snake s /\
   food (handle COLS ROWS PressStart s') = food s /\
   obstacles (handle COLS ROWS PressStart s') = obstacles s /\
   score (handle COLS ROWS PressStart s') = score s /\
   level (handle COLS ROWS PressStart s') = level s /\
   stepInterval (handle COLS ROWS PressStart s') = stepInterval s /\
   dir (handle COLS ROWS PressStart s') = dir s) /\
  (forall r obs, obstacles s' = Some obs ->
     exists f, handle COLS ROWS (PressRestart r) s' =
               startGame (fresh_game COLS ROWS f s')).
Proof.
  intros Hr Hp Hstep Hend. split; [|split].
  - intros e. apply idle_stays_idle. exact Hend.
  - destruct (ending_tick_cases COLS ROWS rnd s s' Hr Hp Hstep Hend)
      as (reason & _ & ->).
    cbn [handle]. rewrite startGame_idle by reflexivity.
    unfold restartLoop. simpl. repeat split.
  - intros r obs Hobs.
    destruct (initGame_done COLS ROWS r s' obs Hobs) as (f & E).
    exists f. cbn [handle]. rewrite E. reflexivity.
Qed.

Lemma game_over_until_start_witness :
  running before_bite10 = true /\ paused before_bite10 = false /\
  step 10 10 (always (mkCell 2 2)) before_bite10 = Done bitten10 /\
  running bitten10 = false /\
  snake (handle 10 10 PressStart bitten10) = snake before_bite10.
Proof.
  assert (H1 : running before_bite10 = true) by (vm_compute; reflexivity).
  assert (H2 : paused before_bite10 = false) by (vm_compute; reflexivity).
  assert (H3 : step 10 10 (always (mkCell 2 2)) before_bite10
               = Done bitten10) by (vm_compute; reflexivity).
  assert (H4 : running bitten10 = false) by (vm_compute; reflexivity).
  split; [exact H1|]. split; [exact H2|].
  split; [exact H3|]. split; [exact H4|].
  exact (proj1 (proj2 (proj2 (proj1 (proj2
    (game_over_until_start 10 10 _ _ _ H1 H2 H3 H4)))))).
Defined.

(** ** initGame *)

(** C3: [initGame] calls [spawnFood] before it assigns [obstacles].  The
    call made when the script is loaded therefore throws in [spawnFood],
    leaving food, obstacles, score, level and high score undefined; a later
    call places the food against the obstacles of the game before: with an
    obstacle at (3,3) left by the last game and the samples (3,3), (4,4),
    the food goes to (4,4), where an empty obstacle set would have taken
    (3,3). *)
Theorem initGame_reads_obstacles_too_early :
  (forall COLS ROWS rnd wrap obst stored msg,
     initGame COLS ROWS rnd (declared wrap obst stored msg) =
       Threw (with_dir right
                (with_snake [center COLS ROWS]
                   (declared wrap obst stored msg))) /\
     food (loaded COLS ROWS rnd wrap obst stored msg) = None /\
     obstacles (loaded COLS ROWS rnd wrap obst stored msg) = None /\
     score (loaded COLS ROWS rnd wrap obst stored msg) = None /\
     level (loaded COLS ROWS rnd wrap obst stored msg) = None /\
     highscore (loaded COLS ROWS rnd wrap obst stored msg) = None) /\
  obstacles level2_10 = Some [mkCell 3 3] /\
  food (handle 10 10 (PressRestart (from_list [mkCell 3 3] (mkCell 4 4)))
          level2_10) = Some (mkCell 4 4) /\
  food (settle (fst (spawnFood (from_list [mkCell 3 3] (mkCell 4 4))
                       (with_obstacles (Some [])
                          (with_dir right
                             (with_snake [center 10 10] level2_10))))))
    = Some (mkCell 3 3).
Proof.
  split.
  - intros COLS ROWS rnd wrap obst stored msg.
    split; [apply initGame_throws; reflexivity|].
    rewrite loaded_eq.
    split; [reflexivity|]. split; [reflexivity|]. split; [reflexivity|].
    split; reflexivity.
  - split; [vm_compute; reflexivity|].
    split; vm_compute; reflexivity.
Qed.

(** ** Concrete placements *)

(** The second half of C4 fails: the snake eats the food at (0,0) while
    every sample drawn is (0,0); the 500 samples are rejected and the food
    falls back to (0,0), under the snake's head, although (5,5) is free. *)
Lemma fallback_food_on_snake :
  step 10 10 (always (mkCell 0 0)) near_corner10 = Done corner10 /\
  obstacles corner10 = Some [] /\
  (in_grid 10 10 (mkCell 5 5) /\ ~ In (mkCell 5 5) (snake corner10)) /\
  food corner10 = Some (mkCell 0 0) /\
  In (mkCell 0 0) (snake corner10) /\
  food (settle (fst (spawnFood (always (mkCell 0 0)) corner10)))
    = Some (mkCell 0 0).
Proof.
  assert (Hs : snake corner10 = [mkCell 0 0; mkCell 1 0])
    by (vm_compute; reflexivity).
  split; [vm_compute; reflexivity|]. split; [vm_compute; reflexivity|].
  split.
  - split; [unfold in_grid; simpl; lia|].
    rewrite Hs. intros [H | [H | []]]; discriminate.
  - split; [vm_compute; reflexivity|].
    split; [rewrite Hs; left; reflexivity|].
    vm_compute; reflexivity.
Qed.

Lemma spawnFood_first_free_or_fallback_witness :
  obstacles fresh10 = Some [] /\
  exists f tries,
    spawnFood (always (mkCell 2 2)) fresh10 =
      (Done (with_food (Some f) fresh10), tries) /\ (tries <= 500)%nat.
Proof.
  assert (H : obstacles fresh10 = Some []) by (vm_compute; reflexivity).
  split; [exact H|].
  destruct (spawnFood_first_free_or_fallback (always (mkCell 2 2))
              fresh10 [] H) as (f & tries & E & Hle & _).
  exists f, tries. split; [exact E | exact Hle].
Defined.

(** The second half of C9 fails: with a record of 7 in the storage when
    the script is loaded, the high score is 7 after the first completed
    [initGame], while the only score observed so far is 0. *)
Lemma stored_record_exceeds_scores :
  highscore (run 10 10 (begin10 (mkCell 0 0)) boot10_record7) = Some 7 /\
  max_seen 0 (trace 10 10 (begin10 (mkCell 0 0)) boot10_record7) = 0.
Proof. split; vm_compute; reflexivity. Qed.

Lemma highscore_is_running_record_witness :
  0 <= or_zero (Some 7) /\
  highscore (run 10 10 (begin10 (mkCell 0 0)) boot10_record7) = Some 7 /\
  7 = max_seen (or_zero (Some 7))
        (trace 10 10 (begin10 (mkCell 0 0)) boot10_record7).
Proof.
  assert (H1 : 0 <= or_zero (Some 7)) by (simpl; lia).
  assert (H2 : highscore (run 10 10 (begin10 (mkCell 0 0))
                            (loaded 10 10 (always (mkCell 0 0)) false false
                               (Some 7) None)) = Some 7)
    by (vm_compute; reflexivity).
  split; [exact H1|]. split; [exact H2|].
  exact (proj1 (highscore_is_running_record 10 10 (always (mkCell 0 0))
                  false false (Some 7) None (begin10 (mkCell 0 0)) 7 H1 H2)).
Defined.

(** ** The theorems at concrete states *)

Lemma boot10_reachable : reachable 10 10 boot10.
Proof. unfold boot10. constructor. Qed.

Lemma fresh10_reachable : reachable 10 10 fresh10.
Proof. unfold fresh10. apply reachable_run. exact boot10_reachable. Qed.

Lemma before_bite10_reachable : reachable 10 10 before_bite10.
Proof. unfold before_bite10. apply reachable_run. exact boot10_reachable. Qed.

Lemma game_over_tick_is_atomic_witness :
  running before_bite10 = true /\ paused before_bite10 = false /\
  step 10 10 (always (mkCell 2 2)) before_bite10 = Done bitten10 /\
  running bitten10 = false /\
  snake bitten10 = snake before_bite10.
Proof.
  assert (H1 : running before_bite10 = true) by (vm_compute; reflexivity).
  assert (H2 : paused before_bite10 = false) by (vm_compute; reflexivity).
  assert (H3 : step 10 10 (always (mkCell 2 2)) before_bite10
               = Done bitten10) by (vm_compute; reflexivity).
  assert (H4 : running bitten10 = false) by (vm_compute; reflexivity).
  split; [exact H1|]. split; [exact H2|].
  split; [exact H3|]. split; [exact H4|].
  exact (proj1 (proj2
    (game_over_tick_is_atomic 10 10 _ _ _ H1 H2 H3 H4))).
Defined.

(** * Further properties of the script *)

(** ** Obstacle placement *)

Lemma obstacle_free_spec sn fd obs c :
  obstacle_free sn fd obs c = true <->
  ~ In c sn /\ fd <> Some c /\ ~ In c obs.
Proof.
  unfold obstacle_free.
  rewrite !andb_true_iff, !negb_true_iff, !some_at_not_In.
  assert (F : food_at c fd = false <-> fd <> Some c).
  { destruct fd as [f|]; simpl.
    - split.
      + intros E [= ->]. rewrite same_refl in E. discriminate.
      + intros N. destruct (same f c) eqn:E; [|reflexivity].
        apply same_spec in E. congruence.
    - split; [discriminate | reflexivity]. }
  rewrite F. tauto.
Qed.

Lemma generateObstacles_loop_O rnd sn fd obs count tries acc :
  generateObstacles_loop rnd sn fd obs count 0 tries acc = acc.
Proof. reflexivity. Qed.

Lemma generateObstacles_loop_S rnd sn fd obs count fuel tries acc :
  generateObstacles_loop rnd sn fd obs count (S fuel) tries acc =
  if (List.length acc <? count)%nat then
    if obstacle_free sn fd obs (rnd tries)
    then generateObstacles_loop rnd sn fd obs count fuel (S tries)
           (acc ++ [rnd tries])
    else generateObstacles_loop rnd sn fd obs count fuel (S tries) acc
  else acc.
Proof.
  unfold obstacle_free.
  change (generateObstacles_loop rnd sn fd obs count (S fuel) tries acc)
    with (if (List.length acc <? count)%nat then
            if some_at (rnd tries) sn
            then generateObstacles_loop rnd sn fd obs count fuel (S tries) acc
            else if food_at (rnd tries) fd
            then generateObstacles_loop rnd sn fd obs count fuel (S tries) acc
            else if some_at (rnd tries) obs
            then generateObstacles_loop rnd sn fd obs count fuel (S tries) acc
            else generateObstacles_loop rnd sn fd obs count fuel (S tries)
                   (acc ++ [rnd tries])
          else acc).
  destruct (List.length acc <? count)%nat; [|reflexivity].
  destruct (some_at (rnd tries) sn); [reflexivity|].
  destruct (food_at (rnd tries) fd); [reflexivity|].
  destruct (some_at (rnd tries) obs); reflexivity.
Qed.

(** The loop only appends, never beyond [count] cells, and only samples it
    drew that are off the snake, off the food and off the obstacles. *)
Lemma generateObstacles_loop_spec rnd sn fd obs count fuel :
  forall tries acc,
  exists added,
    generateObstacles_loop rnd sn fd obs count fuel tries acc
      = acc ++ added /\
    (List.length acc + List.length added
       <= Nat.max count (List.length acc))%nat /\
    forall c, In c added ->
      obstacle_free sn fd obs c = true /\
      exists j, (tries <= j < tries + fuel)%nat /\ c = rnd j.
Proof.
  induction fuel as [|fuel IH]; intros tries acc.
  - exists []. rewrite generateObstacles_loop_O, app_nil_r.
    split; [reflexivity|]. split; [simpl; lia | intros c []].
  - rewrite generateObstacles_loop_S.
    destruct (Nat.ltb_spec (List.length acc) count) as [Hlt | Hge].
    + destruct (obstacle_free sn fd obs (rnd tries)) eqn:Hfree.
      * destruct (IH (S tries) (acc ++ [rnd tries]))
          as (added & E & Hlen & Hin).
        exists (rnd tries :: added). rewrite E, <- app_assoc.
        split; [reflexivity|]. rewrite length_app in Hlen. simpl in *.
        split; [lia|].
        intros c [<- | Hc].
        -- split; [exact Hfree|]. exists tries. split; [lia | reflexivity].
        -- destruct (Hin c Hc) as (Hf & j & Hj & ->).
           split; [exact Hf|]. exists j. split; [lia | reflexivity].
      * destruct (IH (S tries) acc) as (added & E & Hlen & Hin).
        exists added. split; [exact E|]. split; [exact Hlen|].
        intros c Hc. destruct (Hin c Hc) as (Hf & j & Hj & ->).
        split; [exact Hf|]. exists j. split; [lia | reflexivity].
    + exists []. rewrite app_nil_r.
      split; [reflexivity|]. split; [simpl; lia | intros c []].
Qed.

(** With one obstacle asked for, the loop takes the first accepted sample
    and stops. *)
Lemma generateObstacles_loop_one rnd sn fd obs fuel : forall tries,
  (exists k, (k < fuel)%nat /\
     obstacle_free sn fd obs (rnd (tries + k)%nat) = true /\
     (forall j, (j < k)%nat ->
        obstacle_free sn fd obs (rnd (tries + j)%nat) = false) /\
     generateObstacles_loop rnd sn fd obs 1 fuel tries []
       = [rnd (tries + k)%nat]) \/
  ((forall j, (j < fuel)%nat ->
      obstacle_free sn fd obs (rnd (tries + j)%nat) = false) /\
   generateObstacles_loop rnd sn fd obs 1 fuel tries [] = []).
Proof.
  induction fuel as [|fuel IH]; intros tries.
  - right. split; [intros j Hj; lia | reflexivity].
  - rewrite generateObstacles_loop_S. simpl.
    destruct (obstacle_free sn fd obs (rnd tries)) eqn:Hfree.
    + left. exists 0%nat. rewrite Nat.add_0_r.
      split; [lia|]. split; [exact Hfree|]. split; [intros j Hj; lia|].
      destruct fuel; [reflexivity|].
      rewrite generateObstacles_loop_S. reflexivity.
    + destruct (IH (S tries)) as [(k & Hk & Hf & Hbefore & E) | [Hall E]].
      * left. exists (S k).
        replace (tries + S k)%nat with (S tries + k)%nat by lia.
        split; [lia|]. split; [exact Hf|]. split; [|exact E].
        intros [|j] Hj; [rewrite Nat.add_0_r; exact Hfree|].
        replace (tries + S j)%nat with (S tries + j)%nat by lia.
        apply Hbefore. lia.
      * right. split; [|exact E].
        intros [|j] Hj; [rewrite Nat.add_0_r; exact Hfree|].
        replace (tries + S j)%nat with (S tries + j)%nat by lia.
        apply Hall. lia.
Qed.

(** X1: [generateObstacles(count)] on defined obstacles returns, changes
    only the obstacles, keeps the old ones in place and appends at most
    [count] cells, each a drawn sample that is on no snake cell, is not the
    food and is on no old obstacle. *)
Theorem generateObstacles_appends rnd count s obs :
  obstacles s = Some obs ->
  exists added,
    generateObstacles rnd count s =
      Done (with_obstacles (Some (obs ++ added)) s) /\
    (List.length added <= count)%nat /\
    forall c, In c added ->
      ~ In c (snake s) /\ food s <> Some c /\ ~ In c obs /\
      exists j, (j < 1000)%nat /\ c = rnd j.
Proof.
  intros Hobs. unfold generateObstacles. rewrite Hobs.
  destruct (generateObstacles_loop_spec rnd (snake s) (food s) obs count
              OBSTACLE_TRIES 0 []) as (added & E & Hlen & Hin).
  exists added. rewrite E. simpl in *.
  split; [reflexivity|]. split; [lia|].
  intros c Hc. destruct (Hin c Hc) as (Hf & j & Hj & ->).
  apply obstacle_free_spec in Hf. destruct Hf as (H1 & H2 & H3).
  repeat split; try assumption.
  exists j. split; [unfold OBSTACLE_TRIES in Hj; lia | reflexivity].
Qed.

Lemma generateObstacles_appends_witness :
  obstacles level2_10 = Some [mkCell 3 3] /\
  exists added,
    generateObstacles (always (mkCell 3 3)) 1 level2_10 =
      Done (with_obstacles (Some ([mkCell 3 3] ++ added)) level2_10) /\
    (List.length added <= 1)%nat.
Proof.
  assert (H : obstacles level2_10 = Some [mkCell 3 3])
    by (vm_compute; reflexivity).
  split; [exact H|].
  destruct (generateObstacles_appends (always (mkCell 3 3)) 1 level2_10
              [mkCell 3 3] H) as (added & E & Hlen & _).
  exists added. split; [exact E | exact Hlen].
Defined.

(** X2: the call the game makes, [generateObstacles(1)], draws at most 1000
    samples: it appends the first one that is off the snake, the food and
    the obstacles, and appends nothing when none of the 1000 is. *)
Theorem generateObstacles_one_first_free rnd s obs :
  obstacles s = Some obs ->
  (exists k, (k < 1000)%nat /\
     obstacle_free (snake s) (food s) obs (rnd k) = true /\
     (forall j, (j < k)%nat ->
        obstacle_free (snake s) (food s) obs (rnd j) = false) /\
     generateObstacles rnd OBSTACLE_COUNT_BY_LEVEL s =
       Done (with_obstacles (Some (obs ++ [rnd k])) s)) \/
  ((forall j, (j < 1000)%nat ->
      obstacle_free (snake s) (food s) obs (rnd j) = false) /\
   generateObstacles rnd OBSTACLE_COUNT_BY_LEVEL s =
     Done (with_obstacles (Some obs) s)).
Proof.
  intros Hobs. unfold generateObstacles, OBSTACLE_COUNT_BY_LEVEL.
  rewrite Hobs.
  destruct (generateObstacles_loop_one rnd (snake s) (food s) obs
              OBSTACLE_TRIES 0) as [(k & Hk & Hf & Hb & E) | [Hall E]];
    rewrite E; simpl in *.
  - left. exists k. repeat split; assumption.
  - right. rewrite app_nil_r. split; [exact Hall | reflexivity].
Qed.

Lemma generateObstacles_one_first_free_witness :
  obstacles level2_10 = Some [mkCell 3 3] /\
  exists l,
    generateObstacles (from_list [mkCell 3 3] (mkCell 4 4))
      OBSTACLE_COUNT_BY_LEVEL level2_10 =
    Done (with_obstacles (Some ([mkCell 3 3] ++ l)) level2_10).
Proof.
  assert (H : obstacles level2_10 = Some [mkCell 3 3])
    by (vm_compute; reflexivity).
  split; [exact H|].
  destruct (generateObstacles_one_first_free
              (from_list [mkCell 3 3] (mkCell 4 4)) level2_10
              [mkCell 3 3] H) as [(k & _ & _ & _ & E) | [_ E]].
  - eexists. exact E.
  - exists []. rewrite app_nil_r. exact E.
Defined.

(** ** The shape of a tick *)

Lemma spawnFood_shape rnd s obs :
  obstacles s = Some obs ->
  exists f' used,
    spawnFood rnd s = (Done (with_food (Some f') s), used) /\
    ((~ In f' (snake s) /\ ~ In f' obs /\ exists k, f' = rnd k) \/
     f' = mkCell 0 0).
Proof.
  intros Hobs. unfold spawnFood. rewrite Hobs.
  destruct (spawnFood_loop_spec rnd (snake s) obs FOOD_TRIES 0)
    as [(k & _ & Hf & _ & E) | [_ E]]; rewrite E; simpl in *.
  - exists (rnd k), (S k). split; [reflexivity|]. left.
    apply is_free_spec in Hf. destruct Hf as [H1 H2].
    repeat split; try assumption. exists k. reflexivity.
  - exists (mkCell 0 0), FOOD_TRIES. split; [reflexivity|]. right; reflexivity.
Qed.

Lemma levelUp_shape rnd s obs :
  obstacles s = Some obs ->
  exists s' extra,
    levelUp rnd s = Done s' /\
    obstacles s' = Some (obs ++ extra) /\
    (List.length extra <= 1)%nat /\
    (extra <> [] ->
       toggleObstacles s = true /\
       js_rem_is_zero (score s) POINTS_PER_LEVEL = true) /\
    (forall c, In c extra ->
       obstacle_free (snake s) (food s) obs c = true /\ exists j, c = rnd j) /\
    snake s' = snake s /\ food s' = food s /\ score s' = score s /\
    highscore s' = highscore s /\ snake_high s' = snake_high s /\
    loopHandle s' =
      (if js_rem_is_zero (score s) POINTS_PER_LEVEL
       then (if running s && negb (paused s)
             then Some (stepInterval s') else None)
       else loopHandle s) /\
    dir s' = dir s /\ running s' = running s /\ paused s' = paused s /\
    toggleWrap s' = toggleWrap s /\ toggleObstacles s' = toggleObstacles s /\
    message s' = message s.
Proof.
  intros Hobs. unfold levelUp.
  destruct (js_rem_is_zero (score s) POINTS_PER_LEVEL) eqn:Hz.
  - unfold restartLoop, generateObstacles.
    destruct (generateObstacles_loop_spec rnd (snake s) (food s) obs
                OBSTACLE_COUNT_BY_LEVEL OBSTACLE_TRIES 0 [])
      as (extra & E & Hlen & Hin).
    cbn. destruct (running s && negb (paused s)); cbn;
      destruct (toggleObstacles s) eqn:Ht; cbn; rewrite ?Hobs, ?E; cbn in *.
    1, 3: eexists; exists extra; (split; [reflexivity|]); cbn;
        (split; [reflexivity|]); (split; [exact Hlen|]);
        (split; [intros _; split; first [reflexivity | assumption]|]);
        (split; [intros c Hc; destruct (Hin c Hc) as (Hf & j & _ & ->);
                 split; [exact Hf | exists j; reflexivity]|]);
        repeat split; congruence.
    all: eexists; exists []; (split; [reflexivity|]); cbn;
        rewrite app_nil_r;
        (split; [exact Hobs|]); (split; [lia|]);
        (split; [intros N; congruence|]);
        (split; [intros c []|]); repeat split; congruence.
  - exists s, []. rewrite app_nil_r.
    split; [reflexivity|]. split; [exact Hobs|]. split; [simpl; lia|].
    split; [intros N; congruence|]. split; [intros c []|]. repeat split.
Qed.

Lemma updateHighscore_frame s :
  snake (updateHighscore s) = snake s /\ food (updateHighscore s) = food s /\
  obstacles (updateHighscore s) = obstacles s /\
  loopHandle (updateHighscore s) = loopHandle s /\
  stepInterval (updateHighscore s) = stepInterval s /\
  dir (updateHighscore s) = dir s /\ running (updateHighscore s) = running s /\
  paused (updateHighscore s) = paused s /\
  toggleWrap (updateHighscore s) = toggleWrap s /\
  toggleObstacles (updateHighscore s) = toggleObstacles s /\
  message (updateHighscore s) = message s.
Proof. unfold updateHighscore. destruct (js_gt _ _); repeat split. Qed.

Lemma eatOrMove_ate rnd s nh obs :
  food s = Some nh -> obstacles s = Some obs ->
  exists s',
    eatOrMove rnd nh (with_snake (nh :: snake s) s) = Done s' /\
    ate rnd s nh obs s'.
Proof.
  intros Hf Hobs.
  set (s1 := with_snake (nh :: snake s) s).
  destruct (eatOrMove_eat rnd nh s1 nh obs Hf (same_refl nh) Hobs)
    as (s' & E & N).
  exists s'. split; [exact E|].
  unfold eatOrMove in E.
  replace (food s1) with (Some nh) in E by (symmetry; exact Hf).
  rewrite same_refl in E.
  set (s2 := with_score (js_incr (score s1)) s1) in E.
  destruct (spawnFood_shape rnd s2 obs Hobs) as (f' & used & Esp & Hf').
  rewrite Esp in E. unfold bind in E.
  destruct (levelUp_shape (shift used rnd) (with_food (Some f') s2) obs Hobs)
    as (s4 & extra & Elv & Ho & Hlen & Hne & Hin & Hsn & Hfd & _ & _ & _
        & Hloop & Hd & Hr & Hp & Hw & Ht & Hm).
  rewrite Elv in E. injection E as <-.
  destruct (updateHighscore_frame s4)
    as (U1 & U2 & U3 & U4 & U5 & U6 & U7 & U8 & U9 & U10 & U11).
  unfold ate. rewrite U1, U2, U3, U4, U5, U6, U7, U8, U9, U10, U11.
  split; [exact Hsn|]. split.
  - exists f'. split; [exact Hfd|]. split; [exact Hf'|].
    exists extra. split; [exact Ho|]. split; [exact Hlen|].
    split; [exact Hne|].
    intros c Hc. destruct (Hin c Hc) as (Hfree & j & ->).
    apply obstacle_free_spec in Hfree. destruct Hfree as (F1 & F2 & F3).
    split; [exact F1|].
    split; [intros Ec; apply F2; rewrite Ec; reflexivity|].
    split; [exact F3|]. exists (used + j)%nat. reflexivity.
  - split; [exact N|]. split; [exact Hloop|].
    repeat split; assumption.
Qed.

Section TickShape.

Variables COLS ROWS : Z.

(** Every way a tick can go. *)
Lemma step_shape rnd s :
  let s' := settle (step COLS ROWS rnd s) in
  s' = s \/
  (running s = true /\ paused s = false /\
   ((exists reason, s' = gameOver reason s) \/
    exists head tl nh obs,
      snake s = head :: tl /\
      moveHead COLS ROWS (toggleWrap s) head (dir s) = Some nh /\
      ~ In nh (snake s) /\ obstacles s = Some obs /\ ~ In nh obs /\
      ((food s = None /\ s' = with_snake (nh :: snake s) s) \/
       (exists f, food s = Some f /\ nh <> f /\
                  s' = with_snake (removelast (nh :: snake s)) s) \/
       (food s = Some nh /\ ate rnd s nh obs s')))).
Proof.
  unfold step.
  destruct (running s) eqn:Hr; [|left; reflexivity].
  destruct (paused s) eqn:Hp; [left; reflexivity|]. cbn [negb orb].
  destruct (snake s) as [|head tl] eqn:Hs; [left; reflexivity|].
  destruct (moveHead _ _ _ _ _) as [nh|] eqn:Hmv;
    [|right; repeat split; left; exists hit_wall; reflexivity].
  destruct (some_at nh (head :: tl)) eqn:Hself;
    [right; repeat split; left; exists bit_self; reflexivity|].
  destruct (obstacles s) as [obs|] eqn:Hobs; [|left; reflexivity].
  destruct (some_at nh obs) eqn:Hhit;
    [right; repeat split; left; exists hit_obstacle; reflexivity|].
  right. split; [reflexivity|]. split; [reflexivity|].
  right. exists head, tl, nh, obs.
  apply some_at_not_In in Hself, Hhit.
  split; [reflexivity|]. split; [exact Hmv|]. split; [exact Hself|].
  split; [reflexivity|]. split; [exact Hhit|].
  rewrite <- Hs.
  destruct (food s) as [f|] eqn:Hf.
  - destruct (same nh f) eqn:Hsame.
    + apply same_spec in Hsame. subst f. right. right.
      destruct (eatOrMove_ate rnd s nh obs Hf Hobs) as (s' & E & A).
      rewrite E. split; [reflexivity | exact A].
    + right. left. exists f. split; [reflexivity|].
      split; [intros ->; rewrite same_refl in Hsame; discriminate|].
      rewrite (eatOrMove_move rnd nh (with_snake (nh :: snake s) s) f
                 Hf Hsame).
      reflexivity.
  - left. split; [reflexivity|].
    rewrite (eatOrMove_nofood rnd nh (with_snake (nh :: snake s) s) Hf).
    reflexivity.
Qed.

End TickShape.

(** ** The board in every reachable state *)

Section Board.

Variables COLS ROWS : Z.

(** Restart, from a state whose obstacles are defined or not. *)
Lemma restart_shape rnd s :
  (obstacles s = None /\
   handle COLS ROWS (PressRestart rnd) s =
     with_dir right (with_snake [center COLS ROWS] s)) \/
  (exists obs f,
     obstacles s = Some obs /\
     handle COLS ROWS (PressRestart rnd) s =
       startGame (fresh_game COLS ROWS f s) /\
     ((~ In f [center COLS ROWS] /\ ~ In f obs /\ exists k, f = rnd k) \/
      f = mkCell 0 0)).
Proof.
  cbn [handle]. destruct (obstacles s) as [obs|] eqn:Hobs.
  - right.
    destruct (spawnFood_shape rnd
                (with_dir right (with_snake [center COLS ROWS] s)) obs Hobs)
      as (f & used & E & Hf).
    exists obs, f. split; [reflexivity|]. split; [|exact Hf].
    unfold initGame. rewrite E. reflexivity.
  - left. split; [reflexivity|].
    rewrite (initGame_throws COLS ROWS rnd s Hobs). reflexivity.
Qed.

(** The events that touch neither the board nor the numbers. *)
Lemma quiet_event e s :
  match e with
  | KeyDir _ | PressPause | PressStart | ChangeWrap _
  | ChangeObstacles true => True
  | _ => False
  end ->
  snake (handle COLS ROWS e s) = snake s /\
  food (handle COLS ROWS e s) = food s /\
  obstacles (handle COLS ROWS e s) = obstacles s /\
  same_numbers s (handle COLS ROWS e s).
Proof.
  destruct e as [rnd|k| | |rnd|b|[|]]; intros H; try destruct H; cbn [handle].
  - unfold setDirection. destruct (_ || _); repeat split.
  - unfold pauseGame, restartLoop. destruct (negb (running s)); cbn;
      [repeat split|].
    destruct (running s && negb (negb (paused s))); repeat split.
  - unfold startGame, restartLoop. destruct (negb (running s)); cbn;
      repeat split.
  - repeat split.
  - repeat split.
Qed.

Lemma loaded_board_ok rnd wrap obst stored msg :
  board_ok (loaded COLS ROWS rnd wrap obst stored msg).
Proof.
  rewrite loaded_eq. repeat split; try discriminate.
  intros H. exfalso. apply H. reflexivity.
Qed.

Lemma level_after_point (n : Z) :
  0 <= n ->
  (if Z.rem (n + 1) POINTS_PER_LEVEL =? 0
   then 1 + n / POINTS_PER_LEVEL + 1 else 1 + n / POINTS_PER_LEVEL)
  = 1 + (n + 1) / POINTS_PER_LEVEL.
Proof.
  intros Hn. unfold POINTS_PER_LEVEL. rewrite Z.rem_mod_nonneg by lia.
  destruct (Z.eqb_spec ((n + 1) mod 5) 0) as [E | E];
    Z.div_mod_to_equations; lia.
Qed.

Lemma step_board_ok rnd s :
  board_ok s -> board_ok (settle (step COLS ROWS rnd s)).
Proof.
  intros (Hoff & Hfc & Hsc & Htm & Hfo).
  destruct (step_shape COLS ROWS rnd s)
    as [E | (Hr & Hp & [(reason & E) |
         (head & tl & nh & obs & Hs & Hmv & Hnin & Hobs & Hnob &
          [(Hf & E) | [(f & Hf & Hne & E) | (Hf & A)]])])].
  - rewrite E. exact (conj Hoff (conj Hfc (conj Hsc (conj Htm Hfo)))).
  - rewrite E. unfold board_ok.
    split; [exact Hoff|]. split; [exact Hfc|]. split; [exact Hsc|].
    split; [reflexivity | exact Hfo].
  - rewrite E. unfold board_ok. split; [|split; [|split; [|split]]].
    + intros obs' c Ho [<- | Hc]; cbn in Ho; rewrite Hobs in Ho;
        injection Ho as <-; [exact Hnob | exact (Hoff obs c Hobs Hc)].
    + intros f Hf'. cbn in Hf'. congruence.
    + intros n Hn. cbn in Hn.
      destruct (Hsc n Hn) as (_ & _ & _ & Hfood & _). congruence.
    + exact Htm.
    + exact Hfo.
  - rewrite E. unfold board_ok. split; [|split; [|split; [|split]]].
    + intros obs' c Ho Hc. cbn in Ho. rewrite Hobs in Ho.
      injection Ho as <-. apply (In_removelast _ c (nh :: snake s)) in Hc.
      destruct Hc as [<- | Hc]; [exact Hnob | exact (Hoff obs c Hobs Hc)].
    + intros f' Hf' Hz. cbn in Hf'. rewrite Hf in Hf'. injection Hf' as <-.
      destruct (Hfc f Hf Hz) as [H1 H2]. split; [|exact H2].
      intros Hin. apply (In_removelast _ f (nh :: snake s)) in Hin.
      destruct Hin as [Hin | Hin]; [congruence | contradiction].
    + intros n Hn. cbn in Hn.
      destruct (Hsc n Hn) as (H0 & Hlen & Hlv & Hfood & Hob).
      split; [exact H0|]. split; [|split; [exact Hlv | split; assumption]].
      change (Z.of_nat (List.length (removelast (nh :: snake s))) = n + 1).
      rewrite length_removelast_cons. exact Hlen.
    + exact Htm.
    + exact Hfo.
  - destruct A as (Asn & (f' & Af & Afree & extra & Aobs & Alen & Ane & Aex)
                   & Anum & Aloop & Ad & Ar & Ap & Aw & At & Am).
    set (s' := settle (step COLS ROWS rnd s)) in *.
    unfold board_ok. split; [|split; [|split; [|split]]].
    + intros obs' c Ho Hc. rewrite Aobs in Ho. injection Ho as <-.
      rewrite Asn in Hc. intros Hin. apply in_app_or in Hin.
      destruct Hin as [Hin | Hin].
      * destruct Hc as [<- | Hc]; [exact (Hnob Hin)|].
        exact (Hoff obs c Hobs Hc Hin).
      * destruct (Aex c Hin) as (Hc' & _). exact (Hc' Hc).
    + intros f Hf' Hz. rewrite Af in Hf'. injection Hf' as <-.
      destruct Afree as [(F1 & F2 & _) | F]; [|contradiction].
      rewrite Asn. split; [exact F1|].
      intros obs' Ho. rewrite Aobs in Ho. injection Ho as <-.
      intros Hin. apply in_app_or in Hin. destruct Hin as [Hin | Hin];
        [exact (F2 Hin)|].
      destruct (Aex f' Hin) as (_ & Hneq & _). apply Hneq. reflexivity.
    + intros m Hm. destruct Anum as (Es & El & _).
      destruct (score s) as [n|] eqn:Hn; unfold js_incr in Es, El;
        cbn in Es, El; rewrite Es in Hm; [|discriminate].
      injection Hm as <-.
      destruct (Hsc n Hn) as (H0 & Hlen & Hlv & _ & _).
      split; [lia|]. split.
      * rewrite Asn. cbn [List.length]. lia.
      * split; [|split; [congruence | congruence]].
        rewrite El, Hlv. unfold js_rem_is_zero. cbn [option_map].
        rewrite <- (level_after_point n H0).
        destruct (Z.rem (n + 1) POINTS_PER_LEVEL =? 0); reflexivity.
    + unfold timer_ok in *. rewrite Aloop, Ar, Ap, Hr, Hp. cbn.
      destruct (levels_up s) eqn:Hl; [reflexivity|].
      rewrite Htm, Hr, Hp. cbn. destruct Anum as (_ & _ & Ei & _).
      unfold levels_up in Hl. rewrite Hl in Ei. rewrite Ei. reflexivity.
    + intros _. congruence.
Qed.

Lemma restartLoop_timer_ok s : timer_ok (restartLoop s).
Proof.
  unfold timer_ok, restartLoop.
  destruct (running s && negb (paused s)) eqn:E; cbn; rewrite E; reflexivity.
Qed.

Lemma handle_timer_ok e s : timer_ok s -> timer_ok (handle COLS ROWS e s).
Proof.
  intros Htm. destruct e as [rnd|k| | |rnd|b|b]; cbn [handle].
  - destruct (step_shape COLS ROWS rnd s)
      as [E | (Hr & Hp & [(reason & E) |
           (head & tl & nh & obs & Hs & Hmv & Hnin & Hobs & Hnob &
            [(Hf & E) | [(f & Hf & Hne & E) | (Hf & A)]])])];
      try (rewrite E; first [exact Htm | reflexivity]).
    destruct A as (_ & _ & Anum & Aloop & _ & Ar & Ap & _).
    unfold timer_ok in *. rewrite Aloop, Ar, Ap, Hr, Hp. cbn.
    destruct (levels_up s) eqn:Hl; [reflexivity|].
    rewrite Htm, Hr, Hp. cbn. destruct Anum as (_ & _ & Ei & _).
    unfold levels_up in Hl. rewrite Hl in Ei. rewrite Ei. reflexivity.
  - unfold setDirection. destruct (_ || _); exact Htm.
  - unfold pauseGame. destruct (negb (running s)); [exact Htm|].
    apply restartLoop_timer_ok.
  - unfold startGame. destruct (negb (running s)); [|exact Htm].
    exact (restartLoop_timer_ok (with_paused false (with_running true s))).
  - destruct (restart_shape rnd s) as [[_ E] | (obs & f & _ & E & _)];
      cbn [handle] in E; rewrite E; [exact Htm | reflexivity].
  - exact Htm.
  - destruct (negb b); exact Htm.
Qed.

Lemma handle_board_ok e s : board_ok s -> board_ok (handle COLS ROWS e s).
Proof.
  intros Hok.
  assert (Htm : timer_ok (handle COLS ROWS e s))
    by (apply handle_timer_ok; apply Hok).
  assert (Hquiet :
            match e with
            | KeyDir _ | PressPause | PressStart | ChangeWrap _
            | ChangeObstacles true => True
            | _ => False
            end -> board_ok (handle COLS ROWS e s)).
  { intros Hq.
    destruct (quiet_event e s Hq) as (Es & Ef & Eo & Esc & El & _).
    destruct Hok as (Hoff & Hfc & Hsc & _ & Hfo).
    unfold board_ok, snake_off_obstacles, food_clear, score_counts,
      food_after_obstacles in *.
    rewrite Es, Ef, Eo, Esc, El.
    split; [exact Hoff|]. split; [exact Hfc|]. split; [exact Hsc|].
    split; [exact Htm | exact Hfo]. }
  destruct e as [rnd|k| | |rnd|b|[|]]; try (apply Hquiet; exact I).
  - apply step_board_ok. exact Hok.
  - destruct Hok as (Hoff & Hfc & Hsc & _ & Hfo).
    destruct (restart_shape rnd s)
      as [[Hobs E] | (obs & f & Hobs & E & Hf)]; rewrite E in *.
    + unfold board_ok. split; [|split; [|split; [|split]]].
      * intros obs' c Ho. cbn in Ho. congruence.
      * intros f Hf Hz. cbn in Hf.
        exfalso. apply Hfo; [congruence | exact Hobs].
      * intros n Hn. cbn in Hn.
        destruct (Hsc n Hn) as (_ & _ & _ & _ & Ho). congruence.
      * exact Htm.
      * exact Hfo.
    + unfold board_ok. split; [|split; [|split; [|split]]].
      * intros obs' c Ho Hc. cbn in Ho. injection Ho as <-. intros [].
      * intros f' Hf' Hz. cbn in Hf'. injection Hf' as <-.
        destruct Hf as [(F1 & _) | F]; [|contradiction].
        split; [exact F1|]. intros obs' Ho. cbn in Ho.
        injection Ho as <-. intros [].
      * intros n Hn. cbn in Hn. injection Hn as <-. cbn.
        repeat split; try discriminate; reflexivity.
      * exact Htm.
      * intros _. discriminate.
  - destruct Hok as (Hoff & Hfc & Hsc & _ & Hfo). cbn [handle negb] in *.
    unfold board_ok. split; [|split; [|split; [|split]]].
    + intros obs' c Ho Hc. cbn in Ho. injection Ho as <-. intros [].
    + intros f Hf Hz. cbn in Hf. destruct (Hfc f Hf Hz) as [H1 _].
      split; [exact H1|]. intros obs' Ho. cbn in Ho.
      injection Ho as <-. intros [].
    + intros n Hn. cbn in Hn.
      destruct (Hsc n Hn) as (H0 & Hlen & Hlv & Hfd & _).
      repeat split; try assumption. discriminate.
    + exact Htm.
    + intros _. discriminate.
Qed.

Lemma reachable_board_ok s : reachable COLS ROWS s -> board_ok s.
Proof.
  induction 1 as [rnd wrap obst stored msg | s e _ IH].
  - apply loaded_board_ok.
  - apply handle_board_ok. exact IH.
Qed.

End Board.

Lemma level2_10_reachable : reachable 10 10 level2_10.
Proof. unfold level2_10. apply reachable_run. exact boot10_reachable. Qed.

(** X3: a tick never removes or moves an obstacle: the obstacles after it
    are those before it followed by at most one new cell, and a new cell
    appears only when the obstacle box is checked and the tick eats the food
    that completes a level. *)
Theorem tick_keeps_obstacles (COLS ROWS : Z) rnd s obs :
  obstacles s = Some obs ->
  exists extra,
    obstacles (settle (step COLS ROWS rnd s)) = Some (obs ++ extra) /\
    (List.length extra <= 1)%nat /\
    (extra <> [] ->
       toggleObstacles s = true /\ levels_up s = true /\
       exists head, hd_error (snake s) = Some head /\
         food s = moveHead COLS ROWS (toggleWrap s) head (dir s)).
Proof.
  intros Hobs.
  assert (Hsame : obstacles (settle (step COLS ROWS rnd s)) = Some obs ->
            exists extra,
              obstacles (settle (step COLS ROWS rnd s)) = Some (obs ++ extra)
              /\ (List.length extra <= 1)%nat /\
              (extra <> [] ->
                 toggleObstacles s = true /\ levels_up s = true /\
                 exists head, hd_error (snake s) = Some head /\
                   food s = moveHead COLS ROWS (toggleWrap s) head (dir s))).
  { intros E. exists []. rewrite app_nil_r.
    split; [exact E|]. split; [simpl; lia | intros N; congruence]. }
  destruct (step_shape COLS ROWS rnd s)
    as [E | (Hr & Hp & [(reason & E) |
         (head & tl & nh & obs' & Hs & Hmv & Hnin & Hobs' & Hnob &
          [(Hf & E) | [(f & Hf & Hne & E) | (Hf & A)]])])];
    try (apply Hsame; rewrite E; exact Hobs).
  destruct A as (_ & (f' & _ & _ & extra & Aobs & Alen & Ane & _) & _).
  assert (obs' = obs) by congruence. subst obs'.
  exists extra. split; [exact Aobs|]. split; [exact Alen|].
  intros N. destruct (Ane N) as [H1 H2].
  split; [exact H1|]. split; [exact H2|].
  exists head. rewrite Hs, Hmv. split; [reflexivity | exact Hf].
Qed.

Lemma tick_keeps_obstacles_witness :
  obstacles level2_10 = Some [mkCell 3 3] /\
  exists extra,
    obstacles (settle (step 10 10 (always (mkCell 1 1)) level2_10))
      = Some ([mkCell 3 3] ++ extra).
Proof.
  assert (H : obstacles level2_10 = Some [mkCell 3 3])
    by (vm_compute; reflexivity).
  split; [exact H|].
  destruct (tick_keeps_obstacles 10 10 (always (mkCell 1 1)) level2_10
              [mkCell 3 3] H) as (extra & E & _).
  exists extra. exact E.
Defined.

(** X4: in every reachable state no cell of the snake is an obstacle. *)
Theorem snake_never_on_obstacle (COLS ROWS : Z) s obs c :
  reachable COLS ROWS s -> obstacles s = Some obs ->
  In c (snake s) -> ~ In c obs.
Proof.
  intros Hreach. apply (reachable_board_ok COLS ROWS s Hreach).
Qed.

Lemma snake_never_on_obstacle_witness :
  reachable 10 10 level2_10 /\ obstacles level2_10 = Some [mkCell 3 3] /\
  In (mkCell 9 6) (snake level2_10) /\ ~ In (mkCell 9 6) [mkCell 3 3].
Proof.
  assert (H1 : obstacles level2_10 = Some [mkCell 3 3])
    by (vm_compute; reflexivity).
  assert (H2 : In (mkCell 9 6) (snake level2_10))
    by (replace (snake level2_10)
          with [mkCell 9 6; mkCell 9 5; mkCell 8 5; mkCell 7 5; mkCell 6 5;
                mkCell 5 5] by (vm_compute; reflexivity);
        left; reflexivity).
  split; [exact level2_10_reachable|]. split; [exact H1|].
  split; [exact H2|].
  exact (snake_never_on_obstacle 10 10 level2_10 _ _
           level2_10_reachable H1 H2).
Defined.

(** X5: in every reachable state the food lies on no snake cell and on no
    obstacle, unless it is the fallback cell (0,0). *)
Theorem food_off_snake_and_obstacles (COLS ROWS : Z) s f :
  reachable COLS ROWS s -> food s = Some f -> f <> mkCell 0 0 ->
  ~ In f (snake s) /\ forall obs, obstacles s = Some obs -> ~ In f obs.
Proof.
  intros Hreach. apply (reachable_board_ok COLS ROWS s Hreach).
Qed.

Lemma food_off_snake_and_obstacles_witness :
  reachable 10 10 fresh10 /\ food fresh10 = Some (mkCell 6 5) /\
  mkCell 6 5 <> mkCell 0 0 /\ ~ In (mkCell 6 5) (snake fresh10).
Proof.
  assert (H1 : food fresh10 = Some (mkCell 6 5))
    by (vm_compute; reflexivity).
  assert (H2 : mkCell 6 5 <> mkCell 0 0) by discriminate.
  split; [exact fresh10_reachable|]. split; [exact H1|].
  split; [exact H2|].
  exact (proj1 (food_off_snake_and_obstacles 10 10 fresh10 _
                  fresh10_reachable H1 H2)).
Defined.

(** X6: in every reachable state with a score, the score is not negative
    and the snake has exactly score + 1 cells. *)
Theorem score_is_length_minus_one (COLS ROWS : Z) s n :
  reachable COLS ROWS s -> score s = Some n ->
  0 <= n /\ Z.of_nat (List.length (snake s)) = n + 1.
Proof.
  intros Hreach Hn.
  destruct (reachable_board_ok COLS ROWS s Hreach) as (_ & _ & Hsc & _).
  destruct (Hsc n Hn) as (H0 & Hlen & _). split; assumption.
Qed.

Lemma score_is_length_minus_one_witness :
  reachable 10 10 level2_10 /\ score level2_10 = Some 5 /\
  Z.of_nat (List.length (snake level2_10)) = 5 + 1.
Proof.
  assert (H : score level2_10 = Some 5) by (vm_compute; reflexivity).
  split; [exact level2_10_reachable|]. split; [exact H|].
  exact (proj2 (score_is_length_minus_one 10 10 level2_10 5
                  level2_10_reachable H)).
Defined.

(** X7: in every reachable state with a score, the level is
    1 + floor(score / POINTS_PER_LEVEL) and the tick interval is
    140 - 10 * floor(score / 5) milliseconds while the score is below 55,
    and 30 milliseconds from 55 points on. *)
Theorem level_and_interval_from_score (COLS ROWS : Z) s n :
  reachable COLS ROWS s -> score s = Some n ->
  level s = Some (1 + n / POINTS_PER_LEVEL) /\
  (n < 55 -> stepInterval s = Some (BASE_SPEED - SPEED_STEP * (n / 5))) /\
  (55 <= n -> stepInterval s = Some 30).
Proof.
  intros Hreach Hn.
  destruct (reachable_board_ok COLS ROWS s Hreach) as (_ & _ & Hsc & _).
  destruct (Hsc n Hn) as (H0 & _ & Hlv & _).
  pose proof (reachable_interval_ok COLS ROWS s Hreach _ Hlv) as Hi.
  split; [exact Hlv|]. rewrite Hi.
  unfold speedFor, BASE_SPEED, SPEED_STEP, POINTS_PER_LEVEL.
  split; intros Hb; f_equal; Z.div_mod_to_equations; lia.
Qed.

Lemma level_and_interval_from_score_witness :
  reachable 10 10 level2_10 /\ score level2_10 = Some 5 /\
  level level2_10 = Some (1 + 5 / POINTS_PER_LEVEL).
Proof.
  assert (H : score level2_10 = Some 5) by (vm_compute; reflexivity).
  split; [exact level2_10_reachable|]. split; [exact H|].
  exact (proj1 (level_and_interval_from_score 10 10 level2_10 5
                  level2_10_reachable H)).
Defined.

(** X8: in every reachable state the timer that calls [step] is armed
    exactly when the game is running and not paused, and its period is the
    current [stepInterval]. *)
Theorem timer_follows_flags (COLS ROWS : Z) s :
  reachable COLS ROWS s ->
  loopHandle s =
  if running s && negb (paused s) then Some (stepInterval s) else None.
Proof.
  intros Hreach. apply (reachable_board_ok COLS ROWS s Hreach).
Qed.

Lemma timer_follows_flags_witness :
  reachable 10 10 level2_10 /\
  loopHandle level2_10 =
  if running level2_10 && negb (paused level2_10)
  then Some (stepInterval level2_10) else None.
Proof.
  split; [exact level2_10_reachable|].
  exact (timer_follows_flags 10 10 level2_10 level2_10_reachable).
Defined.

(** X9: on a grid with COLS, ROWS > 0, in every reachable state the snake
    is not empty, all its cells lie in [0,COLS) x [0,ROWS), and the
    direction is one of the four unit deltas. *)
Theorem snake_stays_in_grid (COLS ROWS : Z) s :
  0 < COLS -> 0 < ROWS -> reachable COLS ROWS s ->
  snake s <> [] /\ Forall (in_grid COLS ROWS) (snake s) /\
  exists k, dir s = delta k.
Proof.
  intros HC HR Hreach.
  destruct (reachable_snake_ok COLS ROWS s Hreach) as (_ & Hne & Hd).
  split; [exact Hne|]. split; [|exact Hd].
  exact (reachable_in_grid COLS ROWS HC HR s Hreach).
Qed.

Lemma snake_stays_in_grid_witness :
  0 < 10 /\ reachable 10 10 level2_10 /\ snake level2_10 <> [].
Proof.
  assert (H : 0 < 10) by lia.
  split; [exact H|]. split; [exact level2_10_reachable|].
  exact (proj1 (snake_stays_in_grid 10 10 level2_10 H H
                  level2_10_reachable)).
Defined.

(** ** Controls *)

(** X10: one call of [setDirection] with a unit delta, in a state whose
    direction is a unit delta: the new direction is again a unit delta and
    is never the opposite of the old one; a perpendicular request is
    installed and changes nothing but the direction; a request for the
    current direction or its opposite changes nothing at all. *)
Theorem setDirection_turns (k k0 : Direction) s :
  dir s = delta k0 ->
  dir (setDirection (delta k) s) <> neg (dir s) /\
  (exists k', dir (setDirection (delta k) s) = delta k') /\
  (delta k <> dir s -> delta k <> neg (dir s) ->
     setDirection (delta k) s = with_dir (delta k) s) /\
  (delta k = dir s \/ delta k = neg (dir s) ->
     setDirection (delta k) s = s).
Proof.
  intros Hd. split; [exact (setDirection_not_opposite k k0 s Hd)|].
  split.
  - destruct (setDirection_dir k s) as [E | E]; rewrite E;
      [exists k0; exact Hd | exists k; reflexivity].
  - unfold setDirection. split.
    + intros N1 N2.
      destruct (same (delta k) (neg (dir s))) eqn:E1;
        [apply same_spec in E1; contradiction|].
      destruct (same (delta k) (dir s)) eqn:E2;
        [apply same_spec in E2; contradiction|]. reflexivity.
    + intros [E | E]; rewrite E, same_refl;
        [rewrite orb_true_r|]; reflexivity.
Qed.

Lemma setDirection_turns_witness :
  dir fresh10 = delta Right /\
  setDirection (delta Left) fresh10 = fresh10 /\
  dir (setDirection (delta Up) fresh10) = delta Up.
Proof.
  assert (H : dir fresh10 = delta Right) by (vm_compute; reflexivity).
  split; [exact H|].
  destruct (setDirection_turns Left Right fresh10 H) as (_ & _ & _ & Hsame).
  destruct (setDirection_turns Up Right fresh10 H) as (_ & _ & Hturn & _).
  split.
  - apply Hsame. right. rewrite H. reflexivity.
  - rewrite Hturn; [reflexivity | |]; rewrite H; discriminate.
Defined.

Lemma ticks_do_nothing_when_idle COLS ROWS rnds : forall s,
  running s = false \/ paused s = true ->
  run COLS ROWS (map Tick rnds) s = s.
Proof.
  induction rnds as [|rnd rnds IH]; intros s H; [reflexivity|].
  change (run COLS ROWS (map Tick (rnd :: rnds)) s)
    with (run COLS ROWS (map Tick rnds) (settle (step COLS ROWS rnd s))).
  rewrite (step_idle COLS ROWS rnd s H). exact (IH s H).
Qed.

(** X11: pausing a running game, letting any number of ticks fire, and
    pausing again gives back the state before the first pause, with the
    timer re-armed at the current interval and an empty message shown:
    ticks have no effect while paused and nothing of the game is lost. *)
Theorem pause_then_resume (COLS ROWS : Z) (rnds : list Random) s :
  running s = true -> paused s = false ->
  handle COLS ROWS PressPause
    (run COLS ROWS (map Tick rnds) (handle COLS ROWS PressPause s))
  = with_loopHandle (Some (stepInterval s))
      (with_message (Some EmptyString) s).
Proof.
  intros Hr Hp.
  rewrite ticks_do_nothing_when_idle.
  - cbn [handle]. unfold pauseGame, restartLoop, showMessage.
    rewrite Hr. cbn. rewrite Hr. cbn.
    destruct s; cbn in *; subst; reflexivity.
  - right. cbn [handle]. unfold pauseGame, restartLoop, showMessage.
    rewrite Hr, Hp. cbn. rewrite Hr. reflexivity.
Qed.

Lemma pause_then_resume_witness :
  running fresh10 = true /\ paused fresh10 = false /\
  handle 10 10 PressPause
    (run 10 10 (map Tick [always (mkCell 1 1); always (mkCell 2 2)])
       (handle 10 10 PressPause fresh10))
  = with_loopHandle (Some (stepInterval fresh10))
      (with_message (Some EmptyString) fresh10).
Proof.
  assert (H1 : running fresh10 = true) by (vm_compute; reflexivity).
  assert (H2 : paused fresh10 = false) by (vm_compute; reflexivity).
  split; [exact H1|]. split; [exact H2|].
  exact (pause_then_resume 10 10 _ fresh10 H1 H2).
Defined.

(** X12: Restart (initialize, then start) in any state whose obstacles are
    defined, whether running, paused or over, gives a running game that
    keeps nothing of the old one but the two boxes and the storage: snake
    at the centre moving Right, no obstacles, score 0, level 1, the high
    score read from the storage, the timer armed at BASE_SPEED, no message;
    the food is the first of 500 samples that is off the centre and off the
    old obstacles, else (0,0). *)
Theorem restart_gives_fresh_game (COLS ROWS : Z) rnd s obs :
  obstacles s = Some obs ->
  exists f,
    handle COLS ROWS (PressRestart rnd) s =
      mkState [center COLS ROWS] (delta Right) (Some f) (Some []) (Some 0)
        (Some (or_zero (snake_high s))) (Some 1) true false
        (Some BASE_SPEED) (Some (Some BASE_SPEED)) (toggleWrap s)
        (toggleObstacles s) (snake_high s) None /\
    ((f <> center COLS ROWS /\ ~ In f obs /\
      exists k, (k < 500)%nat /\ f = rnd k /\
        forall j, (j < k)%nat ->
          rnd j = center COLS ROWS \/ In (rnd j) obs) \/
     (f = mkCell 0 0 /\
      forall j, (j < 500)%nat -> rnd j = center COLS ROWS \/ In (rnd j) obs)).
Proof.
  intros Hobs. cbn [handle]. unfold initGame.
  set (s0 := with_dir right (with_snake [center COLS ROWS] s)).
  assert (Hobs0 : obstacles s0 = Some obs) by exact Hobs.
  unfold spawnFood. rewrite Hobs0.
  assert (Hin : forall c, is_free (snake s0) obs c = false ->
                          c = center COLS ROWS \/ In c obs).
  { intros c Hc. apply is_free_false in Hc.
    destruct Hc as [[<- | []] | Hc]; [left; reflexivity | right; exact Hc]. }
  destruct (spawnFood_loop_spec rnd (snake s0) obs FOOD_TRIES 0)
    as [(k & Hk & Hf & Hbefore & E) | [Hall E]]; rewrite E.
  - exists (rnd k). split; [reflexivity|]. left.
    apply is_free_spec in Hf. destruct Hf as [F1 F2]. simpl in *.
    split; [intros Ec; apply F1; left; symmetry; exact Ec|].
    split; [exact F2|]. exists k. split; [exact Hk|].
    split; [reflexivity|]. intros j Hj. apply Hin. apply Hbefore. exact Hj.
  - exists (mkCell 0 0). split; [reflexivity|]. right.
    split; [reflexivity|]. intros j Hj. apply Hin. apply (Hall j). exact Hj.
Qed.

Lemma restart_gives_fresh_game_witness :
  obstacles bitten10 = Some [] /\
  exists f, food (handle 10 10 (PressRestart (always (mkCell 1 1))) bitten10)
            = Some f.
Proof.
  assert (H : obstacles bitten10 = Some []) by (vm_compute; reflexivity).
  split; [exact H|].
  destruct (restart_gives_fresh_game 10 10 (always (mkCell 1 1)) bitten10
              [] H) as (f & E & _).
  exists f. rewrite E. reflexivity.
Defined.

(** ** Before the obstacles are defined *)

Section Blank.

Variables COLS ROWS : Z.

Lemma handle_blank e s :
  is_uncheck_obstacles e = false -> blank s -> blank (handle COLS ROWS e s).
Proof.
  intros He (Hf & Ho & Hs & Hl & Hh).
  assert (Hquiet :
            match e with
            | KeyDir _ | PressPause | PressStart | ChangeWrap _
            | ChangeObstacles true => True
            | _ => False
            end -> blank (handle COLS ROWS e s)).
  { intros Hq.
    destruct (quiet_event COLS ROWS e s Hq)
      as (_ & Ef & Eo & Es & El & _ & Eh & _).
    unfold blank. rewrite Ef, Eo, Es, El, Eh. repeat split; assumption. }
  destruct e as [rnd|k| | |rnd|b|[|]]; try (apply Hquiet; exact I);
    try discriminate.
  - cbn [handle].
    destruct (step_shape COLS ROWS rnd s)
      as [E | (_ & _ & [(reason & E) |
           (head & tl & nh & obs & _ & _ & _ & Hobs & _)])];
      [rewrite E | rewrite E | congruence]; repeat split; assumption.
  - destruct (restart_shape COLS ROWS rnd s)
      as [[_ E] | (obs & f & Hobs & _)]; [|congruence].
    rewrite E. repeat split; assumption.
Qed.

Lemma tick_obstacles_grow rnd s obs :
  obstacles s = Some obs ->
  exists extra,
    obstacles (settle (step COLS ROWS rnd s)) = Some (obs ++ extra).
Proof.
  intros Hobs.
  destruct (step_shape COLS ROWS rnd s)
    as [E | (Hr & Hp & [(reason & E) |
         (head & tl & nh & obs' & Hs & Hmv & Hnin & Hobs' & Hnob &
          [(Hf & E) | [(f & Hf & Hne & E) | (Hf & A)]])])];
    try (exists []; rewrite app_nil_r, E; exact Hobs).
  destruct A as (_ & (f' & _ & _ & extra & Aobs & _) & _).
  exists extra. congruence.
Qed.

Lemma handle_keeps_obstacles_defined e s :
  obstacles s <> None -> obstacles (handle COLS ROWS e s) <> None.
Proof.
  intros Ho. destruct (obstacles s) as [obs|] eqn:Hobs; [|congruence].
  destruct e as [rnd|k| | |rnd|b|[|]];
    try (match goal with
         | |- obstacles (handle _ _ ?e _) <> None =>
             rewrite (proj1 (proj2 (proj2 (quiet_event COLS ROWS e s I))))
         end; congruence).
  - cbn [handle].
    destruct (tick_obstacles_grow rnd s obs Hobs) as (extra & E).
    rewrite E. discriminate.
  - destruct (restart_shape COLS ROWS rnd s)
      as [[E _] | (obs' & f & _ & E & _)]; [congruence|].
    rewrite E. discriminate.
  - discriminate.
Qed.

End Blank.

(** X13: the game cannot be played before the obstacle box has been
    unchecked once.  From the loaded script, as long as no event unchecks
    that box, whatever is pressed and however many ticks fire, food,
    obstacles, score, level and high score stay undefined; and once the
    obstacles are defined, no event makes them undefined again. *)
Theorem unplayable_until_obstacles_unchecked (COLS ROWS : Z) rnd wrap obst
    stored msg (evs : list Event) :
  forallb (fun e => negb (is_uncheck_obstacles e)) evs = true ->
  blank (run COLS ROWS evs (loaded COLS ROWS rnd wrap obst stored msg)) /\
  forall e s, obstacles s <> None ->
              obstacles (handle COLS ROWS e s) <> None.
Proof.
  intros Hevs. split; [|intros e s; apply handle_keeps_obstacles_defined].
  assert (Hblank : forall evs s,
            forallb (fun e => negb (is_uncheck_obstacles e)) evs = true ->
            blank s -> blank (run COLS ROWS evs s)).
  { clear. induction evs as [|e evs IH]; intros s H Hs; [exact Hs|].
    simpl in H. apply andb_true_iff in H. destruct H as [He H].
    apply negb_true_iff in He.
    apply (IH (handle COLS ROWS e s) H).
    apply handle_blank; assumption. }
  apply Hblank; [exact Hevs|]. rewrite loaded_eq. repeat split.
Qed.

Lemma unplayable_until_obstacles_unchecked_witness :
  forallb (fun e => negb (is_uncheck_obstacles e))
    [PressStart; Tick (always (mkCell 1 1)); PressRestart (always (mkCell 1 1))]
    = true /\
  blank (run 10 10
           [PressStart; Tick (always (mkCell 1 1));
            PressRestart (always (mkCell 1 1))] boot10).
Proof.
  assert (H : forallb (fun e => negb (is_uncheck_obstacles e))
                [PressStart; Tick (always (mkCell 1 1));
                 PressRestart (always (mkCell 1 1))] = true)
    by reflexivity.
  split; [exact H|].
  exact (proj1 (unplayable_until_obstacles_unchecked 10 10
                  (always (mkCell 0 0)) false false None None _ H)).
Defined.

(** ** The stored record *)

(** X14: with a non-negative record (or none) in the storage when the
    script is loaded, whenever the high score is defined it is exactly what
    the storage holds (0 standing for an absent entry), and the current
    score is between 0 and the high score. *)
Theorem storage_holds_highscore (COLS ROWS : Z) rnd wrap obst stored msg
    (evs : list Event) (h : Z) :
  0 <= or_zero stored ->
  highscore (run COLS ROWS evs (loaded COLS ROWS rnd wrap obst stored msg))
    = Some h ->
  or_zero (snake_high
             (run COLS ROWS evs (loaded COLS ROWS rnd wrap obst stored msg)))
    = h /\
  forall n,
    score (run COLS ROWS evs (loaded COLS ROWS rnd wrap obst stored msg))
      = Some n ->
    0 <= n <= h.
Proof.
  intros Hv Hh.
  destruct (run_record COLS ROWS evs _ _ Hv
              (loaded_record COLS ROWS rnd wrap obst stored msg))
    as (Hld & Hhi & Hsc).
  rewrite (Hhi h Hh). split; [exact Hld|].
  intros n Hn. exact (proj1 (Hsc n Hn)).
Qed.

Lemma storage_holds_highscore_witness :
  0 <= or_zero None /\
  highscore (run 10 10 five_foods boot10) = Some 5 /\
  or_zero (snake_high (run 10 10 five_foods boot10)) = 5.
Proof.
  assert (H1 : 0 <= or_zero None) by (simpl; lia).
  assert (H2 : highscore (run 10 10 five_foods
                            (loaded 10 10 (always (mkCell 0 0)) false false
                               None None)) = Some 5)
    by (vm_compute; reflexivity).
  split; [exact H1|]. split; [exact H2|].
  exact (proj1 (storage_holds_highscore 10 10 (always (mkCell 0 0)) false
                  false None None five_foods 5 H1 H2)).
Defined.

(** ** Where food and obstacles are placed *)

Section Placed.

Variables COLS ROWS : Z.
Hypothesis COLS_pos : 0 < COLS.
Hypothesis ROWS_pos : 0 < ROWS.

Lemma origin_in_grid : in_grid COLS ROWS (mkCell 0 0).
Proof. unfold in_grid; simpl; lia. Qed.

Lemma handle_placed e s :
  draws_in_grid COLS ROWS e -> placed_in_grid COLS ROWS s ->
  placed_in_grid COLS ROWS (handle COLS ROWS e s).
Proof.
  intros He (Hfd & Hob).
  assert (Hframe : forall s',
            food s' = food s -> obstacles s' = obstacles s ->
            placed_in_grid COLS ROWS s').
  { intros s' Ef Eo. unfold placed_in_grid. rewrite Ef, Eo.
    split; assumption. }
  assert (Hquiet :
            match e with
            | KeyDir _ | PressPause | PressStart | ChangeWrap _
            | ChangeObstacles true => True
            | _ => False
            end -> placed_in_grid COLS ROWS (handle COLS ROWS e s)).
  { intros Hq. destruct (quiet_event COLS ROWS e s Hq) as (_ & Ef & Eo & _).
    apply Hframe; assumption. }
  destruct e as [rnd|k| | |rnd|b|[|]]; try (apply Hquiet; exact I).
  - cbn [handle]. simpl in He.
    destruct (step_shape COLS ROWS rnd s)
      as [E | (Hr & Hp & [(reason & E) |
           (head & tl & nh & obs & Hs & Hmv & Hnin & Hobs & Hnob &
            [(Hf & E) | [(f & Hf & Hne & E) | (Hf & A)]])])];
      try (rewrite E; apply Hframe; reflexivity).
    destruct A as (_ & (f' & Af & Afree & extra & Aobs & _ & _ & Aex) & _).
    split.
    + intros f Hf'. rewrite Af in Hf'. injection Hf' as <-.
      destruct Afree as [(_ & _ & k & ->) | ->];
        [apply He | apply origin_in_grid].
    + intros obs' Ho. rewrite Aobs in Ho. injection Ho as <-.
      apply Forall_app. split; [exact (Hob obs Hobs)|].
      apply Forall_forall. intros c Hc.
      destruct (Aex c Hc) as (_ & _ & _ & k & ->). apply He.
  - simpl in He.
    destruct (restart_shape COLS ROWS rnd s)
      as [[_ E] | (obs & f & _ & E & Hf)]; rewrite E.
    + apply Hframe; reflexivity.
    + split.
      * intros f' Hf'. cbn in Hf'. injection Hf' as <-.
        destruct Hf as [(_ & _ & k & ->) | ->];
          [apply He | apply origin_in_grid].
      * intros obs' Ho. cbn in Ho. injection Ho as <-. constructor.
  - split.
    + exact Hfd.
    + intros obs' Ho. cbn in Ho. injection Ho as <-. constructor.
Qed.

Lemma run_placed evs : forall s,
  Forall (draws_in_grid COLS ROWS) evs -> placed_in_grid COLS ROWS s ->
  placed_in_grid COLS ROWS (run COLS ROWS evs s).
Proof.
  induction evs as [|e evs IH]; intros s He Hs; [exact Hs|].
  inversion He as [|? ? H1 H2]; subst.
  apply (IH (handle COLS ROWS e s) H2). apply handle_placed; assumption.
Qed.

Lemma loaded_placed rnd wrap obst stored msg :
  placed_in_grid COLS ROWS (loaded COLS ROWS rnd wrap obst stored msg).
Proof. rewrite loaded_eq. split; intros ? E; discriminate. Qed.

End Placed.

(** X15: on a grid with COLS, ROWS > 0, if every sample drawn lies in the
    grid (as [Math.floor(Math.random()*COLS)] does), then after any run of
    events the food and every obstacle lie in the grid. *)
Theorem placements_stay_in_grid (COLS ROWS : Z) rnd wrap obst stored msg
    (evs : list Event) :
  0 < COLS -> 0 < ROWS -> Forall (draws_in_grid COLS ROWS) evs ->
  (forall f,
     food (run COLS ROWS evs (loaded COLS ROWS rnd wrap obst stored msg))
       = Some f -> in_grid COLS ROWS f) /\
  (forall obs,
     obstacles (run COLS ROWS evs (loaded COLS ROWS rnd wrap obst stored msg))
       = Some obs -> Forall (in_grid COLS ROWS) obs).
Proof.
  intros HC HR Hevs.
  exact (run_placed COLS ROWS HC HR evs _ Hevs
           (loaded_placed COLS ROWS rnd wrap obst stored msg)).
Qed.

Lemma placements_stay_in_grid_witness :
  0 < 10 /\
  Forall (draws_in_grid 10 10) (begin10 (mkCell 6 5)) /\
  in_grid 10 10 (mkCell 6 5).
Proof.
  assert (H : 0 < 10) by lia.
  assert (G : Forall (draws_in_grid 10 10) (begin10 (mkCell 6 5))).
  { unfold begin10. repeat constructor; simpl; lia. }
  split; [exact H|]. split; [exact G|].
  apply (proj1 (placements_stay_in_grid 10 10 (always (mkCell 0 0)) false
                  false None None (begin10 (mkCell 6 5)) H H G)).
  vm_compute. reflexivity.
Defined.

(** ** Drawing *)

Lemma drawSnake_cells sn : forall idx r st,
  In (r, st) (drawSnake idx sn) -> exists c, In c sn /\ r = drawCell c.
Proof.
  induction sn as [|c sn IH]; intros idx r st H; [destruct H|].
  destruct H as [[= <- _] | H].
  - exists c. split; [left; reflexivity | reflexivity].
  - destruct (IH _ _ _ H) as (c' & Hc' & E).
    exists c'. split; [right; exact Hc' | exact E].
Qed.

Lemma drawSnake_length sn : forall idx,
  List.length (drawSnake idx sn) = List.length sn.
Proof.
  induction sn as [|c sn IH]; intros idx; [reflexivity|].
  simpl. f_equal. apply IH.
Qed.

(** ** The keyboard *)

(** X17: a key press does what exactly one event does, or nothing: the
    arrows and WASD (either case) are the four direction requests, space
    and P pause or resume, R restarts, and every other key leaves the whole
    state as it is. *)
Theorem keydown_is_one_event (COLS ROWS : Z) (rnd : Random) (key : string)
    (s : State) :
  keydown COLS ROWS rnd key s =
  match key_event rnd key with
  | Some e => handle COLS ROWS e s
  | None => s
  end.
Proof.
  unfold keydown, key_event, includes. cbn [existsb].
  repeat match goal with
         | |- context [String.eqb key ?k] =>
             destruct (String.eqb_spec key k) as [-> | ?];
             [reflexivity|]
         end.
  reflexivity.
Qed.

(** ** Score and level between restarts *)

(** X19: no event other than Restart lowers the score or the level: a tick
    leaves each of them as it is or adds exactly 1, the level moving only
    together with the score, and keys, buttons and boxes leave both
    untouched. *)
Theorem score_and_level_only_grow (COLS ROWS : Z) (e : Event) s (n l : Z) :
  (forall rnd, e <> PressRestart rnd) ->
  score s = Some n -> level s = Some l ->
  exists n' l',
    score (handle COLS ROWS e s) = Some n' /\
    level (handle COLS ROWS e s) = Some l' /\
    ((n' = n /\ l' = l) \/
     (n' = n + 1 /\ (l' = l \/ l' = l + 1) /\ exists rnd, e = Tick rnd)).
Proof.
  intros Hnot Hn Hl.
  assert (Hsame : same_numbers s (handle COLS ROWS e s) ->
            exists n' l',
              score (handle COLS ROWS e s) = Some n' /\
              level (handle COLS ROWS e s) = Some l' /\
              ((n' = n /\ l' = l) \/
               (n' = n + 1 /\ (l' = l \/ l' = l + 1) /\
                exists rnd, e = Tick rnd))).
  { intros (Es & El & _). exists n, l. rewrite Es, El. auto. }
  destruct e as [rnd|k| | |rnd|b|[|]];
    try (apply Hsame;
         match goal with
         | |- same_numbers _ (handle _ _ ?e _) =>
             exact (proj2 (proj2 (proj2 (quiet_event COLS ROWS e s I))))
         end).
  - destruct (step_numbers COLS ROWS rnd s) as [H | (Es & El & _)];
      [apply Hsame; exact H|].
    cbn [handle]. rewrite Es, El, Hn, Hl.
    unfold js_incr, js_rem_is_zero. cbn [option_map].
    destruct (Z.rem (n + 1) POINTS_PER_LEVEL =? 0).
    + exists (n + 1), (l + 1). split; [reflexivity|].
      split; [reflexivity|]. right.
      split; [reflexivity|]. split; [right; reflexivity|].
      exists rnd. reflexivity.
    + exists (n + 1), l. split; [reflexivity|].
      split; [reflexivity|]. right.
      split; [reflexivity|]. split; [left; reflexivity|].
      exists rnd. reflexivity.
  - exfalso. apply (Hnot rnd). reflexivity.
  - apply Hsame. repeat split.
Qed.

Lemma score_and_level_only_grow_witness :
  (forall rnd, Tick (always (mkCell 2 2)) <> PressRestart rnd) /\
  score fresh10 = Some 0 /\ level fresh10 = Some 1 /\
  exists n' l',
    score (handle 10 10 (Tick (always (mkCell 2 2))) fresh10) = Some n' /\
    level (handle 10 10 (Tick (always (mkCell 2 2))) fresh10) = Some l'.
Proof.
  assert (H0 : forall rnd, Tick (always (mkCell 2 2)) <> PressRestart rnd)
    by (intros rnd; discriminate).
  assert (H1 : score fresh10 = Some 0) by (vm_compute; reflexivity).
  assert (H2 : level fresh10 = Some 1) by (vm_compute; reflexivity).
  split; [exact H0|]. split; [exact H1|]. split; [exact H2|].
  destruct (score_and_level_only_grow 10 10 (Tick (always (mkCell 2 2)))
              fresh10 0 1 H0 H1 H2) as (n' & l' & E1 & E2 & _).
  exists n', l'. split; [exact E1 | exact E2].
Defined.

(** * How a tick ends *)

(** What [gameOver] writes and what it leaves. *)
Lemma gameOver_effect reason s :
  running (gameOver reason s) = false /\
  message (gameOver reason s)
    = Some ("Game Over — " ++ reason ++ " Press R to restart.")%string /\
  loopHandle (gameOver reason s) = None /\
  snake (gameOver reason s) = snake s.
Proof. repeat split. Qed.

Section Outcomes.

Variables COLS ROWS : Z.

(** A tick of a running game whose new head hits nothing returns, leaves
    the game running and moves the snake. *)
Lemma step_advances rnd s head tl nh obs f :
  running s = true -> paused s = false -> snake s = head :: tl ->
  moveHead COLS ROWS (toggleWrap s) head (dir s) = Some nh ->
  ~ In nh (snake s) -> obstacles s = Some obs -> ~ In nh obs ->
  food s = Some f ->
  exists s',
    step COLS ROWS rnd s = Done s' /\ running s' = true /\
    (nh = f -> snake s' = nh :: snake s /\ eaten_numbers s s') /\
    (nh <> f -> snake s' = removelast (nh :: snake s) /\ same_numbers s s').
Proof.
  intros Hr Hp Hs Hmv Hself Hobs Hhit Hf.
  rewrite (step_running COLS ROWS rnd s head tl Hr Hp Hs), Hmv.
  apply some_at_not_In in Hself, Hhit. rewrite Hself, Hobs, Hhit.
  set (s1 := with_snake (nh :: snake s) s).
  destruct (same nh f) eqn:Hsame.
  - destruct (eatOrMove_eat rnd nh s1 f obs Hf Hsame Hobs) as (s' & E & N).
    exists s'. split; [exact E|].
    pose proof (eatOrMove_flags rnd nh s1) as (_ & F & _).
    pose proof (eatOrMove_snake rnd nh s1) as S.
    rewrite E in F, S. simpl in F, S. rewrite Hf, Hsame in S.
    split; [congruence|]. split.
    + intros _. split; [exact S | exact N].
    + intros N'. apply same_spec in Hsame. contradiction.
  - rewrite (eatOrMove_move rnd nh s1 f Hf Hsame).
    eexists. split; [reflexivity|]. split; [exact Hr|]. split.
    + intros ->. rewrite same_refl in Hsame. discriminate.
    + intros _. split; [reflexivity | repeat split].
Qed.

(** C5: in every reachable state the Snake's cells are pairwise distinct.
    A tick whose new head is one of the Snake's cells, the last one
    included, ends the run: it returns with the running flag cleared, the
    timer stopped, the message "Game Over — You bit yourself! Press R to
    restart." shown, and the Snake as it was; the colliding head is not
    added, so no overlapping snake is produced. *)
Theorem snake_never_overlaps (s : State) :
  0 < COLS -> 0 < ROWS -> reachable COLS ROWS s ->
  NoDup (snake s) /\
  forall rnd head tl,
    running s = true -> paused s = false -> snake s = head :: tl ->
    let nh := newHead COLS ROWS (toggleWrap s) head (dir s) in
    (In nh (snake s) \/ nh = last (snake s) head ->
       step COLS ROWS rnd s = Done (gameOver bit_self s) /\
       running (settle (step COLS ROWS rnd s)) = false /\
       message (settle (step COLS ROWS rnd s))
         = Some "Game Over — You bit yourself! Press R to restart."%string /\
       loopHandle (settle (step COLS ROWS rnd s)) = None /\
       snake (settle (step COLS ROWS rnd s)) = snake s /\
       NoDup (snake (settle (step COLS ROWS rnd s)))).
Proof.
  intros HC HR Hreach.
  pose proof (reachable_snake_ok COLS ROWS s Hreach) as (Hnd & _ & _).
  pose proof (reachable_in_grid COLS ROWS HC HR s Hreach) as Hg.
  split; [exact Hnd|]. intros rnd head tl Hr Hp Hs nh Hhit.
  assert (Hin : In nh (snake s)).
  { destruct Hhit as [Hin | ->]; [exact Hin|].
    apply last_nonempty_In. rewrite Hs. discriminate. }
  assert (Hstep : step COLS ROWS rnd s = Done (gameOver bit_self s)).
  { rewrite (step_running COLS ROWS rnd s head tl Hr Hp Hs).
    assert (Hmv : moveHead COLS ROWS (toggleWrap s) head (dir s) = Some nh).
    { unfold moveHead. fold nh. destruct (toggleWrap s); [reflexivity|].
      destruct (outside COLS ROWS nh) eqn:Hout; [|reflexivity].
      exfalso. unfold snake_in_grid in Hg. rewrite Forall_forall in Hg.
      destruct (Hg nh Hin) as [Hx Hy].
      unfold outside in Hout. rewrite !orb_true_iff in Hout. lia. }
    rewrite Hmv. apply some_at_In in Hin. rewrite Hin. reflexivity. }
  split; [exact Hstep|]. rewrite Hstep.
  destruct (gameOver_effect bit_self s) as (G1 & G2 & G3 & G4).
  cbn [settle]. split; [exact G1|]. split; [exact G2|].
  split; [exact G3|]. split; [exact G4|]. rewrite G4. exact Hnd.
Qed.

(** C7: for an in-bounds head and a unit direction.  With wrap enabled the
    new head is the positive modulo of the raw coordinates, lies in the grid,
    is the raw cell when that is in the grid, and otherwise sits on the
    opposite edge with the orthogonal coordinate kept; a tick whose wrapped
    head hits neither snake nor obstacle returns with the game running and
    that cell at the front of the snake, and no tick ends at a wall.  With
    wrap disabled a raw cell outside the grid ends the run: the tick returns
    with the running flag cleared, the timer stopped, the message
    "Game Over — Hit the wall! Press R to restart." shown and the snake as
    it was. *)
Theorem wrap_or_wall (h : Cell) (k : Direction) :
  0 < COLS -> 0 < ROWS -> in_grid COLS ROWS h ->
  let d := delta k in
  let raw := mkCell (cx h + cx d) (cy h + cy d) in
  let wrapped :=
    mkCell (posmod_spec (cx raw) COLS) (posmod_spec (cy raw) ROWS) in
  moveHead COLS ROWS true h d = Some wrapped /\
  in_grid COLS ROWS wrapped /\
  (in_grid COLS ROWS raw -> wrapped = raw) /\
  (cx raw = COLS -> wrapped = mkCell 0 (cy h)) /\
  (cx raw = -1 -> wrapped = mkCell (COLS - 1) (cy h)) /\
  (cy raw = ROWS -> wrapped = mkCell (cx h) 0) /\
  (cy raw = -1 -> wrapped = mkCell (cx h) (ROWS - 1)) /\
  forall rnd s tl,
    running s = true -> paused s = false ->
    snake s = h :: tl -> dir s = d ->
    (toggleWrap s = true -> forall s',
       step COLS ROWS rnd s = Done s' ->
       (running s' = true /\ hd_error (snake s') = Some wrapped) \/
       s' = gameOver bit_self s \/ s' = gameOver hit_obstacle s) /\
    (toggleWrap s = true -> forall obs f,
       obstacles s = Some obs -> food s = Some f ->
       ~ In wrapped (snake s) -> ~ In wrapped obs ->
       exists s',
         step COLS ROWS rnd s = Done s' /\ running s' = true /\
         hd_error (snake s') = Some wrapped) /\
    (toggleWrap s = false -> ~ in_grid COLS ROWS raw ->
       step COLS ROWS rnd s = Done (gameOver hit_wall s) /\
       running (settle (step COLS ROWS rnd s)) = false /\
       message (settle (step COLS ROWS rnd s))
         = Some "Game Over — Hit the wall! Press R to restart."%string /\
       loopHandle (settle (step COLS ROWS rnd s)) = None /\
       snake (settle (step COLS ROWS rnd s)) = snake s).
Proof.
  intros HC HR Hin d raw wrapped.
  pose proof (moveHead_wrap COLS ROWS h k HC HR Hin) as Hmv. fold d in Hmv.
  change (moveHead COLS ROWS true h d = Some wrapped) in Hmv.
  destruct Hin as [Hx Hy]. pose proof (delta_unit k) as (Dx & Dy & Dz).
  fold d in Dx, Dy, Dz.
  assert (Ex : posmod_spec (cx raw) COLS =
               if cx raw =? -1 then COLS - 1
               else if cx raw =? COLS then 0 else cx raw)
    by (apply posmod_coord; simpl; lia).
  assert (Ey : posmod_spec (cy raw) ROWS =
               if cy raw =? -1 then ROWS - 1
               else if cy raw =? ROWS then 0 else cy raw)
    by (apply posmod_coord; simpl; lia).
  assert (Hw : in_grid COLS ROWS wrapped).
  { unfold in_grid, wrapped. cbn [cx cy]. rewrite Ex, Ey.
    destruct (Z.eqb_spec (cx raw) (-1)), (Z.eqb_spec (cx raw) COLS),
      (Z.eqb_spec (cy raw) (-1)), (Z.eqb_spec (cy raw) ROWS);
      simpl in *; lia. }
  split; [exact Hmv|]. split; [exact Hw|].
  assert (Hcoords :
            (in_grid COLS ROWS raw -> wrapped = raw) /\
            (cx raw = COLS -> wrapped = mkCell 0 (cy h)) /\
            (cx raw = -1 -> wrapped = mkCell (COLS - 1) (cy h)) /\
            (cy raw = ROWS -> wrapped = mkCell (cx h) 0) /\
            (cy raw = -1 -> wrapped = mkCell (cx h) (ROWS - 1))).
  { unfold wrapped. rewrite Ex, Ey.
    split; [|split; [|split; [|split]]].
    - intros [Rx Ry].
      destruct (Z.eqb_spec (cx raw) (-1)); [lia|].
      destruct (Z.eqb_spec (cx raw) COLS); [lia|].
      destruct (Z.eqb_spec (cy raw) (-1)); [lia|].
      destruct (Z.eqb_spec (cy raw) ROWS); [lia|]. reflexivity.
    - intros E.
      destruct (Z.eqb_spec (cx raw) (-1)); [lia|].
      destruct (Z.eqb_spec (cx raw) COLS); [|lia].
      assert (cy d = 0) by (simpl in *; lia).
      destruct (Z.eqb_spec (cy raw) (-1)); [simpl in *; lia|].
      destruct (Z.eqb_spec (cy raw) ROWS); [simpl in *; lia|].
      simpl. f_equal. lia.
    - intros E.
      destruct (Z.eqb_spec (cx raw) (-1)); [|lia].
      assert (cy d = 0) by (simpl in *; lia).
      destruct (Z.eqb_spec (cy raw) (-1)); [simpl in *; lia|].
      destruct (Z.eqb_spec (cy raw) ROWS); [simpl in *; lia|].
      simpl. f_equal. lia.
    - intros E.
      destruct (Z.eqb_spec (cy raw) (-1)); [lia|].
      destruct (Z.eqb_spec (cy raw) ROWS); [|lia].
      assert (cx d = 0) by (simpl in *; lia).
      destruct (Z.eqb_spec (cx raw) (-1)); [simpl in *; lia|].
      destruct (Z.eqb_spec (cx raw) COLS); [simpl in *; lia|].
      simpl. f_equal. lia.
    - intros E.
      destruct (Z.eqb_spec (cy raw) (-1)); [|lia].
      assert (cx d = 0) by (simpl in *; lia).
      destruct (Z.eqb_spec (cx raw) (-1)); [simpl in *; lia|].
      destruct (Z.eqb_spec (cx raw) COLS); [simpl in *; lia|].
      simpl. f_equal. lia. }
  destruct Hcoords as (C1 & C2 & C3 & C4 & C5).
  split; [exact C1|]. split; [exact C2|]. split; [exact C3|].
  split; [exact C4|]. split; [exact C5|].
  intros rnd s tl Hr Hp Hs Hd. split; [|split].
  - intros Hwrap s' Hstep.
    rewrite (step_running COLS ROWS rnd s h tl Hr Hp Hs), Hwrap, Hd, Hmv
      in Hstep.
    destruct (some_at wrapped (snake s));
      [injection Hstep as <-; auto|].
    destruct (obstacles s) as [obs|]; [|discriminate].
    destruct (some_at wrapped obs); [injection Hstep as <-; auto|].
    left.
    pose proof (eatOrMove_flags rnd wrapped
                  (with_snake (wrapped :: snake s) s)) as (_ & F & _).
    pose proof (eatOrMove_snake rnd wrapped
                  (with_snake (wrapped :: snake s) s)) as S.
    rewrite Hstep in F, S. simpl in F, S. split; [congruence|].
    rewrite S, Hs.
    destruct (food s) as [f|]; [|reflexivity].
    destruct (same wrapped f); reflexivity.
  - intros Hwrap obs f Hobs Hf Hself Hhit.
    assert (Hmv' : moveHead COLS ROWS (toggleWrap s) h (dir s) = Some wrapped)
      by (rewrite Hwrap, Hd; exact Hmv).
    destruct (step_advances rnd s h tl wrapped obs f Hr Hp Hs Hmv' Hself
                Hobs Hhit Hf) as (s' & E & Hrun & Heat & Hmove).
    exists s'. split; [exact E|]. split; [exact Hrun|].
    destruct (same wrapped f) eqn:Hsame.
    + apply same_spec in Hsame. rewrite (proj1 (Heat Hsame)). reflexivity.
    + assert (N : wrapped <> f)
        by (intros En; rewrite En, same_refl in Hsame; discriminate).
      rewrite (proj1 (Hmove N)), Hs. reflexivity.
  - intros Hwrap Hout.
    assert (Hstep : step COLS ROWS rnd s = Done (gameOver hit_wall s)).
    { rewrite (step_running COLS ROWS rnd s h tl Hr Hp Hs), Hwrap, Hd.
      unfold moveHead, newHead. fold raw.
      destruct (outside COLS ROWS raw) eqn:E; [reflexivity|].
      exfalso. apply Hout. unfold outside in E.
      rewrite !orb_false_iff in E.
      destruct E as [[[E1 E2] E3] E4]. unfold in_grid. lia. }
    split; [exact Hstep|]. rewrite Hstep. cbn [settle].
    destruct (gameOver_effect hit_wall s) as (G1 & G2 & G3 & G4).
    split; [exact G1|]. split; [exact G2|]. split; [exact G3 | exact G4].
Qed.

End Outcomes.

Lemma at_wall10_reachable : reachable 10 10 at_wall10.
Proof. unfold at_wall10. apply reachable_run. exact boot10_reachable. Qed.

Lemma before_level2_10_reachable : reachable 10 10 before_level2_10.
Proof.
  unfold before_level2_10. apply reachable_run. exact boot10_reachable.
Qed.

(** The self-bite of [before_bite10]: the tick that consumes Left. *)
Lemma snake_never_overlaps_witness :
  0 < 10 /\ reachable 10 10 before_bite10 /\
  running before_bite10 = true /\ paused before_bite10 = false /\
  snake before_bite10 = [mkCell 6 5; mkCell 5 5] /\
  In (newHead 10 10 (toggleWrap before_bite10) (mkCell 6 5)
        (dir before_bite10)) (snake before_bite10) /\
  running (settle (step 10 10 (always (mkCell 2 2)) before_bite10)) = false /\
  message (settle (step 10 10 (always (mkCell 2 2)) before_bite10))
    = Some "Game Over — You bit yourself! Press R to restart."%string /\
  snake (settle (step 10 10 (always (mkCell 2 2)) before_bite10))
    = snake before_bite10.
Proof.
  assert (H : 0 < 10) by lia.
  assert (H1 : running before_bite10 = true) by (vm_compute; reflexivity).
  assert (H2 : paused before_bite10 = false) by (vm_compute; reflexivity).
  assert (H3 : snake before_bite10 = [mkCell 6 5; mkCell 5 5])
    by (vm_compute; reflexivity).
  assert (H4 : In (newHead 10 10 (toggleWrap before_bite10) (mkCell 6 5)
                     (dir before_bite10)) (snake before_bite10)).
  { rewrite H3. right. left. vm_compute. reflexivity. }
  split; [exact H|]. split; [exact before_bite10_reachable|].
  split; [exact H1|]. split; [exact H2|]. split; [exact H3|].
  split; [exact H4|].
  destruct (proj2 (snake_never_overlaps 10 10 before_bite10 H H
                     before_bite10_reachable)
              (always (mkCell 2 2)) (mkCell 6 5) [mkCell 5 5] H1 H2 H3
              (or_introl H4)) as (_ & R & M & _ & S & _).
  split; [exact R|]. split; [exact M | exact S].
Defined.

(** The snake at the right edge moving Right: a wall hit with wrap off, a
    reappearance at column 0 with wrap on. *)
Lemma wrap_or_wall_witness :
  0 < 10 /\ in_grid 10 10 (mkCell 9 5) /\
  (running at_wall10 = true /\ paused at_wall10 = false /\
   snake at_wall10 = [mkCell 9 5] /\ dir at_wall10 = delta Right /\
   toggleWrap at_wall10 = false /\ ~ in_grid 10 10 (mkCell 10 5)) /\
  (running (settle (step 10 10 (always (mkCell 0 0)) at_wall10)) = false /\
   message (settle (step 10 10 (always (mkCell 0 0)) at_wall10))
     = Some "Game Over — Hit the wall! Press R to restart."%string) /\
  (running at_wall10_wrap = true /\ paused at_wall10_wrap = false /\
   snake at_wall10_wrap = [mkCell 9 5] /\ dir at_wall10_wrap = delta Right /\
   toggleWrap at_wall10_wrap = true /\
   obstacles at_wall10_wrap = Some [] /\
   food at_wall10_wrap = Some (mkCell 0 0)) /\
  exists s',
    step 10 10 (always (mkCell 0 0)) at_wall10_wrap = Done s' /\
    running s' = true /\ hd_error (snake s') = Some (mkCell 0 5).
Proof.
  assert (H : 0 < 10) by lia.
  assert (G : in_grid 10 10 (mkCell 9 5)) by (unfold in_grid; simpl; lia).
  assert (A1 : running at_wall10 = true) by (vm_compute; reflexivity).
  assert (A2 : paused at_wall10 = false) by (vm_compute; reflexivity).
  assert (A3 : snake at_wall10 = [mkCell 9 5]) by (vm_compute; reflexivity).
  assert (A4 : dir at_wall10 = delta Right) by (vm_compute; reflexivity).
  assert (A5 : toggleWrap at_wall10 = false) by (vm_compute; reflexivity).
  assert (A6 : ~ in_grid 10 10 (mkCell 10 5))
    by (unfold in_grid; simpl; lia).
  assert (B1 : running at_wall10_wrap = true) by (vm_compute; reflexivity).
  assert (B2 : paused at_wall10_wrap = false) by (vm_compute; reflexivity).
  assert (B3 : snake at_wall10_wrap = [mkCell 9 5])
    by (vm_compute; reflexivity).
  assert (B4 : dir at_wall10_wrap = delta Right) by (vm_compute; reflexivity).
  assert (B5 : toggleWrap at_wall10_wrap = true) by (vm_compute; reflexivity).
  assert (B6 : obstacles at_wall10_wrap = Some [])
    by (vm_compute; reflexivity).
  assert (B7 : food at_wall10_wrap = Some (mkCell 0 0))
    by (vm_compute; reflexivity).
  pose proof (wrap_or_wall 10 10 (mkCell 9 5) Right H H G)
    as (_ & _ & _ & _ & _ & _ & _ & Hticks).
  split; [exact H|]. split; [exact G|].
  split; [repeat (split; [assumption|]); exact A6|].
  split.
  - destruct (proj2 (proj2 (Hticks (always (mkCell 0 0)) at_wall10 []
                              A1 A2 A3 A4)) A5 A6) as (_ & R & M & _).
    split; [exact R | exact M].
  - split; [repeat (split; [assumption|]); exact B7|].
    refine (proj1 (proj2 (Hticks (always (mkCell 0 0)) at_wall10_wrap []
                            B1 B2 B3 B4)) B5 [] (mkCell 0 0) B6 B7 _ _).
    + rewrite B3. intros [E | []]. discriminate E.
    + intros [].
Defined.

(** * Score and level across a tick *)

(** The numbers after a tick that returned with the game running. *)
Lemma tick_score_level (COLS ROWS : Z) (s : State) (n l : Z) :
  reachable COLS ROWS s -> score s = Some n -> level s = Some l ->
  forall rnd head tl f s',
    running s = true -> paused s = false ->
    snake s = head :: tl -> food s = Some f ->
    step COLS ROWS rnd s = Done s' -> running s' = true ->
    exists nh l',
      moveHead COLS ROWS (toggleWrap s) head (dir s) = Some nh /\
      (nh = f -> score s' = Some (n + 1) /\
                 l' = if Z.rem (n + 1) POINTS_PER_LEVEL =? 0
                      then l + 1 else l) /\
      (nh <> f -> score s' = Some n /\ l' = l) /\
      level s' = Some l' /\
      stepInterval s' =
        Some (Z.max 30 (BASE_SPEED - (l' - 1) * SPEED_STEP)).
Proof.
  intros Hreach Hsc Hl rnd head tl f s' Hr Hp Hs Hf Hstep Hrun.
  destruct (step_moves COLS ROWS rnd s s' head tl Hr Hp Hs Hstep Hrun)
    as (nh & f' & obs & Hmv & Hf' & Hobs & _ & _ & Heat & _).
  assert (f' = f) by congruence. subst f'.
  assert (Hreach' : reachable COLS ROWS s').
  { replace s' with (handle COLS ROWS (Tick rnd) s);
      [constructor; exact Hreach|]. simpl. rewrite Hstep. reflexivity. }
  pose proof (reachable_interval_ok COLS ROWS s' Hreach') as Hint.
  destruct (same nh f) eqn:Hsame.
  - destruct (eatOrMove_eat rnd nh (with_snake (nh :: snake s) s) f obs
                Hf Hsame Hobs) as (s'' & E & Hsc' & Hl' & _).
    rewrite Heat in E. injection E as <-. cbn in Hsc', Hl'.
    rewrite Hsc in Hsc', Hl'. rewrite Hl in Hl'.
    unfold js_incr, js_rem_is_zero in *. cbn in Hsc', Hl'.
    apply same_spec in Hsame.
    exists nh, (if Z.rem (n + 1) POINTS_PER_LEVEL =? 0 then l + 1 else l).
    assert (Hlev : level s' =
              Some (if Z.rem (n + 1) POINTS_PER_LEVEL =? 0
                    then l + 1 else l))
      by (rewrite Hl'; destruct (_ =? 0); reflexivity).
    repeat split; try assumption; try congruence.
    apply Hint. exact Hlev.
  - rewrite (eatOrMove_move rnd nh (with_snake (nh :: snake s) s) f
               Hf Hsame) in Heat.
    injection Heat as <-.
    assert (nh <> f) by (intros E; apply same_spec in E; congruence).
    exists nh, l. repeat split; try assumption; try congruence.
    apply (reachable_interval_ok COLS ROWS s Hreach l Hl).
Qed.

(** C8: in a reachable state with a score and a level, the tick interval is
    max(30, BASE_SPEED - (level-1)*SPEED_STEP), a quantity that is at least
    30 and does not grow with the level.  A tick of the running game whose
    new head hits neither wall, snake nor obstacle returns with the game
    running; if the new head is the food it has added exactly 1 to the
    score, and 1 to the level exactly when the new score is a multiple of
    POINTS_PER_LEVEL; if it is not the food, score and level are as before;
    the interval after the tick is again the one of the level. *)
Theorem score_level_interval (COLS ROWS : Z) (s : State) (n l : Z) :
  reachable COLS ROWS s -> score s = Some n -> level s = Some l ->
  stepInterval s = Some (Z.max 30 (BASE_SPEED - (l - 1) * SPEED_STEP)) /\
  30 <= speedFor l /\
  (forall l', l <= l' -> speedFor l' <= speedFor l) /\
  (forall rnd head tl nh,
     running s = true -> paused s = false -> snake s = head :: tl ->
     moveHead COLS ROWS (toggleWrap s) head (dir s) = Some nh ->
     ~ In nh (snake s) ->
     (forall obs, obstacles s = Some obs -> ~ In nh obs) ->
     exists s' f l',
       step COLS ROWS rnd s = Done s' /\ running s' = true /\
       food s = Some f /\
       (nh = f -> score s' = Some (n + 1) /\
                  l' = if Z.rem (n + 1) POINTS_PER_LEVEL =? 0
                       then l + 1 else l) /\
       (nh <> f -> score s' = Some n /\ l' = l) /\
       level s' = Some l' /\
       stepInterval s' =
         Some (Z.max 30 (BASE_SPEED - (l' - 1) * SPEED_STEP))) /\
  forall rnd head tl f s',
    running s = true -> paused s = false ->
    snake s = head :: tl -> food s = Some f ->
    step COLS ROWS rnd s = Done s' -> running s' = true ->
    exists nh l',
      moveHead COLS ROWS (toggleWrap s) head (dir s) = Some nh /\
      (nh = f -> score s' = Some (n + 1) /\
                 l' = if Z.rem (n + 1) POINTS_PER_LEVEL =? 0
                      then l + 1 else l) /\
      (nh <> f -> score s' = Some n /\ l' = l) /\
      level s' = Some l' /\
      stepInterval s' =
        Some (Z.max 30 (BASE_SPEED - (l' - 1) * SPEED_STEP)).
Proof.
  intros Hreach Hsc Hl.
  split; [exact (reachable_interval_ok COLS ROWS s Hreach l Hl)|].
  split; [apply speedFor_floor|].
  split; [intros l'; apply speedFor_antitone|].
  split; [|exact (tick_score_level COLS ROWS s n l Hreach Hsc Hl)].
  intros rnd head tl nh Hr Hp Hs Hmv Hself Hhit.
  destruct (reachable_board_ok COLS ROWS s Hreach) as (_ & _ & Hcount & _).
  destruct (Hcount n Hsc) as (_ & _ & _ & Hfood & Hobst).
  destruct (food s) as [f|] eqn:Hf; [|congruence].
  destruct (obstacles s) as [obs|] eqn:Hobs; [|congruence].
  destruct (step_advances COLS ROWS rnd s head tl nh obs f Hr Hp Hs Hmv
              Hself Hobs (Hhit obs eq_refl) Hf)
    as (s' & Hstep & Hrun & _).
  destruct (tick_score_level COLS ROWS s n l Hreach Hsc Hl rnd head tl f s'
              Hr Hp Hs Hf Hstep Hrun)
    as (nh' & l' & Hmv' & Heat & Hmove & Hlev & Hint).
  assert (nh' = nh) by congruence. subst nh'.
  exists s', f, l'. split; [exact Hstep|]. split; [exact Hrun|].
  split; [reflexivity|]. split; [exact Heat|]. split; [exact Hmove|].
  split; [exact Hlev | exact Hint].
Qed.

(** The tick that eats the fifth food: score 4 to 5, level 1 to 2, the
    interval from 140 to 130. *)
Lemma score_level_interval_witness :
  reachable 10 10 before_level2_10 /\
  score before_level2_10 = Some 4 /\ level before_level2_10 = Some 1 /\
  (running before_level2_10 = true /\ paused before_level2_10 = false /\
   snake before_level2_10 =
     [mkCell 9 5; mkCell 8 5; mkCell 7 5; mkCell 6 5; mkCell 5 5] /\
   moveHead 10 10 (toggleWrap before_level2_10) (mkCell 9 5)
     (dir before_level2_10) = Some (mkCell 9 6) /\
   food before_level2_10 = Some (mkCell 9 6)) /\
  exists s',
    step 10 10 (from_list [mkCell 0 0] (mkCell 3 3)) before_level2_10
      = Done s' /\
    running s' = true /\ score s' = Some 5 /\ level s' = Some 2 /\
    stepInterval s' = Some 130.
Proof.
  assert (H1 : score before_level2_10 = Some 4) by (vm_compute; reflexivity).
  assert (H2 : level before_level2_10 = Some 1) by (vm_compute; reflexivity).
  assert (A1 : running before_level2_10 = true) by (vm_compute; reflexivity).
  assert (A2 : paused before_level2_10 = false) by (vm_compute; reflexivity).
  assert (A3 : snake before_level2_10 =
               [mkCell 9 5; mkCell 8 5; mkCell 7 5; mkCell 6 5; mkCell 5 5])
    by (vm_compute; reflexivity).
  assert (A4 : moveHead 10 10 (toggleWrap before_level2_10) (mkCell 9 5)
                 (dir before_level2_10) = Some (mkCell 9 6))
    by (vm_compute; reflexivity).
  assert (A5 : food before_level2_10 = Some (mkCell 9 6))
    by (vm_compute; reflexivity).
  assert (A6 : obstacles before_level2_10 = Some [])
    by (vm_compute; reflexivity).
  split; [exact before_level2_10_reachable|].
  split; [exact H1|]. split; [exact H2|].
  split; [split; [exact A1|]; split; [exact A2|]; split; [exact A3|];
          split; [exact A4 | exact A5]|].
  destruct (proj1 (proj2 (proj2 (proj2
              (score_level_interval 10 10 before_level2_10 4 1
                 before_level2_10_reachable H1 H2))))
              (from_list [mkCell 0 0] (mkCell 3 3)) (mkCell 9 5)
              [mkCell 8 5; mkCell 7 5; mkCell 6 5; mkCell 5 5] (mkCell 9 6)
              A1 A2 A3 A4)
    as (s' & f & l' & Hstep & Hrun & Hf & Heat & _ & Hlev & Hint).
  - rewrite A3. intros [E | [E | [E | [E | [E | []]]]]]; discriminate E.
  - intros obs Ho. rewrite A6 in Ho. injection Ho as <-. intros [].
  - assert (f = mkCell 9 6) by congruence. subst f.
    destruct (Heat eq_refl) as [Hs5 Hl2].
    exists s'. split; [exact Hstep|]. split; [exact Hrun|].
    split; [exact Hs5|]. rewrite Hint, Hlev, Hl2.
    split; reflexivity.
Defined.

(** * The length of the snake across a tick *)

Lemma no_food10_reachable : reachable 10 10 no_food10.
Proof. unfold no_food10. apply reachable_run. exact boot10_reachable. Qed.

(** C6: the claim fails on a reachable run.  On a 10 x 10 grid, after the
    obstacle box has been checked and unchecked and Start pressed, the game
    is running without food (no [initGame] has completed).  Each tick then
    puts the new head in front and throws on reading [food.x], before
    [snake.pop()]: the run is not ended, the new head is not the food, and
    the snake is one cell longer, 1 to 2 to 3 cells over two ticks. *)
Theorem tick_without_food_grows_snake :
  reachable 10 10 no_food10 /\
  running no_food10 = true /\ paused no_food10 = false /\
  food no_food10 = None /\ snake no_food10 = [mkCell 5 5] /\
  forall rnd rnd',
    step 10 10 rnd no_food10
      = Threw (with_snake [mkCell 6 5; mkCell 5 5] no_food10) /\
    running (settle (step 10 10 rnd no_food10)) = true /\
    List.length (snake (settle (step 10 10 rnd no_food10))) = 2%nat /\
    step 10 10 rnd' (settle (step 10 10 rnd no_food10))
      = Threw (with_snake [mkCell 7 5; mkCell 6 5; mkCell 5 5] no_food10) /\
    running (settle (step 10 10 rnd' (settle (step 10 10 rnd no_food10))))
      = true.
Proof.
  split; [exact no_food10_reachable|].
  split; [vm_compute; reflexivity|]. split; [vm_compute; reflexivity|].
  split; [vm_compute; reflexivity|]. split; [vm_compute; reflexivity|].
  intros rnd rnd'.
  assert (E1 : step 10 10 rnd no_food10
               = Threw (with_snake [mkCell 6 5; mkCell 5 5] no_food10))
    by (vm_compute; reflexivity).
  split; [exact E1|]. rewrite E1. cbn [settle].
  split; [vm_compute; reflexivity|]. split; [reflexivity|].
  assert (E2 : step 10 10 rnd'
                 (with_snake [mkCell 6 5; mkCell 5 5] no_food10)
               = Threw (with_snake [mkCell 7 5; mkCell 6 5; mkCell 5 5]
                          no_food10))
    by (vm_compute; reflexivity).
  split; [exact E2|]. rewrite E2. vm_compute. reflexivity.
Qed.

(** X20: in a state whose food and obstacles are defined, a tick of the
    running game whose new head hits neither wall, snake nor obstacle
    returns with the game running and the new head in front: when the new
    head is not the food the last cell is dropped and the length is
    unchanged; when it is the food nothing is dropped and the length grows
    by one. *)
Theorem tick_moves_or_grows (COLS ROWS : Z) rnd s head tl nh obs f :
  running s = true -> paused s = false -> snake s = head :: tl ->
  moveHead COLS ROWS (toggleWrap s) head (dir s) = Some nh ->
  ~ In nh (snake s) -> obstacles s = Some obs -> ~ In nh obs ->
  food s = Some f ->
  exists s',
    step COLS ROWS rnd s = Done s' /\ running s' = true /\
    hd_error (snake s') = Some nh /\
    (nh <> f ->
       snake s' = nh :: removelast (snake s) /\
       List.length (snake s') = List.length (snake s)) /\
    (nh = f ->
       snake s' = nh :: snake s /\
       List.length (snake s') = S (List.length (snake s))).
Proof.
  intros Hr Hp Hs Hmv Hself Hobs Hhit Hf.
  destruct (step_advances COLS ROWS rnd s head tl nh obs f Hr Hp Hs Hmv
              Hself Hobs Hhit Hf) as (s' & E & Hrun & Heat & Hmove).
  exists s'. split; [exact E|]. split; [exact Hrun|].
  assert (Hdrop : removelast (nh :: snake s) = nh :: removelast (snake s))
    by (rewrite Hs; reflexivity).
  split; [|split].
  - destruct (same nh f) eqn:Hsame.
    + apply same_spec in Hsame. rewrite (proj1 (Heat Hsame)). reflexivity.
    + assert (N : nh <> f)
        by (intros En; rewrite En, same_refl in Hsame; discriminate).
      rewrite (proj1 (Hmove N)), Hdrop. reflexivity.
  - intros N. destruct (Hmove N) as [S _]. rewrite S.
    split; [exact Hdrop|]. apply length_removelast_cons.
  - intros En. destruct (Heat En) as [S _]. rewrite S.
    split; reflexivity.
Qed.

Lemma tick_moves_or_grows_witness :
  (running fresh10 = true /\ paused fresh10 = false /\
   snake fresh10 = [mkCell 5 5] /\
   moveHead 10 10 (toggleWrap fresh10) (mkCell 5 5) (dir fresh10)
     = Some (mkCell 6 5) /\
   obstacles fresh10 = Some [] /\ food fresh10 = Some (mkCell 6 5)) /\
  exists s',
    step 10 10 (always (mkCell 2 2)) fresh10 = Done s' /\
    snake s' = [mkCell 6 5; mkCell 5 5].
Proof.
  assert (A1 : running fresh10 = true) by (vm_compute; reflexivity).
  assert (A2 : paused fresh10 = false) by (vm_compute; reflexivity).
  assert (A3 : snake fresh10 = [mkCell 5 5]) by (vm_compute; reflexivity).
  assert (A4 : moveHead 10 10 (toggleWrap fresh10) (mkCell 5 5)
                 (dir fresh10) = Some (mkCell 6 5))
    by (vm_compute; reflexivity).
  assert (A5 : obstacles fresh10 = Some []) by (vm_compute; reflexivity).
  assert (A6 : food fresh10 = Some (mkCell 6 5)) by (vm_compute; reflexivity).
  split; [split; [exact A1|]; split; [exact A2|]; split; [exact A3|];
          split; [exact A4|]; split; [exact A5 | exact A6]|].
  destruct (tick_moves_or_grows 10 10 (always (mkCell 2 2)) fresh10
              (mkCell 5 5) [] (mkCell 6 5) [] (mkCell 6 5) A1 A2 A3 A4)
    as (s' & E & _ & _ & _ & Hgrow); try assumption.
  - rewrite A3. intros [En | []]. discriminate En.
  - intros [].
  - exists s'. split; [exact E|].
    rewrite (proj1 (Hgrow eq_refl)), A3. reflexivity.
Defined.

(** * Drawing *)

(** X16: [drawCell] fills exactly the 15 x 15 pixel square at the top left
    of the 16-pixel tile of its cell.  A filled pixel therefore determines
    the cell, as (floor(px/16), floor(py/16)), so the squares of different
    cells never overlap; and for a cell of the grid, with COLS and ROWS
    computed from the canvas size as in the script, every filled pixel lies
    inside the canvas. *)
Theorem drawCell_inside_its_tile (width height : Z) (c : Cell) (px py : Z) :
  (covers (drawCell c) px py <->
   (cx c * 16 <= px <= cx c * 16 + 14 /\
    cy c * 16 <= py <= cy c * 16 + 14)) /\
  (covers (drawCell c) px py ->
   (cx c = px / TILE /\ cy c = py / TILE) /\
   forall c', covers (drawCell c') px py -> c' = c) /\
  (in_grid (width / TILE) (height / TILE) c ->
   covers (drawCell c) px py ->
   0 <= px < width /\ 0 <= py < height).
Proof.
  unfold in_grid, covers, drawCell, TILE. simpl.
  split; [lia|]. split.
  - intros [Px Py].
    split; [split; Z.div_mod_to_equations; lia|].
    intros [x' y'] [Qx Qy]. simpl in *.
    destruct c as [x y]. simpl in *. f_equal; lia.
  - intros [Hx Hy] [Px Py]. split; Z.div_mod_to_equations; lia.
Qed.

Lemma drawCell_inside_its_tile_witness :
  in_grid (160 / TILE) (160 / TILE) (mkCell 9 5) /\
  covers (drawCell (mkCell 9 5)) 158 94 /\
  ~ covers (drawCell (mkCell 9 5)) 159 94 /\
  ~ covers (drawCell (mkCell 9 5)) 158 95 /\
  0 <= 158 < 160.
Proof.
  assert (H : in_grid (160 / TILE) (160 / TILE) (mkCell 9 5))
    by (unfold in_grid, TILE; simpl; Z.div_mod_to_equations; lia).
  pose proof (drawCell_inside_its_tile 160 160 (mkCell 9 5) 158 94)
    as (Hiff & _ & Hin).
  assert (G : covers (drawCell (mkCell 9 5)) 158 94)
    by (apply Hiff; simpl; lia).
  split; [exact H|]. split; [exact G|].
  split; [|split].
  - intros C.
    apply (proj1 (drawCell_inside_its_tile 160 160 (mkCell 9 5) 159 94))
      in C.
    simpl in C. lia.
  - intros C.
    apply (proj1 (drawCell_inside_its_tile 160 160 (mkCell 9 5) 158 95))
      in C.
    simpl in C. lia.
  - exact (proj1 (Hin H G)).
Defined.

Lemma drawSnake_rects sn : forall idx,
  map fst (drawSnake idx sn) = map drawCell sn.
Proof.
  induction sn as [|c sn IH]; intros idx; [reflexivity|].
  simpl. f_equal. apply IH.
Qed.

Lemma drawSnake_styles sn : forall idx,
  map snd (drawSnake idx sn) = map snakeStyle (seq idx (List.length sn)).
Proof.
  induction sn as [|c sn IH]; intros idx; [reflexivity|].
  simpl. f_equal. apply IH.
Qed.

Lemma obstacle_rects obs :
  map fst (map (fun o => (drawCell o, ObstaclePurple)) obs)
    = map drawCell obs /\
  map snd (map (fun o => (drawCell o, ObstaclePurple)) obs)
    = repeat ObstaclePurple (List.length obs).
Proof.
  induction obs as [|o obs [IH1 IH2]]; [split; reflexivity|].
  simpl. rewrite IH1, IH2. split; reflexivity.
Qed.

(** X18: with COLS and ROWS computed from the canvas size (both positive)
    and every sample in the grid, after any run of events: [draw] returns
    as soon as there is a score; when it returns, the rectangles it has
    filled are, in order, the square of the food in the food style, the
    square of each obstacle in the obstacle style, and the square of each
    snake cell, the first in the head style and the others in the body
    style of their index; and every pixel it fills lies inside the
    canvas. *)
Theorem draw_stays_inside_canvas (width height : Z) rnd wrap obst stored msg
    (evs : list Event) :
  0 < width / TILE -> 0 < height / TILE ->
  Forall (draws_in_grid (width / TILE) (height / TILE)) evs ->
  (score (run (width / TILE) (height / TILE) evs
            (loaded (width / TILE) (height / TILE) rnd wrap obst stored msg))
     <> None ->
   draw (run (width / TILE) (height / TILE) evs
           (loaded (width / TILE) (height / TILE) rnd wrap obst stored msg))
     <> None) /\
  forall cmds,
    draw (run (width / TILE) (height / TILE) evs
            (loaded (width / TILE) (height / TILE) rnd wrap obst stored msg))
      = Some cmds ->
    (exists f obs sn,
       food (run (width / TILE) (height / TILE) evs
               (loaded (width / TILE) (height / TILE) rnd wrap obst
                  stored msg)) = Some f /\
       obstacles (run (width / TILE) (height / TILE) evs
                    (loaded (width / TILE) (height / TILE) rnd wrap obst
                       stored msg)) = Some obs /\
       snake (run (width / TILE) (height / TILE) evs
                (loaded (width / TILE) (height / TILE) rnd wrap obst
                   stored msg)) = sn /\
       map fst cmds = drawCell f :: map drawCell obs ++ map drawCell sn /\
       map snd cmds =
         FoodRed :: repeat ObstaclePurple (List.length obs)
           ++ map snakeStyle (seq 0 (List.length sn)) /\
       List.length cmds = S (List.length obs + List.length sn)) /\
    forall r st px py,
      In (r, st) cmds -> covers r px py ->
      0 <= px < width /\ 0 <= py < height.
Proof.
  intros HC HR Hevs.
  set (COLS := width / TILE) in *. set (ROWS := height / TILE) in *.
  set (s := run COLS ROWS evs (loaded COLS ROWS rnd wrap obst stored msg)).
  assert (Hreach : reachable COLS ROWS s)
    by (apply reachable_run; constructor).
  pose proof (reachable_in_grid COLS ROWS HC HR s Hreach) as Hsn.
  destruct (run_placed COLS ROWS HC HR evs _ Hevs
              (loaded_placed COLS ROWS rnd wrap obst stored msg))
    as [Hfd Hob]. fold s in Hfd, Hob.
  destruct (reachable_board_ok COLS ROWS s Hreach) as (_ & _ & Hsc & _).
  split.
  - intros Hscore. destruct (score s) as [n|] eqn:Hn; [|congruence].
    destruct (Hsc n Hn) as (_ & _ & _ & Hf & Ho).
    unfold draw. destruct (food s); [|congruence].
    destruct (obstacles s); [discriminate | congruence].
  - intros cmds Hdraw. unfold draw in Hdraw.
    destruct (food s) as [f|] eqn:Hf; [|discriminate].
    destruct (obstacles s) as [obs|] eqn:Hobs; [|discriminate].
    injection Hdraw as <-. split.
    + exists f, obs, (snake s).
      destruct (obstacle_rects obs) as [O1 O2].
      split; [reflexivity|]. split; [reflexivity|]. split; [reflexivity|].
      cbn [map fst snd]. rewrite !map_app, O1, O2.
      rewrite drawSnake_rects, drawSnake_styles.
      split; [reflexivity|]. split; [reflexivity|].
      cbn [List.length]. rewrite length_app, length_map.
      rewrite <- (length_map fst (drawSnake 0 (snake s))).
      rewrite drawSnake_rects, length_map. reflexivity.
    + intros r st px py Hin Hcov.
      assert (Hcell : exists c, in_grid COLS ROWS c /\ r = drawCell c).
      { destruct Hin as [[= <- _] | Hin].
        - exists f. split; [apply Hfd; reflexivity | reflexivity].
        - apply in_app_or in Hin. destruct Hin as [Hin | Hin].
          + apply in_map_iff in Hin. destruct Hin as (o & [= <- _] & Ho).
            exists o. split; [|reflexivity].
            pose proof (Hob obs eq_refl) as Hall.
            rewrite Forall_forall in Hall. apply Hall. exact Ho.
          + destruct (drawSnake_cells _ _ _ _ Hin) as (c & Hc & E).
            exists c. split; [|exact E].
            unfold snake_in_grid in Hsn. rewrite Forall_forall in Hsn.
            apply Hsn. exact Hc. }
      destruct Hcell as (c & Hc & ->).
      unfold in_grid, covers, drawCell, TILE, COLS, ROWS in *.
      simpl in Hcov. destruct Hc as [Hx Hy]. destruct Hcov as [Px Py].
      unfold TILE in *. split; Z.div_mod_to_equations; lia.
Qed.

Lemma draw_stays_inside_canvas_witness :
  0 < 160 / TILE /\
  Forall (draws_in_grid (160 / TILE) (160 / TILE)) (begin10 (mkCell 6 5)) /\
  draw (run (160 / TILE) (160 / TILE) (begin10 (mkCell 6 5))
          (loaded (160 / TILE) (160 / TILE) (always (mkCell 0 0)) false false
             None None))
    = Some [(drawCell (mkCell 6 5), FoodRed);
            (drawCell (mkCell 5 5), HeadGreen)] /\
  forall px py,
    covers (drawCell (mkCell 5 5)) px py -> 0 <= px < 160 /\ 0 <= py < 160.
Proof.
  assert (H : 0 < 160 / TILE) by (vm_compute; reflexivity).
  assert (G : Forall (draws_in_grid (160 / TILE) (160 / TILE))
                (begin10 (mkCell 6 5))).
  { unfold begin10, TILE.
    repeat constructor; simpl; Z.div_mod_to_equations; lia. }
  assert (D : draw (run (160 / TILE) (160 / TILE) (begin10 (mkCell 6 5))
                      (loaded (160 / TILE) (160 / TILE)
                         (always (mkCell 0 0)) false false None None))
              = Some [(drawCell (mkCell 6 5), FoodRed);
                      (drawCell (mkCell 5 5), HeadGreen)])
    by (vm_compute; reflexivity).
  split; [exact H|]. split; [exact G|]. split; [exact D|].
  intros px py C.
  refine (proj2 (proj2 (draw_stays_inside_canvas 160 160
                          (always (mkCell 0 0)) false false None None
                          (begin10 (mkCell 6 5)) H H G) _ D)
            (drawCell (mkCell 5 5)) HeadGreen px py _ C).
  right. left. reflexivity.
Defined.
